(** * Import/export statistics dashboard: the loader and the view layer

    A shallow embedding of [src/app.py]: [load_data] (lines 21-80) and
    [main] (lines 85-178).

    Conventions of the model.
    - A Python [str] is a Rocq [string] holding its UTF-8 bytes.  The
      characters the cleaning looks for (comma, hyphen, digits) are ASCII,
      and an ASCII byte never occurs inside a multi-byte sequence, so
      working on bytes and on code points agree there.
    - A float64 is [float64]: a finite value is the rational it stands
      for, beside the two infinities and NaN.  Whatever produces a float64
      (reading a text, an addition, a division) rounds to the nearest
      binary64 value, ties to even, and overflows to an infinity
      ([round64]); the sign of a zero is not kept.  An int64 is a [Z], and
      the cast of a float64 to int64 is [to_int64].
    - A DataFrame is its column labels and its rows; a row is the record of
      its cells by label.  Whether pandas stores a numeric column as int64
      or float64 is not kept: what [to_numeric] returns is taken as a
      float64 column.  pandas keeps such a column as int64 when every cell
      reads as an integer; the two hold the same values as long as these
      are below 2^53 in magnitude ([exactly_held]), and an int64 sum wraps
      around at 2^63.  Statements that depend on larger numbers say so.
    - What the program takes from outside (the file system, pandas' CSV
      reader, Python's formatting of a float, plotly, the widget state of
      the session) is gathered in the records [Env] and [Session].
    - [st.*] calls are recorded as a log of [event]s; exceptions are carried
      by the monad [Prog]. *)

From Stdlib Require Import String Ascii List ZArith QArith Qabs Bool Lia.
From Stdlib Require Import DecimalString.
From Stdlib Require Import Permutation Sorted.
Import ListNotations.

Open Scope string_scope.
Open Scope Z_scope.

(** ** Characters and strings *)

Definition is_digit (c : ascii) : bool :=
  let n := nat_of_ascii c in (48 <=? n)%nat && (n <=? 57)%nat.

Definition digit_value (c : ascii) : Z := Z.of_nat (nat_of_ascii c) - 48.

(** [isspace_ascii] of pandas' tokenizer: space and the codes 9..13. *)
Definition is_space (c : ascii) : bool :=
  let n := nat_of_ascii c in (n =? 32)%nat || ((9 <=? n)%nat && (n <=? 13)%nat).

Definition to_lower (c : ascii) : ascii :=
  let n := nat_of_ascii c in
  if (65 <=? n)%nat && (n <=? 90)%nat then ascii_of_nat (n + 32) else c.

Fixpoint lower (s : string) : string :=
  match s with
  | EmptyString => EmptyString
  | String c s' => String (to_lower c) (lower s')
  end.

(** [c in s] for a one-character [c]. *)
Fixpoint has_char (c : ascii) (s : string) : bool :=
  match s with
  | EmptyString => false
  | String d s' => Ascii.eqb d c || has_char c s'
  end.

(** [s.replace(old, new)] for a pattern [old] of one character, which both
    patterns of the source are. *)
Fixpoint str_replace (old : ascii) (new : string) (s : string) : string :=
  match s with
  | EmptyString => EmptyString
  | String d s' =>
      if Ascii.eqb d old then new ++ str_replace old new s'
      else String d (str_replace old new s')
  end.

(** [str(z)] of a Python integer. *)
Definition str_of_Z (z : Z) : string := NilZero.string_of_int (Z.to_int z).

(** Whitespace that [str.strip()] removes, as UTF-8 sequences: the ASCII
    codes 9..13 and 28..32, and U+0085, U+00A0, U+1680, U+2000..U+200A,
    U+2028, U+2029, U+202F, U+205F, U+3000. *)
Definition bytes (l : list nat) : string :=
  string_of_list_ascii (map ascii_of_nat l).

Definition py_whitespace : list string :=
  map bytes
    (List.app
       [[9]; [10]; [11]; [12]; [13]; [28]; [29]; [30]; [31]; [32];
        [194; 133]; [194; 160]; [225; 154; 128]]
       (List.app
          (map (fun k => [226; 128; 128 + k]) (seq 0 11))
          [[226; 128; 168]; [226; 128; 169]; [226; 128; 175];
           [226; 129; 159]; [227; 128; 128]]))%nat.

Fixpoint strip_prefix (p s : string) : option string :=
  match p, s with
  | EmptyString, _ => Some s
  | String a p', String b s' => if Ascii.eqb a b then strip_prefix p' s' else None
  | String _ _, EmptyString => None
  end.

(** Drop one leading whitespace character, if there is one. *)
Fixpoint drop_one (ws : list string) (s : string) : option string :=
  match ws with
  | [] => None
  | w :: ws' =>
      match strip_prefix w s with
      | Some r => Some r
      | None => drop_one ws' s
      end
  end.

Fixpoint lstrip_fuel (fuel : nat) (ws : list string) (s : string) : string :=
  match fuel with
  | O => s
  | S n =>
      match drop_one ws s with
      | Some r => lstrip_fuel n ws r
      | None => s
      end
  end.

Definition rev_string (s : string) : string :=
  string_of_list_ascii (rev (list_ascii_of_string s)).

(** [s.strip()].  Every whitespace sequence is at least one byte long, so
    [length s] rounds are enough to remove all of them. *)
Definition strip (s : string) : string :=
  let l := lstrip_fuel (String.length s) py_whitespace s in
  rev_string
    (lstrip_fuel (String.length l) (map rev_string py_whitespace) (rev_string l)).

(** ** Numbers *)

(** A float64 value. *)
Inductive float64 : Type :=
| Fin (q : Q)
| Inf (negative : bool)
| NaN.

Definition is_nan (x : float64) : bool :=
  match x with NaN => true | _ => false end.

Definition is_finite (x : float64) : bool :=
  match x with Fin _ => true | _ => false end.

(** The integer [z] as a number, for comparisons: an integer is compared
    with a number by value. *)
Definition of_int (z : Z) : float64 := Fin (inject_Z z).

(** Ten to the power [e], for any integer [e]. *)
Definition pow10 (e : Z) : Q :=
  if 0 <=? e then inject_Z (10 ^ e) else 1 # Z.to_pos (10 ^ (- e)).

(** Two to the power [e], for any integer [e]. *)
Definition pow2 (e : Z) : Q :=
  if 0 <=? e then inject_Z (2 ^ e) else 1 # Z.to_pos (2 ^ (- e)).

(** Rounding to the nearest integer, ties to the even one, of [q >= 0]. *)
Definition round_half_even (q : Q) : Z :=
  let d := Zpos (Qden q) in
  let f := Qnum q / d in
  let r := Qnum q mod d in
  if 2 * r <? d then f
  else if d <? 2 * r then f + 1
  else if Z.even f then f else f + 1.

(** *** The binary64 format

    A finite binary64 value is [m * 2^e] for an integer [m] of at most 53
    bits and [-1074 <= e <= 971]. *)

(** The [k] with [2^k <= q < 2^(k+1)], for [q > 0]. *)
Definition log2_floor (q : Q) : Z :=
  let k := Z.log2 (Qnum q) - Z.log2 (Zpos (Qden q)) in
  if Qle_bool (pow2 k) q then k else k - 1.

(** The binary64 value nearest to [q], ties to the even significand; a
    magnitude that rounds to [2^1024] or more is an infinity. *)
Definition round64 (q : Q) : float64 :=
  let a := Qabs q in
  if Qeq_bool a 0 then Fin 0
  else
    let e := Z.max (log2_floor a - 52) (- 1074) in
    let magnitude := (inject_Z (round_half_even (a / pow2 e)) * pow2 e)%Q in
    if Qle_bool (pow2 1024) magnitude then Inf (negb (Qle_bool 0 q))
    else Fin (Qred (if Qle_bool 0 q then magnitude else (- magnitude)%Q)).

Arguments round64 : simpl never.

(** The range of an int64. *)
Definition int64_min : Z := - 2 ^ 63.
Definition int64_max : Z := 2 ^ 63 - 1.

(** *** Text to number: the scanner behind [pd.to_numeric]

    The grammar of pandas' [xstrtod] as [to_numeric] calls it: blanks, an
    optional sign, digits with an optional fraction (one digit at least),
    an optional exponent, blanks, and nothing after. *)

Fixpoint skip_spaces (s : string) : string :=
  match s with
  | String c s' => if is_space c then skip_spaces s' else s
  | EmptyString => s
  end.

(** An optional sign: whether it was a minus, and the rest. *)
Definition take_sign (s : string) : bool * string :=
  match s with
  | String "-" s' => (true, s')
  | String "+" s' => (false, s')
  | _ => (false, s)
  end.

(** A run of digits read in base ten on top of [acc]: the number, how many
    digits were read, and the rest. *)
Fixpoint take_digits (s : string) (acc : Z) (n : Z) : Z * Z * string :=
  match s with
  | String c s' =>
      if is_digit c then take_digits s' (acc * 10 + digit_value c) (n + 1)
      else (acc, n, s)
  | EmptyString => (acc, n, s)
  end.

(** The fraction, when the text goes on with a decimal point: the digits
    are appended to the number, and counted. *)
Definition take_fraction (number : Z) (s : string) : Z * Z * string :=
  match s with
  | String "." s' => take_digits s' number 0
  | _ => (number, 0, s)
  end.

(** The exponent, when the text goes on with [e] or [E]; an [e] that no
    digit follows is not consumed. *)
Definition take_exponent (s : string) : Z * string :=
  match s with
  | String c s' =>
      if Ascii.eqb (to_lower c) "e" then
        let '(negative, s1) := take_sign s' in
        let '(n, num_digits, s2) := take_digits s1 0 0 in
        if num_digits =? 0 then (0, s)
        else ((if negative then - n else n), s2)
      else (0, s)
  | EmptyString => (0, s)
  end.

Definition xstrtod (s : string) : option Q :=
  let p := skip_spaces s in
  let '(negative, p) := take_sign p in
  let '(int_part, int_digits, p) := take_digits p 0 0 in
  let '(number, num_decimals, p) := take_fraction int_part p in
  if int_digits + num_decimals =? 0 then None
  else
    let '(exponent, p) := take_exponent p in
    match skip_spaces p with
    | EmptyString =>
        let magnitude := Qred (inject_Z number * pow10 (exponent - num_decimals)) in
        Some (if negative then Qred (- magnitude) else magnitude)
    | String _ _ => None
    end.

(** The spellings of infinity accepted when the scanner fails, compared
    without regard to case. *)
Definition infinity_literal (s : string) : option bool :=
  let l := lower s in
  if existsb (String.eqb l) ["inf"; "+inf"; "infinity"; "+infinity"] then Some false
  else if existsb (String.eqb l) ["-inf"; "-infinity"] then Some true
  else None.

(** One text cell under [pd.to_numeric]; [None] is "unable to parse".  The
    decimal number scanned is rounded to a float64: a text such as
    [1e400] reads as infinity. *)
Definition parse_number (s : string) : option float64 :=
  match xstrtod s with
  | Some q => Some (round64 q)
  | None =>
      match infinity_literal s with
      | Some negative => Some (Inf negative)
      | None => None
      end
  end.

(** Truncation toward zero: [int(x)] of a finite float. *)
Definition trunc (q : Q) : Z := Z.quot (Qnum q) (Zpos (Qden q)).

(** The cast of a finite float64 to int64, as [astype(int)] does it:
    truncation toward zero within the range of an int64.  Outside that
    range numpy leaves the result to the machine's conversion, which on
    x86-64 gives the least int64. *)
Definition to_int64 (q : Q) : Z :=
  let z := trunc q in
  if (int64_min <=? z) && (z <=? int64_max) then z else int64_min.

(** A number below 2^53 in magnitude, or not finite: in that range an
    int64 column and a float64 column hold the same values. *)
Definition exactly_held (x : float64) : bool :=
  match x with
  | Fin q => Qle_bool (Qabs q) (inject_Z (2 ^ 53 - 1))
  | _ => true
  end.

(** *** Arithmetic and comparison on [float64] *)

Definition fadd (x y : float64) : float64 :=
  match x, y with
  | NaN, _ | _, NaN => NaN
  | Inf a, Inf b => if Bool.eqb a b then Inf a else NaN
  | Inf a, Fin _ | Fin _, Inf a => Inf a
  | Fin p, Fin q => round64 (p + q)
  end.

(** [x / n] for a count [n] of at least one. *)
Definition fdiv_count (x : float64) (n : nat) : float64 :=
  match x with
  | Fin p => round64 (p / inject_Z (Z.of_nat n))
  | other => other
  end.

(** [x <= y]; any comparison with NaN is false. *)
Definition fle (x y : float64) : bool :=
  match x, y with
  | NaN, _ | _, NaN => false
  | Inf true, _ | _, Inf false => true
  | Fin _, Inf true | Inf false, Fin _ | Inf false, Inf true => false
  | Fin p, Fin q => Qle_bool p q
  end.

(** [x == y]; NaN equals nothing, itself included. *)
Definition feq (x y : float64) : bool :=
  match x, y with
  | Fin p, Fin q => Qeq_bool p q
  | Inf a, Inf b => Bool.eqb a b
  | _, _ => false
  end.

(** ** Cells, rows and tables *)

(** A cell as [pd.read_csv] leaves it: text in an object column, a number
    in a numeric one (a missing field is [CFloat NaN]), a boolean. *)
Inductive cell : Type :=
| CStr (s : string)
| CInt (z : Z)
| CFloat (x : float64)
| CBool (b : bool).

(** A row: its cells by column label.  Reading goes to the first entry of
    the label; a label the row lacks reads as missing. *)
Definition row : Type := list (string * cell).

Record DataFrame : Type := {
  columns : list string;
  rows : list row
}.

(** [pd.DataFrame()] *)
Definition empty_DataFrame : DataFrame := {| columns := []; rows := [] |}.

(** [df.empty]: an axis of length zero. *)
Definition df_empty (df : DataFrame) : bool :=
  match columns df, rows df with
  | _ :: _, _ :: _ => false
  | _, _ => true
  end.

(** [col in cols] *)
Definition mem (col : string) (cols : list string) : bool :=
  existsb (String.eqb col) cols.

(** [col in df.columns] *)
Definition has_column (df : DataFrame) (col : string) : bool :=
  mem col (columns df).

(** The labels after an assignment to [col]: a new label goes last. *)
Definition add_column (cols : list string) (col : string) : list string :=
  if mem col cols then cols else List.app cols [col].

Fixpoint lookup (col : string) (r : row) : option cell :=
  match r with
  | [] => None
  | (k, v) :: r' => if String.eqb k col then Some v else lookup col r'
  end.

Definition get (col : string) (r : row) : cell :=
  match lookup col r with
  | Some v => v
  | None => CFloat NaN
  end.

(** Write [v] under [col]: over every entry of that label, or as a new
    last entry when the row has none. *)
Definition set_cell (col : string) (v : cell) (r : row) : row :=
  match lookup col r with
  | Some _ => map (fun kv => if String.eqb (fst kv) col then (col, v) else kv) r
  | None => List.app r [(col, v)]
  end.

(** The numeric value of a cell where a number is expected; text has none. *)
Definition to_float (c : cell) : float64 :=
  match c with
  | CInt z => of_int z
  | CFloat x => x
  | CBool b => of_int (if b then 1 else 0)
  | CStr _ => NaN
  end.

(** [pd.notna] *)
Definition notna (c : cell) : bool :=
  match c with
  | CFloat NaN => false
  | _ => true
  end.

(** ** Exceptions, events and the program monad *)

Inductive exn : Type :=
| KeyError (key : string)
| TypeError
| AttributeError
| ValueError
| IndexError
| UnicodeDecodeError
| OtherError (name : string).

Definition is_UnicodeDecodeError (e : exn) : bool :=
  match e with UnicodeDecodeError => true | _ => false end.

(** A chart handed to plotly. *)
Inductive figure : Type :=
| px_bar (data_frame : DataFrame) (x : string) (y : list string)
         (barmode : string) (height : Z)
| px_scatter (data_frame : DataFrame) (x y size color hover_name : string)
             (log_x log_y : bool)
| go_lines (title : string) (x : list string) (import_vals export_vals : list cell)
           (height : Z).

(** What the run shows or asks of the outside, in order.  A message made
    with an f-string over an exception [e] keeps its fixed text and [e]. *)
Inductive event : Type :=
| read_csv_call (path : string) (header : nat) (encoding : string)
| st_error (text : string) (e : option exn)
| st_info (text : string)
| st_sidebar_title (text : string)
| st_sidebar_slider (label : string) (min_value max_value : Z) (value : Z * Z)
| st_title (text : string)
| st_markdown (text : string)
| st_metric (label value : string)
| st_divider
| st_tabs (labels : list string)
| st_subheader (text : string)
| st_selectbox (label : string) (options : list cell)
| st_plotly_chart (fig : figure)
| st_expander (label : string)
| st_dataframe (data : DataFrame).

(** The outside of [load_data] and [main]. *)
Record Env : Type := {
  (** [os.path.exists] *)
  path_exists : string -> bool;
  (** [os.getcwd()] *)
  getcwd : string;
  (** [pd.read_csv(path, header=h, encoding=enc)]: the table, or the
      exception it raises. *)
  read_csv : string -> nat -> string -> exn + DataFrame;
  (** [str(x)] of a finite float. *)
  float_repr : Q -> string;
  (** Building and showing a chart: the exception plotly raises, if any. *)
  plotly : figure -> option exn
}.

(** A computation: the events so far, and a value or the exception raised. *)
Definition Prog (A : Type) : Type := list event * (exn + A).

Definition ret {A} (a : A) : Prog A := ([], inr a).
Definition raise {A} (e : exn) : Prog A := ([], inl e).
Definition emit (ev : event) : Prog unit := ([ev], inr tt).

Definition bind {A B} (m : Prog A) (f : A -> Prog B) : Prog B :=
  match m with
  | (log, inl e) => (log, inl e)
  | (log, inr a) => let '(log', r) := f a in (List.app log log', r)
  end.

(** [try: m except Exception as e: handler e] *)
Definition try_except {A} (m : Prog A) (handler : exn -> Prog A) : Prog A :=
  match m with
  | (log, inl e) => let '(log', r) := handler e in (List.app log log', r)
  | (log, inr a) => (log, inr a)
  end.

(** [m] with its exception, if any, turned into a value. *)
Definition attempt {A} (m : Prog A) : Prog (exn + A) :=
  (fst m, inr (snd m)).

Notation "x <- m ;; k" := (bind m (fun x => k))
  (at level 61, m at next level, right associativity).
Notation "m ;; k" := (bind m (fun _ => k))
  (at level 61, right associativity).

Definition events {A} (m : Prog A) : list event := fst m.
Definition outcome {A} (m : Prog A) : exn + A := snd m.

(** A computation that shows nothing, however it ends. *)
Definition silent {A} (m : Prog A) : Prop := events m = [].

(** ** The pandas operations of the source *)

(** What [df[col]] selects: a Series when the label is there once, a
    DataFrame when it is there more than once. *)
Inductive selection : Type :=
| Series (values : list cell)
| Frame.

(** [df[col]] *)
Definition getitem (df : DataFrame) (col : string) : Prog selection :=
  match count_occ string_dec (columns df) col with
  | O => raise (KeyError col)
  | S O => ret (Series (map (get col) (rows df)))
  | S (S _) => ret Frame
  end.

(** [df[col] = values] for a Series of the table's length. *)
Definition setitem (df : DataFrame) (col : string) (values : list cell) : DataFrame :=
  {| columns := add_column (columns df) col;
     rows := map (fun rv => set_cell col (snd rv) (fst rv)) (combine (rows df) values) |}.

(** [df[col] = v] for a scalar. *)
Definition setitem_scalar (df : DataFrame) (col : string) (v : cell) : DataFrame :=
  setitem df col (map (fun _ => v) (rows df)).

(** [df.columns = df.columns.str.strip()] *)
Definition strip_columns (df : DataFrame) : DataFrame :=
  {| columns := map strip (columns df);
     rows := map (map (fun kv => (strip (fst kv), snd kv))) (rows df) |}.

(** One cell under [pd.to_numeric(..., errors='coerce')]: a text is read
    as a float64, a number keeps its value, and what cannot be read is
    NaN. *)
Definition to_numeric_cell (c : cell) : float64 :=
  match c with
  | CStr s =>
      match parse_number s with
      | Some x => x
      | None => NaN
      end
  | other => to_float other
  end.

(** [pd.to_numeric(arg, errors='coerce')]; a DataFrame is refused. *)
Definition to_numeric (arg : selection) : Prog (list float64) :=
  match arg with
  | Series values => ret (map to_numeric_cell values)
  | Frame => raise TypeError
  end.

(** [df.dropna(subset=[col])] *)
Definition dropna (df : DataFrame) (col : string) : DataFrame :=
  {| columns := columns df;
     rows := filter (fun r => notna (get col r)) (rows df) |}.

(** One value under [astype(int)]: cast to int64 when finite, [None] for
    an infinity or NaN. *)
Definition int_of_float (x : float64) : option Z :=
  match x with
  | Fin q => Some (to_int64 q)
  | _ => None
  end.

Fixpoint all_some {A} (l : list (option A)) : option (list A) :=
  match l with
  | [] => Some []
  | Some a :: l' =>
      match all_some l' with
      | Some r => Some (a :: r)
      | None => None
      end
  | None :: _ => None
  end.

(** [s.astype(int)] on a numeric Series (the one read at line 59 was
    written by [to_numeric]): a value that is not finite raises.  On a DataFrame the
    conversion goes through, and it is the assignment of the result to one
    column (line 59) that raises; the exception is a [ValueError] both
    times. *)
Definition astype_int (arg : selection) : Prog (list Z) :=
  match arg with
  | Series values =>
      match all_some (map (fun c => int_of_float (to_float c)) values) with
      | Some ints => ret ints
      | None => raise ValueError
      end
  | Frame => raise ValueError
  end.

(** [str(c)] *)
Definition py_str (env : Env) (c : cell) : string :=
  match c with
  | CStr s => s
  | CInt z => str_of_Z z
  | CFloat (Fin q) => float_repr env q
  | CFloat (Inf false) => "inf"
  | CFloat (Inf true) => "-inf"
  | CFloat NaN => "nan"
  | CBool true => "True"
  | CBool false => "False"
  end.

(** [.astype(str)] *)
Definition astype_str (env : Env) (arg : selection) : selection :=
  match arg with
  | Series values => Series (map (fun c => CStr (py_str env c)) values)
  | Frame => Frame
  end.

(** The [.str] accessor, which a DataFrame does not have. *)
Definition str_accessor (arg : selection) : Prog (list cell) :=
  match arg with
  | Series values => ret values
  | Frame => raise AttributeError
  end.

(** [.str.replace(old, new)] on one cell; a cell that is no text gives a
    missing value. *)
Definition str_replace_cell (old : ascii) (new : string) (c : cell) : cell :=
  match c with
  | CStr s => CStr (str_replace old new s)
  | _ => CFloat NaN
  end.

(** [Series.replace(old, new)] on one cell: the whole value is compared. *)
Definition replace_value (old new : string) (c : cell) : cell :=
  match c with
  | CStr s => if String.eqb s old then CStr new else c
  | _ => c
  end.

(** [.fillna(0)] on one value. *)
Definition fillna0 (x : float64) : float64 :=
  match x with
  | NaN => of_int 0
  | _ => x
  end.

(** ** [load_data] (lines 21-80) *)

Definition numeric_cols : list string :=
  ["수입액(천$)"; "수출액(천$)"; "무역수지(천$)";
   "2024 - 수입금액(천$)"; "2024 - 수출액(천$)";
   "2023 - 수입금액(천$)"; "2023 - 수출액(천$)";
   "2022 - 수입금액(천$)"; "2022 - 수출액(천$)"].

(** [pd.read_csv(file_path, header=h, encoding=enc)] *)
Definition pd_read_csv (env : Env) (file_path : string) (header : nat)
    (encoding : string) : Prog DataFrame :=
  emit (read_csv_call file_path header encoding) ;;
  match read_csv env file_path header encoding with
  | inr df => ret df
  | inl e => raise e
  end.

(** Lines 71-72: what the body of the loop does to one cell of a column. *)
Definition clean_text (env : Env) (c : cell) : cell :=
  replace_value "nan" "0"
    (str_replace_cell "-" "0" (str_replace_cell "," "" (CStr (py_str env c)))).

Definition clean_cell (env : Env) (c : cell) : float64 :=
  fillna0 (to_numeric_cell (clean_text env c)).

(** Lines 70-74: the body of the loop over [numeric_cols]. *)
Definition clean_column (env : Env) (df : DataFrame) (col : string) : Prog DataFrame :=
  if has_column df col then
    sel <- getitem df col ;;
    s <- str_accessor (astype_str env sel) ;;
    let s := map (str_replace_cell "," "") s in
    let s := map (str_replace_cell "-" "0") s in
    let s := map (replace_value "nan" "0") s in
    n <- to_numeric (Series s) ;;
    ret (setitem df col (map (fun x => CFloat (fillna0 x)) n))
  else
    ret (setitem_scalar df col (CInt 0)).

(** [for col in cols: ...] *)
Fixpoint for_columns (env : Env) (cols : list string) (df : DataFrame) : Prog DataFrame :=
  match cols with
  | [] => ret df
  | col :: cols' =>
      df <- clean_column env df col ;;
      for_columns env cols' df
  end.

(** Lines 52-76: the body of the [try] at line 51. *)
Definition preprocess (env : Env) (df : DataFrame) : Prog DataFrame :=
  if negb (has_column df "순위") then
    emit (st_error "데이터에 '순위' 컬럼이 없습니다. CSV 파일 구조를 확인해주세요." None) ;;
    ret empty_DataFrame
  else
    sel <- getitem df "순위" ;;
    n <- to_numeric sel ;;
    let df := setitem df "순위_숫자" (map CFloat n) in
    let df := dropna df "순위_숫자" in
    sel <- getitem df "순위_숫자" ;;
    ints <- astype_int sel ;;
    let df := setitem df "순위" (map CInt ints) in
    for_columns env numeric_cols df.

(** Lines 47-80: what follows a successful read. *)
Definition clean (env : Env) (df : DataFrame) : Prog DataFrame :=
  let df := strip_columns df in
  try_except (preprocess env df)
    (fun e => emit (st_error "데이터 전처리 오류: " (Some e)) ;; ret empty_DataFrame).

Definition load_data (env : Env) (file_path : string) : Prog DataFrame :=
  if negb (path_exists env file_path) then
    emit (st_error ("❌ 파일을 찾을 수 없습니다: " ++ file_path) None) ;;
    emit (st_info ("현재 작업 경로: " ++ getcwd env)) ;;
    emit (st_info "💡 깃허브에 CSV 파일이 app.py와 같은 폴더에 올라갔는지 확인해주세요.") ;;
    ret empty_DataFrame
  else
    first <- attempt (pd_read_csv env file_path 1 "cp949") ;;
    match first with
    | inr df => clean env df
    | inl e =>
        if is_UnicodeDecodeError e then
          second <- attempt (pd_read_csv env file_path 1 "utf-8") ;;
          match second with
          | inr df => clean env df
          | inl e => emit (st_error "파일 인코딩 오류: " (Some e)) ;; ret empty_DataFrame
          end
        else
          emit (st_error "파일 로드 중 알 수 없는 오류 발생: " (Some e)) ;;
          ret empty_DataFrame
    end.

(** ** The view layer: [main] (lines 85-178) *)

(** The widget state the host framework holds for the session: what the
    slider and the two select boxes return on this run. *)
Record Session : Type := {
  rank_range_value : Z * Z;
  sort_by_index : nat;
  country_index : nat
}.

(** [st.selectbox(label, options)]: one of the options, the first one
    unless the user chose another. *)
Definition selectbox {A} (default : A) (options : list A) (chosen : nat) : A :=
  nth (if (chosen <? List.length options)%nat then chosen else O) options default.

(** A Series where the source expects one; on a DataFrame the method or
    conversion applied next raises [e]. *)
Definition as_series (e : exn) (arg : selection) : Prog (list cell) :=
  match arg with
  | Series values => ret values
  | Frame => raise e
  end.

(** The values a reduction works on: missing ones are skipped. *)
Definition skipna (values : list cell) : list float64 :=
  filter (fun x => negb (is_nan x)) (map to_float values).

(** [s.sum()] of a float64 column: the values are added in order, each
    addition rounded (numpy adds a long column in pairs, so that its sum
    may differ from this one in the last places). *)
Definition series_sum (values : list cell) : float64 :=
  fold_left fadd (skipna values) (of_int 0).

(** [s.mean()]: the sum over the count, NaN when nothing is left to count. *)
Definition series_mean (values : list cell) : float64 :=
  match skipna values with
  | [] => NaN
  | v => fdiv_count (fold_left fadd v (of_int 0)) (List.length v)
  end.

(** [s.min()] and [s.max()] *)
Definition series_min (values : list cell) : float64 :=
  match skipna values with
  | [] => NaN
  | x :: v => fold_left (fun m y => if fle y m then y else m) v x
  end.

Definition series_max (values : list cell) : float64 :=
  match skipna values with
  | [] => NaN
  | x :: v => fold_left (fun m y => if fle m y then y else m) v x
  end.

(** [int(x)] *)
Definition py_int (x : float64) : Prog Z :=
  match x with
  | Fin q => ret (trunc q)
  | Inf _ => raise (OtherError "OverflowError")
  | NaN => raise ValueError
  end.

(** Digits, last one first, with a comma after every third one that has a
    digit after it. *)
Fixpoint group3 (l : list ascii) : list ascii :=
  match l with
  | a :: b :: c :: ((_ :: _) as more) => a :: b :: c :: ","%char :: group3 more
  | _ => l
  end.

(** [f"{x:,.0f}"] *)
Definition format_comma_0f (x : float64) : string :=
  match x with
  | NaN => "nan"
  | Inf false => "inf"
  | Inf true => "-inf"
  | Fin q =>
      let digits := str_of_Z (round_half_even (Qabs q)) in
      let grouped := rev_string (string_of_list_ascii
                                   (group3 (list_ascii_of_string (rev_string digits)))) in
      if Qle_bool 0 q then grouped else "-" ++ grouped
  end.

(** [df[(df['순위'] >= a) & (df['순위'] <= b)]] (line 107) *)
Definition rank_filter (df : DataFrame) (rank_range : Z * Z) : DataFrame :=
  {| columns := columns df;
     rows := filter (fun r => fle (of_int (fst rank_range)) (to_float (get "순위" r))
                              && fle (to_float (get "순위" r)) (of_int (snd rank_range)))
                    (rows df) |}.

(** [a] comes before [b] when sorting downwards, missing values last. *)
Definition sorts_before (a b : float64) : bool :=
  match a, b with
  | NaN, _ => false
  | _, NaN => true
  | _, _ => negb (fle a b)
  end.

Fixpoint insert_desc (col : string) (r : row) (sorted : list row) : list row :=
  match sorted with
  | [] => [r]
  | r' :: rest =>
      if sorts_before (to_float (get col r')) (to_float (get col r))
      then r' :: insert_desc col r rest
      else r :: sorted
  end.

(** [df.sort_values(col, ascending=False)]; rows of equal value keep their
    order here (pandas does not promise an order for them). *)
Definition sort_values_desc (df : DataFrame) (col : string) : DataFrame :=
  {| columns := columns df;
     rows := fold_right (insert_desc col) [] (rows df) |}.

(** Two cells hold the same value: what [unique()] goes by, for which a
    missing value is the same as another missing value. *)
Definition same_value (a b : cell) : bool :=
  match a, b with
  | CStr s, CStr t => String.eqb s t
  | CStr _, _ | _, CStr _ => false
  | _, _ => feq (to_float a) (to_float b) || (is_nan (to_float a) && is_nan (to_float b))
  end.

(** [a == b] on cells: a missing value equals nothing. *)
Definition py_eq (a b : cell) : bool :=
  match a, b with
  | CStr s, CStr t => String.eqb s t
  | CStr _, _ | _, CStr _ => false
  | _, _ => feq (to_float a) (to_float b)
  end.

(** [s.unique()]: the values in order of first appearance. *)
Fixpoint unique_from (seen : list cell) (values : list cell) : list cell :=
  match values with
  | [] => []
  | v :: values' =>
      if existsb (same_value v) seen then unique_from seen values'
      else v :: unique_from (v :: seen) values'
  end.

Definition unique (values : list cell) : list cell := unique_from [] values.

(** [df[df[col] == v]] (line 160) *)
Definition rows_equal (df : DataFrame) (col : string) (v : cell) : DataFrame :=
  {| columns := columns df;
     rows := filter (fun r => py_eq (get col r) v) (rows df) |}.

(** [df.iloc[0]] *)
Definition iloc0 (df : DataFrame) : Prog row :=
  match rows df with
  | r :: _ => ret r
  | [] => raise IndexError
  end.

(** [row.get(key, default)] *)
Definition series_get (r : row) (key : string) (default : cell) : cell :=
  match lookup key r with
  | Some v => v
  | None => default
  end.

(** Build and show a chart: [px.bar], [px.scatter] or [go.Figure] and its
    traces, then [st.plotly_chart]. *)
Definition plot (env : Env) (fig : figure) : Prog unit :=
  match plotly env fig with
  | Some e => raise e
  | None => emit (st_plotly_chart fig)
  end.

Definition FILE_PATH : string := "해외유망시장추천_20260116144351.csv".

Definition sort_options : list string := ["수입액(천$)"; "수출액(천$)"; "무역수지(천$)"].

Definition years : list string := ["2022"; "2023"; "2024"].

(** Lines 113-120. *)
Definition total_import (filtered_df : DataFrame) : Prog float64 :=
  s <- (sel <- getitem filtered_df "수입액(천$)" ;; as_series TypeError sel) ;;
  ret (series_sum s).

Definition total_export (filtered_df : DataFrame) : Prog float64 :=
  s <- (sel <- getitem filtered_df "수출액(천$)" ;; as_series TypeError sel) ;;
  ret (series_sum s).

Definition avg_balance (filtered_df : DataFrame) : Prog float64 :=
  s <- (sel <- getitem filtered_df "무역수지(천$)" ;; as_series TypeError sel) ;;
  ret (series_mean s).

Definition kpi (filtered_df : DataFrame) : Prog unit :=
  total_import <- total_import filtered_df ;;
  total_export <- total_export filtered_df ;;
  avg_balance <- avg_balance filtered_df ;;
  emit (st_metric "선택 국가 총 수입액" ("$" ++ format_comma_0f total_import ++ " (천불)")) ;;
  emit (st_metric "선택 국가 총 수출액" ("$" ++ format_comma_0f total_export ++ " (천불)")) ;;
  emit (st_metric "평균 무역수지" ("$" ++ format_comma_0f avg_balance ++ " (천불)")).

(** Lines 127-138. *)
Definition tab1 (env : Env) (ss : Session) (filtered_df : DataFrame) : Prog unit :=
  emit (st_subheader "국가별 수입 및 수출 규모 비교") ;;
  emit (st_selectbox "정렬 기준" (map CStr sort_options)) ;;
  let sort_by := selectbox "" sort_options (sort_by_index ss) in
  plot env (px_bar (sort_values_desc filtered_df sort_by) "수입국"
                   ["수입액(천$)"; "수출액(천$)"] "group" 500).

(** Lines 142-150: the chart of the correlation view. *)
Definition fig_scatter (filtered_df : DataFrame) : figure :=
  px_scatter filtered_df "수입액(천$)" "수출액(천$)" "수입액(천$)" "수입국" "수입국"
             true true.

(** Lines 140-151. *)
Definition tab2 (env : Env) (filtered_df : DataFrame) : Prog unit :=
  emit (st_subheader "시장 규모 매트릭스") ;;
  plot env (fig_scatter filtered_df).

(** Line 155. *)
Definition country_list (filtered_df : DataFrame) : Prog (list cell) :=
  s <- (sel <- getitem filtered_df "수입국" ;; as_series AttributeError sel) ;;
  ret (unique s).

(** Lines 153-175. *)
Definition tab3 (env : Env) (ss : Session) (df filtered_df : DataFrame) : Prog unit :=
  emit (st_subheader "국가별 연도별 추이") ;;
  country_list <- country_list filtered_df ;;
  if (0 <? List.length country_list)%nat then
    emit (st_selectbox "국가 선택" country_list) ;;
    let selected_country := selectbox (CFloat NaN) country_list (country_index ss) in
    country_data <- iloc0 (rows_equal df "수입국" selected_country) ;;
    try_except
      (let import_vals :=
         map (fun y => series_get country_data (y ++ " - 수입금액(천$)") (CInt 0)) years in
       let export_vals :=
         map (fun y => series_get country_data (y ++ " - 수출액(천$)") (CInt 0)) years in
       plot env (go_lines (py_str env selected_country ++ " - 3개년 추이")
                          years import_vals export_vals 400))
      (fun _ => emit (st_info "연도별 상세 데이터가 부족하여 그래프를 그릴 수 없습니다."))
  else
    emit (st_info "선택된 범위 내에 국가 데이터가 없습니다.").

(** Lines 96-178: what [main] does with a table that is not empty.  Calls
    that only lay the page out ([st.columns], [use_container_width]) leave
    no event. *)
Definition render (env : Env) (ss : Session) (df : DataFrame) : Prog unit :=
  rank <- (sel <- getitem df "순위" ;; as_series TypeError sel) ;;
  min_rank <- py_int (series_min rank) ;;
  max_rank <- py_int (series_max rank) ;;
  let max_rank := if max_rank <? min_rank then min_rank else max_rank in
  emit (st_sidebar_slider "분석할 국가 순위 범위 (Rank)" min_rank max_rank
                          (min_rank, Z.min max_rank 20)) ;;
  let rank_range := rank_range_value ss in
  let filtered_df := rank_filter df rank_range in
  emit (st_title "📊 해외 유망 시장 수출입 통계 대시보드") ;;
  emit (st_markdown ("**분석 범위:** 순위 " ++ str_of_Z (fst rank_range) ++ "위 ~ "
                     ++ str_of_Z (snd rank_range) ++ "위 국가 (총 "
                     ++ str_of_Z (Z.of_nat (List.length (rows filtered_df))) ++ "개국)")) ;;
  kpi filtered_df ;;
  emit st_divider ;;
  emit (st_tabs ["📈 시장 비교"; "🌍 상관관계"; "🔍 상세 리포트"]) ;;
  tab1 env ss filtered_df ;;
  tab2 env filtered_df ;;
  tab3 env ss df filtered_df ;;
  emit (st_expander "📂 원본 데이터 보기") ;;
  emit (st_dataframe filtered_df).

Definition main (env : Env) (ss : Session) : Prog unit :=
  emit (st_sidebar_title "🌏 분석 도구 옵션") ;;
  df <- load_data env FILE_PATH ;;
  if df_empty df then ret tt
  else render env ss df.

(** ** Reading [load_data] row by row

    The loader works on whole columns.  The definitions below say what it
    does to one row; [preprocess_rows] proves that the two agree. *)

(** The table [load_data] goes on to clean: the one read as cp949, or the
    one read as utf-8 after a decoding failure. *)
Definition read_table (env : Env) (file_path : string) : option DataFrame :=
  if path_exists env file_path then
    match read_csv env file_path 1 "cp949" with
    | inr df => Some df
    | inl e =>
        if is_UnicodeDecodeError e then
          match read_csv env file_path 1 "utf-8" with
          | inr df => Some df
          | inl _ => None
          end
        else None
    end
  else None.

(** [load_data] accepts the file: it read [raw] and returned [df], which is
    not empty. *)
Definition accepts (env : Env) (file_path : string) (raw df : DataFrame) : Prop :=
  read_table env file_path = Some raw
  /\ outcome (load_data env file_path) = inr df
  /\ df_empty df = false.

(** Line 57 on one row. *)
Definition rank_number (r : row) : float64 := to_numeric_cell (get "순위" r).

(** Line 58 on one row: the rows that stay. *)
Definition rank_is_number (r : row) : bool := negb (is_nan (rank_number r)).

Definition rank_int (r : row) : Z :=
  match int_of_float (rank_number r) with
  | Some z => z
  | None => 0
  end.

(** Lines 57 and 59 on one row. *)
Definition rank_row (r : row) : row :=
  set_cell "순위" (CInt (rank_int r))
    (set_cell "순위_숫자" (CFloat (rank_number r)) r).

(** Lines 70-74 on one row, for a column that is [present] or not. *)
Definition clean_col_row (env : Env) (present : bool) (col : string) (r : row) : row :=
  set_cell col (if present then CFloat (clean_cell env (get col r)) else CInt 0) r.

(** Lines 69-74 on one row of a table whose labels are [present]. *)
Fixpoint clean_row_cols (env : Env) (cols present : list string) (r : row) : row :=
  match cols with
  | [] => r
  | col :: cols' =>
      clean_row_cols env cols' (add_column present col)
        (clean_col_row env (mem col present) col r)
  end.

(** Lines 57-74 on one row of a table whose labels are [present]. *)
Definition clean_row (env : Env) (present : list string) (r : row) : row :=
  clean_row_cols env numeric_cols (add_column present "순위_숫자") (rank_row r).

(** The labels of the cleaned table. *)
Definition clean_columns (present : list string) : list string :=
  fold_left add_column numeric_cols (add_column present "순위_숫자").

(** [raw] without the rows whose rank fails the coercion of line 57. *)
Definition drop_failing (raw : DataFrame) : DataFrame :=
  {| columns := columns raw;
     rows := filter (fun r => rank_is_number (map (fun kv => (strip (fst kv), snd kv)) r))
                    (rows raw) |}.

Fixpoint nodupb (l : list string) : bool :=
  match l with
  | [] => true
  | x :: l' => negb (mem x l') && nodupb l'
  end.

(** ** Sample inputs *)

Definition record (labels : list string) (cells : list cell) : row :=
  combine labels cells.

Definition sample_labels : list string :=
  [" 순위"; "수입국"; "수입액(천$)"; "수출액(천$)"; "무역수지(천$) "; "2024 - 수입금액(천$)"].

(** Five data rows as [read_csv] gives them (text where a column holds a
    field that is no number, NaN for an empty field): the second has a
    hyphen for a rank, the third a rank with a fraction, the third and the
    fourth an import value spelt [inf] and [0], the fifth no country name. *)
Definition sample_raw : DataFrame :=
  {| columns := sample_labels;
     rows := map (record sample_labels)
       [ [CStr "1"; CStr "미국"; CStr "1,234"; CStr "-"; CStr "-1,234"; CInt 5];
         [CStr "-"; CStr "중국"; CStr "10"; CStr "20"; CStr "10"; CInt 7];
         [CStr "3.7"; CStr "독일"; CStr "inf"; CFloat NaN; CStr "abc"; CInt (-7)];
         [CStr "5"; CStr "일본"; CStr "0"; CStr "2e3"; CStr "10.5"; CInt 0];
         [CStr "8"; CFloat NaN; CStr "40"; CStr "30"; CStr "-10"; CInt 1] ] |}.

(** A file that is not cp949, read as utf-8; every chart is drawn. *)
Definition sample_env : Env :=
  {| path_exists := fun _ => true;
     getcwd := "/app";
     read_csv := fun _ _ encoding =>
       if String.eqb encoding "cp949" then inl UnicodeDecodeError else inr sample_raw;
     float_repr := fun q => str_of_Z (trunc q) ++ ".0";
     plotly := fun _ => None |}.

(** The table [load_data] returns for [sample_env]. *)
Definition sample_df : DataFrame :=
  match outcome (load_data sample_env FILE_PATH) with
  | inr df => df
  | inl _ => empty_DataFrame
  end.

(** The first and the third row read, under the stripped labels. *)
Definition sample_first_row : row := nth 0 (rows (strip_columns sample_raw)) [].

Definition sample_third_row : row := nth 2 (rows (strip_columns sample_raw)) [].

(** An environment whose file is read as cp949 at once. *)
Definition cp949_env : Env :=
  {| path_exists := fun _ => true;
     getcwd := "/app";
     read_csv := fun _ _ _ => inr sample_raw;
     float_repr := fun q => str_of_Z (trunc q) ++ ".0";
     plotly := fun _ => None |}.

(** The slider set to ranks 1..5, the first sort column, the first country. *)
Definition sample_session : Session :=
  {| rank_range_value := (1, 5); sort_by_index := 0; country_index := 0 |}.

(** The slider set to ranks 6..7, which no row of the sample has: the
    ranks are 1, 3, 5 and 8. *)
Definition empty_range_session : Session :=
  {| rank_range_value := (6, 7); sort_by_index := 0; country_index := 0 |}.

(** The slider set to ranks 8..8: the one country offered has no name. *)
Definition missing_name_session : Session :=
  {| rank_range_value := (8, 8); sort_by_index := 0; country_index := 0 |}.

(** ** More sample inputs *)

(** A read of the file, among the events. *)
Definition is_read_call (ev : event) : bool :=
  match ev with
  | read_csv_call _ _ _ => true
  | _ => false
  end.

(** An environment without the file. *)
Definition missing_file_env : Env :=
  {| path_exists := fun _ => false;
     getcwd := "/app";
     read_csv := fun _ _ _ => inr sample_raw;
     float_repr := fun q => str_of_Z (trunc q) ++ ".0";
     plotly := fun _ => None |}.

(** A file whose header has no rank label. *)
Definition no_rank_raw : DataFrame :=
  {| columns := ["수입국"; "수입액(천$)"];
     rows := map (record ["수입국"; "수입액(천$)"])
               [ [CStr "미국"; CStr "1,234"] ] |}.

Definition no_rank_env : Env :=
  {| path_exists := fun _ => true;
     getcwd := "/app";
     read_csv := fun _ _ _ => inr no_rank_raw;
     float_repr := fun q => str_of_Z (trunc q) ++ ".0";
     plotly := fun _ => None |}.

(** A file with a rank spelt [inf] in its second row. *)
Definition infinite_rank_raw : DataFrame :=
  {| columns := ["순위"; "수입국"];
     rows := map (record ["순위"; "수입국"])
               [ [CStr "1"; CStr "미국"];
                 [CStr "inf"; CStr "중국"];
                 [CStr "x"; CStr "일본"] ] |}.

Definition infinite_rank_env : Env :=
  {| path_exists := fun _ => true;
     getcwd := "/app";
     read_csv := fun _ _ _ => inr infinite_rank_raw;
     float_repr := fun q => str_of_Z (trunc q) ++ ".0";
     plotly := fun _ => None |}.

(** ** Predicates used in the statements *)

(** A number that is not negative: a finite one or plus infinity. *)
Definition nonneg_number (x : float64) : bool :=
  match x with
  | Fin q => Qle_bool 0 q
  | Inf false => true
  | _ => false
  end.

(** The line chart of the trend view, as against the two [px] charts. *)
Definition is_trend_chart (fig : figure) : bool :=
  match fig with
  | go_lines _ _ _ _ _ => true
  | _ => false
  end.


(** ** A sample in which every row has a country name *)

Definition named_raw : DataFrame :=
  {| columns := sample_labels; rows := firstn 4 (rows sample_raw) |}.

Definition named_env : Env :=
  {| path_exists := fun _ => true;
     getcwd := "/app";
     read_csv := fun _ _ _ => inr named_raw;
     float_repr := fun q => str_of_Z (trunc q) ++ ".0";
     plotly := fun _ => None |}.

(** [named_env] with a plotly that fails on the line chart of the trend
    view and draws the other charts. *)
Definition failing_trend_env : Env :=
  {| path_exists := fun _ => true;
     getcwd := "/app";
     read_csv := fun _ _ _ => inr named_raw;
     float_repr := fun q => str_of_Z (trunc q) ++ ".0";
     plotly := fun fig =>
       match fig with
       | go_lines _ _ _ _ _ => Some ValueError
       | _ => None
       end |}.

(** The table [load_data] returns for [named_env]. *)
Definition named_df : DataFrame :=
  match outcome (load_data named_env FILE_PATH) with
  | inr df => df
  | inl _ => empty_DataFrame
  end.


(** [r2] may follow [r1] in a table sorted downwards by [col]: its value
    is not one that sorts before the value of [r1]. *)
Definition may_follow (col : string) (r1 r2 : row) : Prop :=
  sorts_before (to_float (get col r2)) (to_float (get col r1)) = false.


(** ** The range in which int64 and float64 agree *)

(** The numbers the loader reads from the row [r] are below 2^53 in
    magnitude, or not finite: the rank as line 57 reads it, and the nine
    numeric cells as lines 71-72 clean them. *)
Definition row_in_exact_range (env : Env) (r : row) : bool :=
  exactly_held (rank_number r)
  && forallb (fun col => exactly_held (clean_cell env (get col r))) numeric_cols.

Definition in_exact_range (env : Env) (raw : DataFrame) : bool :=
  forallb (row_in_exact_range env) (rows (strip_columns raw)).

(** The sum of the finite values of a column as a rational, not rounded. *)
Definition exact_total (values : list cell) : Q :=
  fold_right (fun c acc => match to_float c with
                           | Fin q => (q + acc)%Q
                           | _ => acc
                           end) 0%Q values.

(** The values of the column are below 2^53 in magnitude and their total
    is within the range of an int64: the sum of the column, held as int64,
    does not wrap around. *)
Definition no_int64_wrap (values : list cell) : bool :=
  forallb (fun c => exactly_held (to_float c)) values
  && Qle_bool (exact_total values) (inject_Z int64_max).

(** A file whose second rank is a number with a fraction, beyond the
    range of an int64; the third rank is a hyphen, so that the column is
    read as text. *)
Definition huge_rank_raw : DataFrame :=
  {| columns := ["순위"; "수입국"];
     rows := map (record ["순위"; "수입국"])
               [ [CStr "1"; CStr "미국"];
                 [CStr "10000000000000000000.5"; CStr "중국"];
                 [CStr "-"; CStr "일본"] ] |}.

Definition huge_rank_env : Env :=
  {| path_exists := fun _ => true;
     getcwd := "/app";
     read_csv := fun _ _ _ => inr huge_rank_raw;
     float_repr := fun q => str_of_Z (trunc q) ++ ".0";
     plotly := fun _ => None |}.

(** The table [load_data] returns for [huge_rank_env]. *)
Definition huge_rank_df : DataFrame :=
  match outcome (load_data huge_rank_env FILE_PATH) with
  | inr df => df
  | inl _ => empty_DataFrame
  end.


(** The slider set to ranks 1..5, the second sort column (the export
    amount), the first country. *)
Definition export_sort_session : Session :=
  {| rank_range_value := (1, 5); sort_by_index := 1; country_index := 0 |}.


(** * Properties *)

(** ** The program monad *)

Lemma events_bind {A B} (m : Prog A) (f : A -> Prog B) :
  events (bind m f)
  = List.app (events m)
      match outcome m with
      | inr a => events (f a)
      | inl _ => []
      end.
Proof.
  destruct m as [log [e | a]]; simpl.
  - now rewrite app_nil_r.
  - now destruct (f a).
Qed.

Lemma outcome_bind {A B} (m : Prog A) (f : A -> Prog B) :
  outcome (bind m f)
  = match outcome m with
    | inr a => outcome (f a)
    | inl e => inl e
    end.
Proof.
  destruct m as [log [e | a]]; simpl; [reflexivity | now destruct (f a)].
Qed.

Lemma bind_ret {A B} (a : A) (f : A -> Prog B) : bind (ret a) f = f a.
Proof. unfold bind, ret. now destruct (f a). Qed.

Lemma bind_raise {A B} (e : exn) (f : A -> Prog B) : bind (raise e) f = raise e.
Proof. reflexivity. Qed.

(** A bind that ends well: both halves ended well. *)
Lemma bind_inr {A B} (m : Prog A) (f : A -> Prog B) log b :
  bind m f = (log, inr b) ->
  exists l1 a l2, m = (l1, inr a) /\ f a = (l2, inr b) /\ log = List.app l1 l2.
Proof.
  destruct m as [l1 [e | a]]; simpl; [discriminate |].
  destruct (f a) as [l2 r] eqn:E. intros H. inversion H; subst.
  now exists l1, a, l2.
Qed.

(** Every event of a bind satisfies [P] when those of both halves do. *)
Lemma Forall_events_bind {A B} (P : event -> Prop) (m : Prog A) (f : A -> Prog B) :
  Forall P (events m) ->
  (forall a, outcome m = inr a -> Forall P (events (f a))) ->
  Forall P (events (bind m f)).
Proof.
  intros Hm Hf. rewrite events_bind. apply Forall_app. split; [exact Hm |].
  destruct (outcome m) as [e | a]; [constructor | now apply Hf].
Qed.

Lemma Forall_events_try {A} (P : event -> Prop) (m : Prog A) (h : exn -> Prog A) :
  Forall P (events m) ->
  (forall e, Forall P (events (h e))) ->
  Forall P (events (try_except m h)).
Proof.
  intros Hm Hh. destruct m as [log [e | a]]; simpl in *; [| exact Hm].
  specialize (Hh e). destruct (h e) as [log' r]. simpl in *.
  apply Forall_app. now split.
Qed.

Lemma Forall_events_emit (P : event -> Prop) (ev : event) :
  P ev -> Forall P (events (emit ev)).
Proof. intros H. now constructor. Qed.

Lemma Forall_events_nil {A} (P : event -> Prop) (m : Prog A) :
  events m = [] -> Forall P (events m).
Proof. intros ->. constructor. Qed.

(** ** Rows *)

Lemma eqb_sym_false (a b : string) : String.eqb a b = false -> String.eqb b a = false.
Proof. rewrite String.eqb_sym. auto. Qed.

Lemma lookup_set_same (col : string) (v : cell) (r : row) :
  lookup col (set_cell col v r) = Some v.
Proof.
  unfold set_cell. destruct (lookup col r) as [w |] eqn:E.
  - induction r as [| [k x] r IH]; simpl in *; [discriminate |].
    destruct (String.eqb k col) eqn:K; simpl.
    + now rewrite String.eqb_refl.
    + rewrite K. now apply IH.
  - induction r as [| [k x] r IH]; simpl in *.
    + now rewrite String.eqb_refl.
    + destruct (String.eqb k col) eqn:K; [discriminate | now apply IH].
Qed.

Lemma lookup_set_other (col col' : string) (v : cell) (r : row) :
  String.eqb col col' = false ->
  lookup col' (set_cell col v r) = lookup col' r.
Proof.
  intros N. unfold set_cell. destruct (lookup col r) as [w |].
  - induction r as [| [k x] r IH]; simpl; [reflexivity |].
    destruct (String.eqb k col) eqn:K; simpl.
    + apply String.eqb_eq in K. subst k. rewrite N. exact IH.
    + destruct (String.eqb k col'); [reflexivity | exact IH].
  - induction r as [| [k x] r IH]; simpl.
    + now rewrite N.
    + destruct (String.eqb k col'); [reflexivity | exact IH].
Qed.

Lemma get_set_same (col : string) (v : cell) (r : row) :
  get col (set_cell col v r) = v.
Proof. unfold get. now rewrite lookup_set_same. Qed.

Lemma get_set_other (col col' : string) (v : cell) (r : row) :
  String.eqb col col' = false ->
  get col' (set_cell col v r) = get col' r.
Proof. intros N. unfold get. now rewrite lookup_set_other. Qed.

(** A column written from a function of the row. *)
Lemma setitem_rows (df : DataFrame) (col : string) (f : row -> cell) :
  rows (setitem df col (map f (rows df)))
  = map (fun r => set_cell col (f r) r) (rows df).
Proof.
  unfold setitem; simpl. induction (rows df) as [| r l IH]; simpl; [reflexivity |].
  now rewrite IH.
Qed.

Lemma all_some_map {A B} (g : A -> option B) (d : B) (l : list A) (ys : list B) :
  all_some (map g l) = Some ys ->
  ys = map (fun x => match g x with Some y => y | None => d end) l
  /\ Forall (fun x => g x <> None) l.
Proof.
  revert ys. induction l as [| x l IH]; simpl; intros ys H.
  - inversion H. split; [reflexivity | constructor].
  - destruct (g x) as [y |] eqn:G; [| discriminate].
    destruct (all_some (map g l)) as [r |]; [| discriminate].
    inversion H; subst. destruct (IH r eq_refl) as [-> F].
    split; [reflexivity |]. constructor; [congruence | exact F].
Qed.

(** ** Column labels *)

Lemma mem_add_column_same (cols : list string) (col : string) :
  mem col (add_column cols col) = true.
Proof.
  unfold add_column. destruct (mem col cols) eqn:E; [exact E |].
  unfold mem. rewrite existsb_app. simpl. rewrite String.eqb_refl.
  now rewrite orb_true_r.
Qed.

Lemma mem_add_column_other (cols : list string) (col c : string) :
  String.eqb c col = false ->
  mem c (add_column cols col) = mem c cols.
Proof.
  intros N. unfold add_column. destruct (mem col cols); [reflexivity |].
  unfold mem. rewrite existsb_app. simpl. rewrite N. now rewrite !orb_false_r.
Qed.

Lemma mem_count_occ (cols : list string) (col : string) :
  mem col cols = false -> count_occ string_dec cols col = O.
Proof.
  induction cols as [| c cols IH]; simpl; [reflexivity |].
  intros H. apply orb_false_iff in H. destruct H as [N H].
  destruct (string_dec c col) as [-> | _].
  - now rewrite String.eqb_refl in N.
  - now apply IH.
Qed.

Lemma count_occ_add_column_same (cols : list string) (col : string) :
  mem col cols = false -> count_occ string_dec (add_column cols col) col = 1%nat.
Proof.
  intros H. unfold add_column. rewrite H. rewrite count_occ_app.
  rewrite (mem_count_occ _ _ H). simpl.
  now destruct (string_dec col col).
Qed.

Lemma count_occ_add_column_other (cols : list string) (col c : string) :
  String.eqb c col = false ->
  count_occ string_dec (add_column cols col) c = count_occ string_dec cols c.
Proof.
  intros N. unfold add_column. destruct (mem col cols); [reflexivity |].
  rewrite count_occ_app. simpl. destruct (string_dec col c) as [-> | _].
  - now rewrite String.eqb_refl in N.
  - now rewrite Nat.add_0_r.
Qed.

(** ** The loop over the numeric columns *)

Lemma mem_cons (c col : string) (cols : list string) :
  mem c (col :: cols) = String.eqb c col || mem c cols.
Proof. reflexivity. Qed.

Lemma mem_false_eqb (c col : string) (cols : list string) :
  mem c (col :: cols) = false -> String.eqb c col = false /\ mem c cols = false.
Proof. rewrite mem_cons. intros H. now apply orb_false_iff in H. Qed.

Lemma count_occ_fold_add_column (cols : list string) :
  forall (present : list string) (c : string),
    mem c cols = false ->
    count_occ string_dec (fold_left add_column cols present) c
    = count_occ string_dec present c.
Proof.
  induction cols as [| col cols IH]; intros present c H; simpl; [reflexivity |].
  apply mem_false_eqb in H. destruct H as [N H].
  rewrite IH by exact H. now apply count_occ_add_column_other.
Qed.

Lemma mem_fold_add_column (cols : list string) :
  forall (present : list string) (c : string),
    mem c present = true -> mem c (fold_left add_column cols present) = true.
Proof.
  induction cols as [| col cols IH]; intros present c H; simpl; [exact H |].
  apply IH. destruct (String.eqb c col) eqn:E.
  - apply String.eqb_eq in E. subst. apply mem_add_column_same.
  - now rewrite mem_add_column_other.
Qed.

Section Loader.

Variable env : Env.

(** The chain of line 71 and line 72 is [clean_cell] on every cell. *)
Lemma clean_chain (l : list cell) :
  map (fun x => CFloat (fillna0 x))
    (map to_numeric_cell
       (map (replace_value "nan" "0")
          (map (str_replace_cell "-" "0")
             (map (str_replace_cell "," "")
                (map (fun c => CStr (py_str env c)) l)))))
  = map (fun c => CFloat (clean_cell env c)) l.
Proof. rewrite !map_map. reflexivity. Qed.

Lemma clean_column_ok (df : DataFrame) (col : string) log df' :
  clean_column env df col = (log, inr df') ->
  log = []
  /\ columns df' = add_column (columns df) col
  /\ rows df' = map (clean_col_row env (has_column df col) col) (rows df)
  /\ count_occ string_dec (columns df') col = 1%nat.
Proof.
  unfold clean_column. destruct (has_column df col) eqn:Hc.
  - unfold getitem. destruct (count_occ string_dec (columns df) col) as [| [| n]] eqn:Cn.
    + rewrite bind_raise. discriminate.
    + rewrite bind_ret. simpl astype_str. unfold str_accessor.
      rewrite bind_ret. unfold to_numeric. rewrite bind_ret.
      intros H. inversion H; subst; clear H.
      rewrite clean_chain, map_map.
      split; [reflexivity |]. split; [reflexivity |].
      split.
      * apply (setitem_rows df col (fun r => CFloat (clean_cell env (get col r)))).
      * simpl. unfold add_column. unfold has_column in Hc. now rewrite Hc.
    + rewrite bind_ret. simpl. discriminate.
  - intros H. inversion H; subst; clear H.
    split; [reflexivity |]. split; [reflexivity |].
    split.
    + apply (setitem_rows df col (fun _ => CInt 0)).
    + simpl. now apply count_occ_add_column_same.
Qed.

Lemma for_columns_ok (cols : list string) :
  forall (df : DataFrame) log df',
    for_columns env cols df = (log, inr df') ->
    log = []
    /\ columns df' = fold_left add_column cols (columns df)
    /\ rows df' = map (clean_row_cols env cols (columns df)) (rows df)
    /\ (nodupb cols = true ->
        forall c, mem c cols = true -> count_occ string_dec (columns df') c = 1%nat).
Proof.
  induction cols as [| col cols IH]; intros df log df' H; simpl in H.
  - inversion H; subst. repeat split; try reflexivity.
    + simpl. now rewrite map_id.
    + intros _ c Hc. discriminate.
  - apply bind_inr in H. destruct H as (l1 & df1 & l2 & H1 & H2 & ->).
    apply clean_column_ok in H1. destruct H1 as (-> & C1 & R1 & N1).
    apply IH in H2. destruct H2 as (-> & C2 & R2 & N2).
    split; [reflexivity |]. split; [| split].
    + simpl. now rewrite C2, C1.
    + rewrite R2, R1, map_map, C1. reflexivity.
    + intros Hnd c Hc.
      change (nodupb (col :: cols)) with (negb (mem col cols) && nodupb cols) in Hnd.
      apply andb_true_iff in Hnd. destruct Hnd as [Hcol Hnd].
      apply negb_true_iff in Hcol.
      destruct (String.eqb c col) eqn:E.
      * apply String.eqb_eq in E. subst c.
        rewrite C2, count_occ_fold_add_column by exact Hcol. exact N1.
      * apply N2; [exact Hnd |]. rewrite mem_cons, E in Hc. exact Hc.
Qed.

(** ** Lines 52-76 row by row *)

Lemma dropna_rank_rows (raw : DataFrame) :
  rows (dropna (setitem raw "순위_숫자"
                  (map CFloat (map to_numeric_cell (map (get "순위") (rows raw)))))
               "순위_숫자")
  = map (fun r => set_cell "순위_숫자" (CFloat (rank_number r)) r)
      (filter rank_is_number (rows raw)).
Proof.
  change (rows (dropna ?d ?c)) with (filter (fun r => notna (get c r)) (rows d)).
  rewrite !map_map.
  rewrite (setitem_rows raw "순위_숫자" (fun r => CFloat (to_numeric_cell (get "순위" r)))).
  unfold rank_is_number, rank_number.
  induction (rows raw) as [| r l IH]; simpl; [reflexivity |].
  rewrite get_set_same.
  destruct (to_numeric_cell (get "순위" r)) eqn:E; simpl;
    rewrite IH, ?E; reflexivity.
Qed.

Lemma set_cells_combine {A} (col : string) (f : A -> row) (g : A -> cell) (l : list A) :
  map (fun rv => set_cell col (snd rv) (fst rv)) (combine (map f l) (map g l))
  = map (fun x => set_cell col (g x) (f x)) l.
Proof. induction l as [| x l IH]; simpl; [reflexivity | now rewrite IH]. Qed.

Lemma add_column_mem (cols : list string) (col : string) :
  mem col cols = true -> add_column cols col = cols.
Proof. unfold add_column. now intros ->. Qed.

Lemma rank_not_rank_number : String.eqb "순위" "순위_숫자" = false.
Proof. reflexivity. Qed.

(** Lines 52-76, when they end without an exception and past the check of
    line 52: no message, the rows whose rank is a number, each cleaned by
    [clean_row]; every rank kept is finite, and the rank and the nine
    numeric labels are there once. *)
Lemma preprocess_rows (raw : DataFrame) log df :
  has_column raw "순위" = true ->
  preprocess env raw = (log, inr df) ->
  log = []
  /\ columns df = clean_columns (columns raw)
  /\ rows df = map (clean_row env (columns raw)) (filter rank_is_number (rows raw))
  /\ Forall (fun r => is_finite (rank_number r) = true) (filter rank_is_number (rows raw))
  /\ count_occ string_dec (columns df) "순위" = 1%nat
  /\ (forall c, mem c numeric_cols = true -> count_occ string_dec (columns df) c = 1%nat).
Proof.
  intros Hrank. unfold preprocess. rewrite Hrank. cbv beta iota delta [negb].
  unfold getitem at 1.
  destruct (count_occ string_dec (columns raw) "순위") as [| [| n]] eqn:Crank.
  - rewrite bind_raise. discriminate.
  - rewrite bind_ret. unfold to_numeric at 1. rewrite bind_ret.
    set (df1 := dropna _ _).
    assert (C1 : columns df1 = add_column (columns raw) "순위_숫자") by reflexivity.
    assert (R1 : rows df1 = map (fun r => set_cell "순위_숫자" (CFloat (rank_number r)) r)
                              (filter rank_is_number (rows raw)))
      by apply dropna_rank_rows.
    unfold getitem at 1. rewrite C1.
    destruct (count_occ string_dec (add_column (columns raw) "순위_숫자") "순위_숫자")
      as [| [| n]] eqn:Cnum.
    + rewrite bind_raise. discriminate.
    + rewrite bind_ret. unfold astype_int.
      destruct (all_some _) as [ints |] eqn:Hints; [| rewrite bind_raise; discriminate].
      rewrite bind_ret.
      apply (all_some_map _ 0) in Hints. destruct Hints as [-> Hfin].
      rewrite R1, !map_map in Hfin.
      set (df2 := setitem df1 "순위" _).
      assert (C2 : columns df2 = add_column (columns raw) "순위_숫자").
      { unfold df2. change (columns (setitem ?d ?c ?v)) with (add_column (columns d) c).
        rewrite C1. apply add_column_mem.
        rewrite mem_add_column_other by apply rank_not_rank_number. exact Hrank. }
      assert (R2 : rows df2 = map rank_row (filter rank_is_number (rows raw))).
      { unfold df2. change (rows (setitem ?d ?c ?v))
          with (map (fun rv => set_cell c (snd rv) (fst rv)) (combine (rows d) v)).
        rewrite R1, !map_map.
        rewrite <- (set_cells_combine "순위"
                      (fun r => set_cell "순위_숫자" (CFloat (rank_number r)) r)
                      (fun r => CInt (rank_int r))).
        do 2 f_equal. apply map_ext. intros r. rewrite get_set_same. reflexivity. }
      intros H. apply for_columns_ok in H. destruct H as (-> & C3 & R3 & N3).
      split; [reflexivity |]. split; [| split; [| split; [| split]]].
      * rewrite C3, C2. unfold clean_columns. reflexivity.
      * rewrite R3, R2, map_map, C2. apply map_ext. intros r.
        unfold clean_row. reflexivity.
      * apply Forall_forall. intros r Hr. rewrite Forall_forall in Hfin.
        assert (Hx := Hfin _ (in_map
          (fun x => get "순위_숫자" (set_cell "순위_숫자" (CFloat (rank_number x)) x))
          _ _ Hr)).
        cbv beta in Hx. rewrite get_set_same in Hx.
        destruct (rank_number r); simpl in *; congruence.
      * rewrite C3, count_occ_fold_add_column by reflexivity.
        rewrite C2, count_occ_add_column_other by reflexivity. exact Crank.
      * apply N3. reflexivity.
    + rewrite bind_ret. simpl. discriminate.
  - rewrite bind_ret. simpl. discriminate.
Qed.

(** ** From [preprocess] to [load_data] *)

Lemma df_empty_empty : df_empty empty_DataFrame = true.
Proof. reflexivity. Qed.

(** A table that comes out of lines 47-80 and is not empty came out of the
    loop of lines 69-74. *)
Lemma clean_nonempty (raw : DataFrame) log df :
  clean env raw = (log, inr df) ->
  df_empty df = false ->
  has_column (strip_columns raw) "순위" = true
  /\ preprocess env (strip_columns raw) = (log, inr df).
Proof.
  unfold clean. intros H Hne.
  destruct (has_column (strip_columns raw) "순위") eqn:Hrank.
  - split; [reflexivity |].
    destruct (preprocess env (strip_columns raw)) as [l [e | a]]; simpl in H.
    + inversion H; subst. now rewrite df_empty_empty in Hne.
    + exact H.
  - exfalso. unfold preprocess in H. rewrite Hrank in H. simpl in H.
    inversion H; subst. now rewrite df_empty_empty in Hne.
Qed.

(** Past the read, [load_data] is lines 47-80 on the table read. *)
Lemma load_data_read (file_path : string) (raw : DataFrame) :
  read_table env file_path = Some raw ->
  exists reads,
    load_data env file_path
    = (List.app reads (events (clean env raw)), outcome (clean env raw)).
Proof.
  unfold read_table, load_data. destruct (path_exists env file_path); [| discriminate].
  cbv beta iota delta [negb]. unfold pd_read_csv.
  destruct (read_csv env file_path 1 "cp949") as [e | df] eqn:E1.
  - destruct (is_UnicodeDecodeError e) eqn:Ue; [| discriminate].
    destruct (read_csv env file_path 1 "utf-8") as [e2 | df2] eqn:E2; [discriminate |].
    intros H. inversion H; subst.
    exists [read_csv_call file_path 1 "cp949"; read_csv_call file_path 1 "utf-8"].
    unfold attempt, bind, emit, raise, ret; simpl. rewrite Ue. simpl.
    destruct (clean env raw) as [l r]. reflexivity.
  - intros H. inversion H; subst.
    exists [read_csv_call file_path 1 "cp949"].
    unfold attempt, bind, emit, raise, ret; simpl.
    destruct (clean env raw) as [l r]. reflexivity.
Qed.

(** What an accepted file comes back as. *)
Lemma accepted_table (file_path : string) (raw df : DataFrame) :
  accepts env file_path raw df ->
  columns df = clean_columns (columns (strip_columns raw))
  /\ rows df = map (clean_row env (columns (strip_columns raw)))
                 (filter rank_is_number (rows (strip_columns raw)))
  /\ Forall (fun r => is_finite (rank_number r) = true)
            (filter rank_is_number (rows (strip_columns raw)))
  /\ count_occ string_dec (columns df) "순위" = 1%nat
  /\ (forall c, mem c numeric_cols = true -> count_occ string_dec (columns df) c = 1%nat).
Proof.
  intros (Hread & Hout & Hne).
  destruct (load_data_read _ _ Hread) as [reads Hl].
  rewrite Hl in Hout. simpl in Hout.
  destruct (clean env raw) as [log r] eqn:Hc. simpl in Hout. subst r.
  destruct (clean_nonempty _ _ _ Hc Hne) as [Hrank Hp].
  destruct (preprocess_rows _ _ _ Hrank Hp) as (_ & C & R & F & N1 & N2).
  repeat split; assumption.
Qed.

(** ** One cell of a cleaned row *)

Lemma mem_true_neq (x c : string) (cols : list string) :
  mem x cols = false -> mem c cols = true -> String.eqb x c = false.
Proof.
  intros Hx Hc. destruct (String.eqb x c) eqn:E; [| reflexivity].
  apply String.eqb_eq in E. subst. congruence.
Qed.

(** The loop leaves alone the labels it does not go through. *)
Lemma get_clean_row_cols_other (cols : list string) :
  forall (present : list string) (r : row) (c : string),
    mem c cols = false ->
    get c (clean_row_cols env cols present r) = get c r.
Proof.
  induction cols as [| col cols IH]; intros present r c H; simpl; [reflexivity |].
  apply mem_false_eqb in H. destruct H as [N H].
  rewrite IH by exact H. unfold clean_col_row.
  apply get_set_other. now apply eqb_sym_false.
Qed.

(** What the loop leaves under a label it goes through. *)
Lemma get_clean_row_cols_same (cols : list string) :
  forall (present : list string) (r : row) (c : string),
    nodupb cols = true ->
    mem c cols = true ->
    get c (clean_row_cols env cols present r)
    = if mem c present then CFloat (clean_cell env (get c r)) else CInt 0.
Proof.
  induction cols as [| col cols IH]; intros present r c Hnd Hc; [discriminate |].
  change (nodupb (col :: cols)) with (negb (mem col cols) && nodupb cols) in Hnd.
  apply andb_true_iff in Hnd. destruct Hnd as [Hcol Hnd].
  apply negb_true_iff in Hcol. rewrite mem_cons in Hc. simpl.
  destruct (String.eqb c col) eqn:E.
  - apply String.eqb_eq in E. subst c.
    rewrite get_clean_row_cols_other by exact Hcol.
    unfold clean_col_row. apply get_set_same.
  - simpl in Hc. rewrite IH by assumption.
    rewrite mem_add_column_other by exact E.
    unfold clean_col_row. rewrite get_set_other by now apply eqb_sym_false.
    reflexivity.
Qed.

Lemma numeric_cols_nodup : nodupb numeric_cols = true.
Proof. reflexivity. Qed.

(** A numeric label of a cleaned row: the cleaned cell of the row read,
    or zero when the table read has no such label. *)
Lemma get_clean_row_numeric (present : list string) (r : row) (c : string) :
  mem c numeric_cols = true ->
  get c (clean_row env present r)
  = if mem c present then CFloat (clean_cell env (get c r)) else CInt 0.
Proof.
  intros Hc. unfold clean_row.
  rewrite get_clean_row_cols_same by (exact numeric_cols_nodup || exact Hc).
  assert (N1 : String.eqb "순위_숫자" c = false)
    by (apply (mem_true_neq _ _ numeric_cols); [reflexivity | exact Hc]).
  assert (N2 : String.eqb "순위" c = false)
    by (apply (mem_true_neq _ _ numeric_cols); [reflexivity | exact Hc]).
  rewrite mem_add_column_other by now apply eqb_sym_false.
  unfold rank_row. rewrite !get_set_other by assumption. reflexivity.
Qed.

(** The rank of a cleaned row. *)
Lemma get_clean_row_rank (present : list string) (r : row) :
  get "순위" (clean_row env present r) = CInt (rank_int r).
Proof.
  unfold clean_row. rewrite get_clean_row_cols_other by reflexivity.
  unfold rank_row. apply get_set_same.
Qed.

Lemma get_clean_row_rank_number (present : list string) (r : row) :
  get "순위_숫자" (clean_row env present r) = CFloat (rank_number r).
Proof.
  unfold clean_row. rewrite get_clean_row_cols_other by reflexivity.
  unfold rank_row. rewrite get_set_other by reflexivity. apply get_set_same.
Qed.

End Loader.

(** ** The scanner on a text without a hyphen *)

Lemma has_char_app (c : ascii) (a b : string) :
  has_char c (a ++ b) = has_char c a || has_char c b.
Proof.
  induction a as [| d a IH]; simpl; [reflexivity |].
  now rewrite IH, orb_assoc.
Qed.

(** After [replace(old, new)] no [old] is left, when [new] has none. *)
Lemma has_char_str_replace (old : ascii) (new s : string) :
  has_char old new = false -> has_char old (str_replace old new s) = false.
Proof.
  intros Hn. induction s as [| d s IH]; simpl; [reflexivity |].
  destruct (Ascii.eqb d old) eqn:E.
  - now rewrite has_char_app, Hn, IH.
  - simpl. now rewrite E, IH.
Qed.

Lemma has_char_skip_spaces (c : ascii) (s : string) :
  has_char c s = false -> has_char c (skip_spaces s) = false.
Proof.
  induction s as [| d s IH]; simpl; [reflexivity |].
  intros H. destruct (is_space d); [| exact H].
  apply orb_false_iff in H. now apply IH.
Qed.

Lemma take_sign_no_minus (s : string) :
  has_char "-" s = false -> fst (take_sign s) = false.
Proof.
  destruct s as [| d s]; [reflexivity |]. simpl has_char. intros H.
  apply orb_false_iff in H. destruct H as [H _].
  destruct d as [[] [] [] [] [] [] [] []]; try reflexivity; discriminate.
Qed.

Lemma digit_value_nonneg (c : ascii) : is_digit c = true -> 0 <= digit_value c.
Proof.
  unfold is_digit, digit_value. intros H.
  apply andb_true_iff in H. destruct H as [H _]. apply Nat.leb_le in H. lia.
Qed.

Lemma take_digits_nonneg (s : string) :
  forall acc n, 0 <= acc -> 0 <= fst (fst (take_digits s acc n)).
Proof.
  induction s as [| c s IH]; intros acc n H; simpl; [exact H |].
  destruct (is_digit c) eqn:D; [| exact H].
  apply IH. pose proof (digit_value_nonneg c D). lia.
Qed.

Lemma take_fraction_nonneg (number : Z) (s : string) :
  0 <= number -> 0 <= fst (fst (take_fraction number s)).
Proof.
  intros H. unfold take_fraction. destruct s as [| c s]; [exact H |].
  destruct c as [[] [] [] [] [] [] [] []]; try exact H.
  now apply take_digits_nonneg.
Qed.

Lemma pow10_pos (e : Z) : (0 < pow10 e)%Q.
Proof.
  unfold pow10. destruct (0 <=? e) eqn:E.
  - apply Z.leb_le in E. unfold Qlt; simpl.
    pose proof (Z.pow_pos_nonneg 10 e). lia.
  - reflexivity.
Qed.

Lemma some_inj {A} (a b : A) : Some a = Some b -> a = b.
Proof. congruence. Qed.

(** ** Rounding to binary64 *)

Lemma pow2_pos (e : Z) : (0 < pow2 e)%Q.
Proof.
  unfold pow2. destruct (0 <=? e) eqn:E.
  - apply Z.leb_le in E. unfold Qlt; simpl.
    pose proof (Z.pow_pos_nonneg 2 e). lia.
  - reflexivity.
Qed.

Lemma round_half_even_nonneg (q : Q) : (0 <= q)%Q -> 0 <= round_half_even q.
Proof.
  intros Hq. assert (Hn : 0 <= Qnum q) by (unfold Qle in Hq; simpl in Hq; lia).
  unfold round_half_even.
  assert (Hf : 0 <= Qnum q / Z.pos (Qden q)) by (apply Z.div_pos; lia).
  destruct (_ <? _); [exact Hf |].
  destruct (_ <? _); [lia |].
  destruct (Z.even _); lia.
Qed.

(** Rounding gives a number, never a missing value. *)
Lemma round64_not_nan (q : Q) : is_nan (round64 q) = false.
Proof.
  unfold round64. destruct (Qeq_bool _ _); [reflexivity |].
  cbv zeta. now destruct (Qle_bool (pow2 1024) _).
Qed.

(** Rounding keeps the sign: a number that is not negative stays so. *)
Lemma round64_nonneg (q : Q) : (0 <= q)%Q -> nonneg_number (round64 q) = true.
Proof.
  intros Hq. unfold round64. destruct (Qeq_bool _ _); [reflexivity |].
  cbv zeta. assert (Hs : Qle_bool 0 q = true) by now apply Qle_bool_iff.
  rewrite Hs. destruct (Qle_bool (pow2 1024) _); [reflexivity |].
  cbn [nonneg_number]. apply Qle_bool_iff. rewrite Qred_correct.
  apply Qmult_le_0_compat.
  - assert (H : 0 <= round_half_even (Qabs q / pow2 (Z.max (log2_floor (Qabs q) - 52) (-1074)))).
    { apply round_half_even_nonneg. apply Qle_shift_div_l; [apply pow2_pos |].
      rewrite Qmult_0_l. apply Qabs_nonneg. }
    unfold Qle; simpl. lia.
  - apply Qlt_le_weak, pow2_pos.
Qed.

(** No hyphen, no negative number. *)
Lemma xstrtod_nonneg (s : string) (q : Q) :
  has_char "-" s = false -> xstrtod s = Some q -> (0 <= q)%Q.
Proof.
  intros H. unfold xstrtod.
  pose proof (take_sign_no_minus _ (has_char_skip_spaces _ _ H)) as Hs.
  destruct (take_sign (skip_spaces s)) as [negative p]. simpl in Hs. subst negative.
  pose proof (take_digits_nonneg p 0 0 (Z.le_refl 0)) as Hd.
  destruct (take_digits p 0 0) as [[int_part int_digits] p1]. simpl in Hd.
  pose proof (take_fraction_nonneg int_part p1 Hd) as Hf.
  destruct (take_fraction int_part p1) as [[number num_decimals] p2]. simpl in Hf.
  destruct (int_digits + num_decimals =? 0); [discriminate |].
  destruct (take_exponent p2) as [exponent p3].
  destruct (skip_spaces p3); [| discriminate].
  cbv beta iota zeta. intros E. apply some_inj in E. rewrite <- E, Qred_correct.
  apply Qmult_le_0_compat.
  - unfold Qle; simpl. lia.
  - apply Qlt_le_weak, pow10_pos.
Qed.

Lemma to_lower_hyphen (d : ascii) : Ascii.eqb (to_lower d) "-" = Ascii.eqb d "-".
Proof. destruct d as [[] [] [] [] [] [] [] []]; reflexivity. Qed.

Lemma has_char_lower (s : string) : has_char "-" (lower s) = has_char "-" s.
Proof.
  induction s as [| d s IH]; simpl; [reflexivity |].
  now rewrite to_lower_hyphen, IH.
Qed.

(** No hyphen, no negative infinity. *)
Lemma infinity_literal_no_minus (s : string) :
  has_char "-" s = false -> infinity_literal s <> Some true.
Proof.
  intros H. unfold infinity_literal.
  destruct (existsb (String.eqb (lower s)) ["inf"; "+inf"; "infinity"; "+infinity"]);
    [discriminate |].
  destruct (existsb (String.eqb (lower s)) ["-inf"; "-infinity"]) eqn:E; [| discriminate].
  exfalso. rewrite <- has_char_lower in H.
  apply existsb_exists in E. destruct E as (t & Ht & Et).
  apply String.eqb_eq in Et. rewrite Et in H.
  destruct Ht as [<- | [<- | []]]; discriminate.
Qed.

Section Cleaning.

Variable env : Env.

(** Lines 71: the text handed to [to_numeric] holds no hyphen. *)
Lemma clean_text_no_hyphen (c : cell) :
  exists t, clean_text env c = CStr t /\ has_char "-" t = false.
Proof.
  unfold clean_text. simpl.
  set (t := str_replace "-" "0" (str_replace "," "" (py_str env c))).
  assert (Ht : has_char "-" t = false) by (apply has_char_str_replace; reflexivity).
  destruct (String.eqb t "nan").
  - exists "0". split; reflexivity.
  - exists t. split; [reflexivity | exact Ht].
Qed.

(** Lines 71-72 on one cell: a finite number that is not negative, or
    plus infinity for a text that spells it or that is a decimal number
    beyond the range of a float64; never a missing value. *)
Lemma clean_cell_shape (c : cell) :
  (exists q, clean_cell env c = Fin q /\ (0 <= q)%Q)
  \/ (clean_cell env c = Inf false
      /\ exists t, clean_text env c = CStr t
                   /\ (infinity_literal t = Some false
                       \/ exists q, xstrtod t = Some q /\ round64 q = Inf false)).
Proof.
  unfold clean_cell. destruct (clean_text_no_hyphen c) as (t & -> & Ht).
  unfold to_numeric_cell, parse_number.
  destruct (xstrtod t) as [q |] eqn:X.
  - pose proof (round64_nonneg q (xstrtod_nonneg t q Ht X)) as Hn.
    destruct (round64 q) as [q' | [] |] eqn:R; try discriminate.
    + left. exists q'. split; [reflexivity | now apply Qle_bool_iff].
    + right. split; [reflexivity |]. exists t. split; [reflexivity |].
      right. now exists q.
  - destruct (infinity_literal t) as [[] |] eqn:I.
    + now apply infinity_literal_no_minus in I.
    + right. split; [reflexivity |]. exists t. auto.
    + left. exists (inject_Z 0). split; [reflexivity |]. unfold Qle; simpl; lia.
Qed.

End Cleaning.

(** ** Dropping the rows without a rank changes nothing *)

Lemma df_ext (a b : DataFrame) :
  columns a = columns b -> rows a = rows b -> a = b.
Proof. destruct a, b; simpl; intros -> ->; reflexivity. Qed.

Lemma filter_idem {A} (f : A -> bool) (l : list A) :
  filter f (filter f l) = filter f l.
Proof.
  induction l as [| x l IH]; simpl; [reflexivity |].
  destruct (f x) eqn:E; simpl; [now rewrite E, IH | exact IH].
Qed.

Lemma filter_map_comm {A B} (f : B -> bool) (g : A -> B) (l : list A) :
  filter f (map g l) = map g (filter (fun x => f (g x)) l).
Proof.
  induction l as [| x l IH]; simpl; [reflexivity |].
  destruct (f (g x)); simpl; now rewrite IH.
Qed.

Section Dropping.

Variable env : Env.

(** Lines 52-76 give the same on a table and on its rows that have a rank. *)
Lemma preprocess_filter (raw : DataFrame) :
  preprocess env {| columns := columns raw; rows := filter rank_is_number (rows raw) |}
  = preprocess env raw.
Proof.
  set (kept := {| columns := columns raw; rows := filter rank_is_number (rows raw) |}).
  unfold preprocess.
  change (has_column kept "순위") with (has_column raw "순위").
  destruct (has_column raw "순위"); [| reflexivity].
  cbv beta iota delta [negb].
  match goal with
  | |- bind _ ?k1 = bind _ ?k2 => set (K1 := k1); set (K2 := k2)
  end.
  unfold getitem. change (columns kept) with (columns raw).
  destruct (count_occ string_dec (columns raw) "순위") as [| [| n]];
    rewrite ?bind_ret; subst K1 K2; cbv beta; try reflexivity.
  unfold to_numeric. rewrite !bind_ret.
  match goal with
  | |- bind (getitem ?a _) _ = bind (getitem ?b _) _ => assert (E : a = b)
  end.
  { apply df_ext; [reflexivity |].
    rewrite (dropna_rank_rows kept), (dropna_rank_rows raw).
    change (rows kept) with (filter rank_is_number (rows raw)).
    now rewrite filter_idem. }
  rewrite E. reflexivity.
Qed.

Lemma clean_drop_failing (raw : DataFrame) :
  clean env (drop_failing raw) = clean env raw.
Proof.
  unfold clean.
  assert (E : strip_columns (drop_failing raw)
              = {| columns := columns (strip_columns raw);
                   rows := filter rank_is_number (rows (strip_columns raw)) |}).
  { apply df_ext; [reflexivity |]. simpl. now rewrite filter_map_comm. }
  rewrite E, preprocess_filter. reflexivity.
Qed.

End Dropping.

(** ** The cast to int64 *)

Lemma to_int64_range (q : Q) : int64_min <= to_int64 q <= int64_max.
Proof.
  unfold to_int64. destruct ((int64_min <=? trunc q) && (trunc q <=? int64_max)) eqn:E.
  - apply andb_true_iff in E. destruct E as [E1 E2].
    apply Z.leb_le in E1. apply Z.leb_le in E2. lia.
  - vm_compute. split; discriminate.
Qed.

(** A number within [-b, b] truncates to an integer within [-b, b]. *)
Lemma trunc_bound (q : Q) (b : Z) :
  (Qabs q <= inject_Z b)%Q -> - b <= trunc q <= b.
Proof.
  destruct q as [n d]. unfold Qle, trunc; simpl. intros H.
  assert (Hd : 0 < Z.pos d) by lia.
  destruct (Z.le_gt_cases 0 n) as [Hn | Hn].
  - rewrite Z.abs_eq in H by exact Hn.
    rewrite Z.quot_div_nonneg by lia.
    pose proof (Z.div_pos n (Z.pos d) Hn Hd).
    assert (n / Z.pos d <= b) by (apply Z.div_le_upper_bound; lia).
    lia.
  - rewrite Z.abs_neq in H by lia.
    replace n with (- (- n)) by lia.
    rewrite Z.quot_opp_l by lia.
    rewrite Z.quot_div_nonneg by lia.
    assert (0 <= - n / Z.pos d) by (apply Z.div_pos; lia).
    assert (- n / Z.pos d <= b) by (apply Z.div_le_upper_bound; lia).
    lia.
Qed.

(** Below 2^53 the cast is the truncation. *)
Lemma to_int64_exact (q : Q) : exactly_held (Fin q) = true -> to_int64 q = trunc q.
Proof.
  unfold exactly_held. intros H. apply Qle_bool_iff in H.
  apply trunc_bound in H. unfold to_int64.
  assert (E : (int64_min <=? trunc q) && (trunc q <=? int64_max) = true).
  { apply andb_true_iff. unfold int64_min, int64_max.
    split; apply Z.leb_le;
      [ apply Z.le_trans with (- (2 ^ 53 - 1)) | apply Z.le_trans with (2 ^ 53 - 1) ];
      try (apply H); vm_compute; discriminate. }
  now rewrite E.
Qed.

Lemma in_exact_range_row (env : Env) (raw : DataFrame) (r : row) :
  in_exact_range env raw = true ->
  In r (rows (strip_columns raw)) ->
  row_in_exact_range env r = true.
Proof.
  unfold in_exact_range. intros H Hin.
  exact (proj1 (forallb_forall _ _) H r Hin).
Qed.

(** ** The claims about the loader *)

Section LoaderClaims.

Variable env : Env.

(** Every row of an accepted table is the cleaned form of a row read whose
    rank is a finite number. *)
Lemma accepted_row_from (file_path : string) (raw df : DataFrame) (r' : row) :
  accepts env file_path raw df ->
  In r' (rows df) ->
  exists r, In r (rows (strip_columns raw))
            /\ rank_is_number r = true
            /\ is_finite (rank_number r) = true
            /\ r' = clean_row env (columns (strip_columns raw)) r.
Proof.
  intros Ha Hin. destruct (accepted_table env _ _ _ Ha) as (_ & R & F & _).
  rewrite R in Hin. apply in_map_iff in Hin. destruct Hin as (r & <- & Hr).
  exists r. rewrite Forall_forall in F. pose proof (F r Hr) as Hfin.
  apply filter_In in Hr. destruct Hr as [Hr Hk]. auto.
Qed.

(** Every row read whose rank is a number is in the accepted table, cleaned. *)
Lemma accepted_row_into (file_path : string) (raw df : DataFrame) (r : row) :
  accepts env file_path raw df ->
  In r (rows (strip_columns raw)) ->
  rank_is_number r = true ->
  In (clean_row env (columns (strip_columns raw)) r) (rows df).
Proof.
  intros Ha Hin Hk. destruct (accepted_table env _ _ _ Ha) as (_ & R & _).
  rewrite R. apply in_map. apply filter_In. auto.
Qed.

(** C2.  A row whose import value is the text "1,234" and whose export
    value is the text "-" comes out of the cleaning of [load_data] with
    import 1234 and export 0: lines 71-72 turn the two cells into these
    numbers, and the row of the returned table that comes from this row (it
    is there when its rank is a number) holds them. *)
Theorem comma_and_hyphen_cleaned (file_path : string) (raw df : DataFrame) (r : row) :
  accepts env file_path raw df ->
  In r (rows (strip_columns raw)) ->
  rank_is_number r = true ->
  has_column (strip_columns raw) "수입액(천$)" = true ->
  has_column (strip_columns raw) "수출액(천$)" = true ->
  get "수입액(천$)" r = CStr "1,234" ->
  get "수출액(천$)" r = CStr "-" ->
  clean_cell env (CStr "1,234") = of_int 1234
  /\ clean_cell env (CStr "-") = of_int 0
  /\ In (clean_row env (columns (strip_columns raw)) r) (rows df)
  /\ get "수입액(천$)" (clean_row env (columns (strip_columns raw)) r) = CFloat (of_int 1234)
  /\ get "수출액(천$)" (clean_row env (columns (strip_columns raw)) r) = CFloat (of_int 0).
Proof.
  intros Ha Hin Hk Himp Hexp Gi Ge.
  split; [reflexivity |]. split; [reflexivity |].
  split; [now apply (accepted_row_into file_path) |].
  unfold has_column in Himp, Hexp.
  rewrite !get_clean_row_numeric by reflexivity.
  rewrite Himp, Hexp, Gi, Ge. split; reflexivity.
Qed.

(** C3.  After the cleaning of [load_data] no value of the nine numeric
    columns is negative: every hyphen is replaced by a zero before the
    text is read as a number ("-123" becomes 123), so a negative trade
    balance cannot come through either. *)
Theorem numeric_values_never_negative (file_path : string) (raw df : DataFrame)
    (col : string) (r : row) :
  accepts env file_path raw df ->
  mem col numeric_cols = true ->
  In r (rows df) ->
  fle (of_int 0) (to_float (get col r)) = true
  /\ clean_cell env (CStr "-123") = of_int 123.
Proof.
  intros Ha Hc Hin. split; [| reflexivity].
  destruct (accepted_row_from _ _ _ _ Ha Hin) as (r0 & _ & _ & _ & ->).
  rewrite get_clean_row_numeric by exact Hc.
  destruct (mem col (columns (strip_columns raw))); [| reflexivity].
  simpl to_float.
  destruct (clean_cell_shape env (get col r0)) as [(q & -> & Hq) | [-> _]].
  - simpl. now apply Qle_bool_iff.
  - reflexivity.
Qed.


(** C10, as amended.  A row whose rank is a text that reads as a number
    with a fraction is not dropped by [load_data]: it passes the coercion
    of line 57 and its rank becomes an integer, an int64, which is that
    number truncated toward zero ("3.7" becomes rank 3) as long as the
    number is below 2^53 in magnitude. *)
Theorem fractional_rank_truncated (file_path : string) (raw df : DataFrame)
    (r : row) (s : string) (q : Q) :
  accepts env file_path raw df ->
  In r (rows (strip_columns raw)) ->
  get "순위" r = CStr s ->
  parse_number s = Some (Fin q) ->
  In (clean_row env (columns (strip_columns raw)) r) (rows df)
  /\ (exists z, get "순위" (clean_row env (columns (strip_columns raw)) r) = CInt z
                /\ int64_min <= z <= int64_max)
  /\ (exactly_held (Fin q) = true ->
      get "순위" (clean_row env (columns (strip_columns raw)) r) = CInt (trunc q))
  /\ (exists x, parse_number "3.7" = Some (Fin x) /\ trunc x = 3)
  /\ (exists x, parse_number "-3.7" = Some (Fin x) /\ trunc x = -3).
Proof.
  intros Ha Hin Hr Hs.
  assert (E : rank_number r = Fin q).
  { unfold rank_number. rewrite Hr. simpl. now rewrite Hs. }
  assert (G : get "순위" (clean_row env (columns (strip_columns raw)) r)
              = CInt (to_int64 q)).
  { rewrite get_clean_row_rank. unfold rank_int. now rewrite E. }
  split; [| split; [| split; [| split]]].
  - apply (accepted_row_into file_path); [assumption | assumption |].
    unfold rank_is_number. now rewrite E.
  - exists (to_int64 q). split; [exact G | apply to_int64_range].
  - intros Hrange. now rewrite G, (to_int64_exact q Hrange).
  - exists (4165829655317709 # 1125899906842624)%Q. split; vm_compute; reflexivity.
  - exists (-4165829655317709 # 1125899906842624)%Q. split; vm_compute; reflexivity.
Qed.

End LoaderClaims.

(** ** The reads of [load_data] *)

Lemma silent_bind {A B} (m : Prog A) (f : A -> Prog B) :
  silent m -> (forall a, silent (f a)) -> silent (bind m f).
Proof.
  unfold silent. intros Hm Hf. rewrite events_bind, Hm.
  destruct (outcome m); [reflexivity | apply Hf].
Qed.

Lemma silent_getitem (df : DataFrame) (col : string) : silent (getitem df col).
Proof. unfold silent, getitem. now destruct (count_occ _ _ _) as [| [| n]]. Qed.

Lemma silent_to_numeric (arg : selection) : silent (to_numeric arg).
Proof. now destruct arg. Qed.

Lemma silent_astype_int (arg : selection) : silent (astype_int arg).
Proof. destruct arg; [| reflexivity]. unfold silent, astype_int. now destruct (all_some _). Qed.

Lemma silent_str_accessor (arg : selection) : silent (str_accessor arg).
Proof. now destruct arg. Qed.

Lemma silent_clean_column (env : Env) (df : DataFrame) (col : string) :
  silent (clean_column env df col).
Proof.
  unfold clean_column. destruct (has_column df col); [| reflexivity].
  apply silent_bind; [apply silent_getitem | intros sel].
  apply silent_bind; [apply silent_str_accessor | intros s].
  apply silent_bind; [apply silent_to_numeric | reflexivity].
Qed.

Lemma silent_for_columns (env : Env) (cols : list string) :
  forall df, silent (for_columns env cols df).
Proof.
  induction cols as [| col cols IH]; intros df; simpl; [reflexivity |].
  apply silent_bind; [apply silent_clean_column | exact IH].
Qed.

(** Lines 47-80 show error messages at most. *)
Lemma clean_events (env : Env) (df : DataFrame) :
  Forall (fun ev => exists text e, ev = st_error text e) (events (clean env df)).
Proof.
  unfold clean. apply Forall_events_try.
  - unfold preprocess. destruct (has_column (strip_columns df) "순위"); simpl negb.
    + apply Forall_events_nil.
      apply silent_bind; [apply silent_getitem | intros sel].
      apply silent_bind; [apply silent_to_numeric | intros n].
      apply silent_bind; [apply silent_getitem | intros sel'].
      apply silent_bind; [apply silent_astype_int | intros ints].
      apply silent_for_columns.
    + constructor; [eauto | constructor].
  - intros e. constructor; [eauto | constructor].
Qed.

Ltac read_case :=
  intros;
  repeat match goal with
         | H : inl _ = inl _ |- _ => inversion H; clear H; subst
         | H : inr _ = inr _ |- _ => inversion H; clear H; subst
         | H : inl _ = inr _ |- _ => discriminate H
         | H : inr _ = inl _ |- _ => discriminate H
         end;
  simpl in *;
  try discriminate;
  try match goal with C : clean _ _ = _ |- _ => rewrite C end;
  try reflexivity.

Ltac read_log :=
  repeat (constructor; [solve [eauto | intros; discriminate] |]);
  first [assumption | constructor].

(** C8.  [load_data] reads the file as cp949 first; when that raises a
    decoding error it reads it as utf-8; when that fails too it reports
    the encoding error and returns the empty table.  Every read is made
    with [header=1]: the second line holds the column labels and the first
    is skipped. *)
Theorem encoding_fallback (env : Env) (file_path : string) :
  path_exists env file_path = true ->
  (exists rest,
      events (load_data env file_path) = read_csv_call file_path 1 "cp949" :: rest)
  /\ Forall (fun ev => forall p h enc,
                 ev = read_csv_call p h enc ->
                 p = file_path /\ h = 1%nat /\ (enc = "cp949" \/ enc = "utf-8"))
            (events (load_data env file_path))
  /\ (forall df,
        read_csv env file_path 1 "cp949" = inr df ->
        load_data env file_path
        = (read_csv_call file_path 1 "cp949" :: events (clean env df),
           outcome (clean env df)))
  /\ (forall e,
        read_csv env file_path 1 "cp949" = inl e ->
        is_UnicodeDecodeError e = false ->
        load_data env file_path
        = ([read_csv_call file_path 1 "cp949";
            st_error "파일 로드 중 알 수 없는 오류 발생: " (Some e)],
           inr empty_DataFrame))
  /\ (forall df,
        read_csv env file_path 1 "cp949" = inl UnicodeDecodeError ->
        read_csv env file_path 1 "utf-8" = inr df ->
        load_data env file_path
        = (read_csv_call file_path 1 "cp949" :: read_csv_call file_path 1 "utf-8"
             :: events (clean env df),
           outcome (clean env df)))
  /\ (forall e,
        read_csv env file_path 1 "cp949" = inl UnicodeDecodeError ->
        read_csv env file_path 1 "utf-8" = inl e ->
        load_data env file_path
        = ([read_csv_call file_path 1 "cp949"; read_csv_call file_path 1 "utf-8";
            st_error "파일 인코딩 오류: " (Some e)],
           inr empty_DataFrame)).
Proof.
  intros Hex.
  assert (Hclean : forall df,
             Forall (fun ev => forall p h enc,
                         ev = read_csv_call p h enc ->
                         p = file_path /\ h = 1%nat /\ (enc = "cp949" \/ enc = "utf-8"))
                    (events (clean env df))).
  { intros df. eapply Forall_impl; [| apply clean_events].
    intros ev (text & e & ->) p h enc H. discriminate. }
  assert (Hcall : forall enc0, enc0 = "cp949" \/ enc0 = "utf-8" ->
             forall p h enc,
               read_csv_call file_path 1 enc0 = read_csv_call p h enc ->
               p = file_path /\ h = 1%nat /\ (enc = "cp949" \/ enc = "utf-8")).
  { intros enc0 H0 p h enc H. inversion H; subst. auto. }
  unfold load_data. rewrite Hex. cbv beta iota delta [negb]. unfold pd_read_csv.
  destruct (read_csv env file_path 1 "cp949") as [e1 | df1] eqn:E1.
  - destruct (is_UnicodeDecodeError e1) eqn:U.
    + destruct e1; try discriminate.
      destruct (read_csv env file_path 1 "utf-8") as [e2 | df2] eqn:E2.
      * unfold attempt, bind, emit, raise, ret; simpl.
        repeat split; solve [eauto | read_case | read_log].
      * unfold attempt, bind, emit, raise, ret; simpl.
        pose proof (Hclean df2) as Hl.
        destruct (clean env df2) as [l r] eqn:C. simpl.
        repeat split; solve [eauto | read_case | read_log].
    + unfold attempt, bind, emit, raise, ret; simpl. rewrite U. simpl.
      repeat split; solve [eauto | read_case | read_log].
  - unfold attempt, bind, emit, raise, ret; simpl.
    pose proof (Hclean df1) as Hl.
    destruct (clean env df1) as [l r] eqn:C. simpl.
    repeat split; solve [eauto | read_case | read_log].
Qed.

(** ** The claims about the view layer *)

Lemma fle_of_int (a b : Z) : fle (of_int a) (of_int b) = true <-> a <= b.
Proof. simpl. rewrite Qle_bool_iff, <- Zle_Qle. reflexivity. Qed.

(** C5.  The rank filter of line 107 keeps exactly the rows whose rank [z]
    satisfies [a <= z <= b]: a row of rank [a] or of rank [b] is kept, a row
    of rank [a - 1] or [b + 1] is not. *)
Theorem rank_filter_inclusive (df : DataFrame) (a b : Z) (r : row) (z : Z) :
  get "순위" r = CInt z ->
  (In r (rows (rank_filter df (a, b))) <-> In r (rows df) /\ a <= z <= b)
  /\ (In r (rows df) -> a <= b -> z = a \/ z = b -> In r (rows (rank_filter df (a, b))))
  /\ (z = a - 1 \/ z = b + 1 -> ~ In r (rows (rank_filter df (a, b)))).
Proof.
  intros Hz.
  assert (Hiff : In r (rows (rank_filter df (a, b))) <-> In r (rows df) /\ a <= z <= b).
  { change (rows (rank_filter df (a, b)))
      with (filter (fun r => fle (of_int a) (to_float (get "순위" r))
                             && fle (to_float (get "순위" r)) (of_int b)) (rows df)).
    rewrite filter_In, Hz.
    change (to_float (CInt z)) with (of_int z).
    rewrite andb_true_iff, !fle_of_int. tauto. }
  split; [exact Hiff |]. split.
  - intros Hin Hab Hz'. apply Hiff. split; [exact Hin | lia].
  - intros Hz' Hin. apply Hiff in Hin. lia.
Qed.

Section View.

Variable env : Env.

(** C1, as amended.  Over an empty rank-filtered sub-table of an accepted
    table the sum of the import values is 0 and nothing is raised; the mean
    of the trade balance is not raised either, but it is NaN: there is no
    fallback, and the metric shows it as [$nan]. *)
Theorem kpi_of_empty_selection (file_path : string) (raw df : DataFrame)
    (rank_range : Z * Z) :
  accepts env file_path raw df ->
  rows (rank_filter df rank_range) = [] ->
  total_import (rank_filter df rank_range) = ([], inr (of_int 0))
  /\ total_export (rank_filter df rank_range) = ([], inr (of_int 0))
  /\ avg_balance (rank_filter df rank_range) = ([], inr NaN)
  /\ kpi (rank_filter df rank_range)
     = ([st_metric "선택 국가 총 수입액" "$0 (천불)";
         st_metric "선택 국가 총 수출액" "$0 (천불)";
         st_metric "평균 무역수지" "$nan (천불)"],
        inr tt).
Proof.
  intros Ha Hempty.
  destruct (accepted_table env _ _ _ Ha) as (_ & _ & _ & _ & N).
  assert (Hi : total_import (rank_filter df rank_range) = ([], inr (of_int 0))).
  { unfold total_import, getitem. change (columns (rank_filter df rank_range)) with (columns df).
    rewrite (N "수입액(천$)") by reflexivity. rewrite Hempty. reflexivity. }
  assert (He : total_export (rank_filter df rank_range) = ([], inr (of_int 0))).
  { unfold total_export, getitem. change (columns (rank_filter df rank_range)) with (columns df).
    rewrite (N "수출액(천$)") by reflexivity. rewrite Hempty. reflexivity. }
  assert (Hb : avg_balance (rank_filter df rank_range) = ([], inr NaN)).
  { unfold avg_balance, getitem. change (columns (rank_filter df rank_range)) with (columns df).
    rewrite (N "무역수지(천$)") by reflexivity. rewrite Hempty. reflexivity. }
  repeat split; try assumption.
  unfold kpi. rewrite Hi, He, Hb. reflexivity.
Qed.

End View.

(** ** What reaches the correlation chart *)

Ltac log_step :=
  match goal with
  | |- Forall _ (events (bind _ _)) => apply Forall_events_bind; [| intros ? ?]
  | |- Forall _ (events (try_except _ _)) => apply Forall_events_try; [| intros ?]
  | |- Forall _ (events (emit _)) => apply Forall_events_emit
  | |- Forall _ (events (ret _)) => constructor
  | |- Forall _ (events (raise _)) => constructor
  | |- Forall _ (events (attempt ?m)) => change (events (attempt m)) with (events m)
  | |- Forall _ (events (if ?b then _ else _)) => destruct b
  | |- Forall _ (events (match ?x with _ => _ end)) => destruct x
  end.

(** [load_data] draws no chart. *)
Lemma load_data_no_chart (env : Env) (file_path : string) :
  Forall (fun ev => forall fig, ev <> st_plotly_chart fig) (events (load_data env file_path)).
Proof.
  unfold load_data, pd_read_csv.
  repeat first
    [ log_step
    | eapply Forall_impl; [| apply clean_events];
      intros ? (? & ? & ->) ?; discriminate ];
    intros ?; discriminate.
Qed.

(** C4, as amended.  The correlation view hands plotly the rank-filtered
    sub-table as it is, with both axes logarithmic: the chart is
    [fig_scatter] of [rank_filter] of the table loaded.  No row is taken
    out and no value is raised before the chart: rows whose import or
    export value is zero are among the data. *)
Theorem scatter_gets_filtered_table (env : Env) (ss : Session) (d : DataFrame)
    (x y size color hover_name : string) (log_x log_y : bool) :
  In (st_plotly_chart (px_scatter d x y size color hover_name log_x log_y))
     (events (main env ss)) ->
  exists df,
    outcome (load_data env FILE_PATH) = inr df
    /\ d = rank_filter df (rank_range_value ss)
    /\ px_scatter d x y size color hover_name log_x log_y = fig_scatter d
    /\ log_x = true /\ log_y = true.
Proof.
  set (P := fun ev =>
              forall d x y size color hover_name log_x log_y,
                ev = st_plotly_chart (px_scatter d x y size color hover_name log_x log_y) ->
                exists df,
                  outcome (load_data env FILE_PATH) = inr df
                  /\ d = rank_filter df (rank_range_value ss)
                  /\ px_scatter d x y size color hover_name log_x log_y = fig_scatter d
                  /\ log_x = true /\ log_y = true).
  assert (H : Forall P (events (main env ss))).
  { unfold main.
    apply Forall_events_bind; [apply Forall_events_emit; intros ? ? ? ? ? ? ? ? E; discriminate |].
    intros _ _.
    apply Forall_events_bind.
    { eapply Forall_impl; [| apply load_data_no_chart].
      intros ev Hev ? ? ? ? ? ? ? ? E. now apply Hev in E. }
    intros df Hdf. destruct (df_empty df); [constructor |].
    unfold render, kpi, tab1, tab2, tab3, total_import, total_export, avg_balance,
      country_list, plot, as_series, py_int, iloc0, getitem.
    repeat log_step;
      intros ? ? ? ? ? ? ? ? E; try discriminate.
    inversion E; subst. exists df. repeat split; assumption || reflexivity. }
  intros Hin. rewrite Forall_forall in H. exact (H _ Hin _ _ _ _ _ _ _ _ eq_refl).
Qed.

(** ** The trend view *)

Lemma unique_from_incl (values seen : list cell) (v : cell) :
  In v (unique_from seen values) -> In v values.
Proof.
  revert seen. induction values as [| w values IH]; intros seen; simpl; [auto |].
  destruct (existsb (same_value w) seen).
  - intros H. right. now apply (IH seen).
  - intros [-> | H]; [now left | right; now apply (IH (w :: seen))].
Qed.

(** The select box returns one of the options offered. *)
Lemma selectbox_offered {A} (default : A) (options : list A) (chosen : nat) :
  options <> [] -> In (selectbox default options chosen) options.
Proof.
  intros Hne. unfold selectbox. apply nth_In.
  destruct (chosen <? List.length options)%nat eqn:E.
  - now apply Nat.ltb_lt.
  - destruct options; [congruence | simpl; lia].
Qed.

(** The country of the trend view is the country of a row of the filtered
    sub-table: one outside of it cannot be selected. *)
Lemma trend_country_is_filtered (filtered_df : DataFrame) (countries : list cell)
    (chosen : nat) :
  outcome (country_list filtered_df) = inr countries ->
  countries <> [] ->
  exists r, In r (rows filtered_df)
            /\ get "수입국" r = selectbox (CFloat NaN) countries chosen.
Proof.
  unfold country_list, getitem.
  destruct (count_occ string_dec (columns filtered_df) "수입국") as [| [| n]];
    simpl; try discriminate.
  intros H Hne. inversion H; subst. clear H.
  pose proof (selectbox_offered (CFloat NaN) _ chosen Hne) as Hin.
  apply unique_from_incl in Hin. apply in_map_iff in Hin.
  destruct Hin as (r & Hr & Hin). now exists r.
Qed.

(** * The claims on the sample inputs *)

Lemma sample_accepted : accepts sample_env FILE_PATH sample_raw sample_df.
Proof. repeat split; vm_compute; reflexivity. Qed.

Lemma comma_and_hyphen_cleaned_witness :
  get "수입액(천$)" sample_first_row = CStr "1,234"
  /\ get "수출액(천$)" sample_first_row = CStr "-"
  /\ get "수입액(천$)"
       (clean_row sample_env (columns (strip_columns sample_raw)) sample_first_row)
     = CFloat (of_int 1234)
  /\ get "수출액(천$)"
       (clean_row sample_env (columns (strip_columns sample_raw)) sample_first_row)
     = CFloat (of_int 0).
Proof.
  split; [reflexivity |]. split; [reflexivity |].
  apply (comma_and_hyphen_cleaned sample_env FILE_PATH sample_raw sample_df sample_first_row).
  - exact sample_accepted.
  - vm_compute. left. reflexivity.
  - reflexivity.
  - reflexivity.
  - reflexivity.
  - reflexivity.
  - reflexivity.
Defined.

Lemma numeric_values_never_negative_witness :
  fle (of_int 0) (to_float (get "무역수지(천$)" (nth 0 (rows sample_df) []))) = true.
Proof.
  apply (numeric_values_never_negative sample_env FILE_PATH sample_raw sample_df
           "무역수지(천$)" (nth 0 (rows sample_df) [])).
  - exact sample_accepted.
  - reflexivity.
  - vm_compute. left. reflexivity.
Defined.



Lemma fractional_rank_truncated_witness :
  get "순위" sample_third_row = CStr "3.7"
  /\ In (clean_row sample_env (columns (strip_columns sample_raw)) sample_third_row)
        (rows sample_df)
  /\ get "순위"
       (clean_row sample_env (columns (strip_columns sample_raw)) sample_third_row)
     = CInt 3.
Proof.
  split; [reflexivity |].
  destruct (fractional_rank_truncated sample_env FILE_PATH sample_raw sample_df
              sample_third_row "3.7" (4165829655317709 # 1125899906842624))
    as (Hin & _ & Hrank & _).
  - exact sample_accepted.
  - vm_compute. right. right. left. reflexivity.
  - reflexivity.
  - vm_compute. reflexivity.
  - split; [exact Hin |]. apply Hrank. vm_compute. reflexivity.
Defined.

(** The claim of C10 as it stands fails beyond the range of an int64: the
    rank text [10000000000000000000.5] reads as a number, the row is kept,
    and its rank is the least int64, not the number truncated.  A rank
    text too large for a float64 reads as infinity. *)
Lemma huge_fractional_rank_not_truncated :
  accepts huge_rank_env FILE_PATH huge_rank_raw huge_rank_df
  /\ get "순위" (nth 1 (rows (strip_columns huge_rank_raw)) [])
     = CStr "10000000000000000000.5"
  /\ parse_number "10000000000000000000.5"
     = Some (Fin (inject_Z 10000000000000000000))
  /\ trunc (inject_Z 10000000000000000000) = 10000000000000000000
  /\ In (clean_row huge_rank_env (columns (strip_columns huge_rank_raw))
           (nth 1 (rows (strip_columns huge_rank_raw)) []))
        (rows huge_rank_df)
  /\ get "순위" (clean_row huge_rank_env (columns (strip_columns huge_rank_raw))
                   (nth 1 (rows (strip_columns huge_rank_raw)) []))
     = CInt (-9223372036854775808)
  /\ parse_number "1e400" = Some (Inf false).
Proof.
  split; [repeat split; vm_compute; reflexivity |].
  split; [reflexivity |].
  split; [vm_compute; reflexivity |].
  split; [vm_compute; reflexivity |].
  split; [vm_compute; right; left; reflexivity |].
  split; vm_compute; reflexivity.
Qed.

Lemma encoding_fallback_witness :
  load_data cp949_env FILE_PATH
  = (read_csv_call FILE_PATH 1 "cp949" :: events (clean cp949_env sample_raw),
     outcome (clean cp949_env sample_raw))
  /\ load_data sample_env FILE_PATH
     = (read_csv_call FILE_PATH 1 "cp949" :: read_csv_call FILE_PATH 1 "utf-8"
          :: events (clean sample_env sample_raw),
        outcome (clean sample_env sample_raw)).
Proof.
  split.
  - destruct (encoding_fallback cp949_env FILE_PATH eq_refl) as (_ & _ & H & _).
    exact (H sample_raw eq_refl).
  - destruct (encoding_fallback sample_env FILE_PATH eq_refl) as (_ & _ & _ & _ & H & _).
    exact (H sample_raw eq_refl eq_refl).
Defined.

Lemma rank_filter_inclusive_witness :
  In (nth 2 (rows sample_df) []) (rows (rank_filter sample_df (2, 5)))
  /\ ~ In (nth 0 (rows sample_df) []) (rows (rank_filter sample_df (2, 5))).
Proof.
  split.
  - destruct (rank_filter_inclusive sample_df 2 5 (nth 2 (rows sample_df) []) 5 eq_refl)
      as (_ & H & _).
    apply H; [vm_compute; right; right; left; reflexivity | lia | right; reflexivity].
  - destruct (rank_filter_inclusive sample_df 2 5 (nth 0 (rows sample_df) []) 1 eq_refl)
      as (_ & _ & H).
    apply H. left. reflexivity.
Defined.

Lemma kpi_of_empty_selection_witness :
  rows (rank_filter sample_df (6, 7)) = []
  /\ avg_balance (rank_filter sample_df (6, 7)) = ([], inr NaN).
Proof.
  split; [reflexivity |].
  apply (kpi_of_empty_selection sample_env FILE_PATH sample_raw sample_df (6, 7)).
  - exact sample_accepted.
  - reflexivity.
Defined.

(** The claim of C1 as it stands fails on the sample: with the slider on
    ranks 6..7 the filtered sub-table is empty, the mean is NaN, and the
    third metric of [main] shows it. *)
Lemma mean_of_empty_selection_is_nan :
  rows (rank_filter sample_df (rank_range_value empty_range_session)) = []
  /\ outcome (avg_balance (rank_filter sample_df (rank_range_value empty_range_session)))
     = inr NaN
  /\ nth_error (events (main sample_env empty_range_session)) 8
     = Some (st_metric "평균 무역수지" "$nan (천불)").
Proof. repeat split; vm_compute; reflexivity. Qed.

Lemma scatter_gets_filtered_table_witness :
  exists df,
    outcome (load_data sample_env FILE_PATH) = inr df
    /\ rank_filter sample_df (1, 5) = rank_filter df (rank_range_value sample_session)
    /\ fig_scatter (rank_filter sample_df (1, 5)) = fig_scatter (rank_filter sample_df (1, 5))
    /\ true = true /\ true = true.
Proof.
  apply (scatter_gets_filtered_table sample_env sample_session
           (rank_filter sample_df (1, 5))
           "수입액(천$)" "수출액(천$)" "수입액(천$)" "수입국" "수입국" true true).
  apply nth_error_In with (n := 15%nat). vm_compute. reflexivity.
Defined.

(** The claim of C4 as it stands fails on the sample: the row of rank 5
    has import value 0, and it is among the data of the chart drawn on
    logarithmic axes. *)
Lemma zero_import_reaches_scatter :
  nth_error (events (main sample_env sample_session)) 15
  = Some (st_plotly_chart (fig_scatter (rank_filter sample_df (1, 5))))
  /\ fig_scatter (rank_filter sample_df (1, 5))
     = px_scatter (rank_filter sample_df (1, 5))
         "수입액(천$)" "수출액(천$)" "수입액(천$)" "수입국" "수입국" true true
  /\ In (nth 2 (rows sample_df) []) (rows (rank_filter sample_df (1, 5)))
  /\ to_float (get "수입액(천$)" (nth 2 (rows sample_df) [])) = of_int 0.
Proof.
  split; [vm_compute; reflexivity |]. split; [reflexivity |].
  split; [vm_compute; right; right; left; reflexivity | vm_compute; reflexivity].
Qed.

(** C9, on the failing input.  The fifth row of the sample has a rank and
    no country name.  With the slider on ranks 8..8 the select box offers
    that missing name alone; the lookup of line 160 finds no row equal to
    it, [iloc[0]] raises [IndexError], and since line 160 stands before the
    [try] of line 163 the exception leaves [main]: no placeholder is shown. *)
Theorem trend_lookup_raises_for_missing_name :
  outcome (country_list (rank_filter sample_df (rank_range_value missing_name_session)))
  = inr [CFloat NaN]
  /\ rows (rows_equal sample_df "수입국" (CFloat NaN)) = []
  /\ outcome (main sample_env missing_name_session) = inl IndexError
  /\ ~ In (st_info "연도별 상세 데이터가 부족하여 그래프를 그릴 수 없습니다.")
         (events (main sample_env missing_name_session)).
Proof.
  split; [vm_compute; reflexivity |]. split; [vm_compute; reflexivity |].
  split; [vm_compute; reflexivity |].
  vm_compute. intros H.
  repeat (destruct H as [H | H]; [discriminate H |]). exact H.
Qed.

Lemma trend_country_is_filtered_witness :
  exists r, In r (rows (rank_filter sample_df (1, 5)))
            /\ get "수입국" r
               = selectbox (CFloat NaN) [CStr "미국"; CStr "독일"; CStr "일본"] 1.
Proof.
  apply (trend_country_is_filtered (rank_filter sample_df (1, 5))
           [CStr "미국"; CStr "독일"; CStr "일본"] 1).
  - vm_compute. reflexivity.
  - discriminate.
Defined.

(** * Further properties of the loader *)

Lemma preprocess_silent (env : Env) (df : DataFrame) :
  has_column df "순위" = true -> silent (preprocess env df).
Proof.
  intros H. unfold preprocess. rewrite H. cbv beta iota delta [negb].
  apply silent_bind; [apply silent_getitem | intros sel].
  apply silent_bind; [apply silent_to_numeric | intros n].
  apply silent_bind; [apply silent_getitem | intros sel'].
  apply silent_bind; [apply silent_astype_int | intros ints].
  apply silent_for_columns.
Qed.

(** Lines 47-80 end in one of three ways: the message of line 53, the
    message of line 79 over the exception raised, or the table of line 76
    and no message. *)
Lemma clean_cases (env : Env) (raw : DataFrame) :
  (has_column (strip_columns raw) "순위" = false
   /\ clean env raw
      = ([st_error "데이터에 '순위' 컬럼이 없습니다. CSV 파일 구조를 확인해주세요." None],
         inr empty_DataFrame))
  \/ (has_column (strip_columns raw) "순위" = true
      /\ exists e,
           outcome (preprocess env (strip_columns raw)) = inl e
           /\ clean env raw
              = ([st_error "데이터 전처리 오류: " (Some e)], inr empty_DataFrame))
  \/ (has_column (strip_columns raw) "순위" = true
      /\ exists df,
           preprocess env (strip_columns raw) = ([], inr df)
           /\ clean env raw = ([], inr df)).
Proof.
  destruct (has_column (strip_columns raw) "순위") eqn:Hrank.
  - right. pose proof (preprocess_silent env _ Hrank) as Hs. unfold silent in Hs.
    unfold clean.
    destruct (preprocess env (strip_columns raw)) as [log [e | df]]; simpl in Hs; subst log.
    + left. split; [reflexivity |]. exists e. split; reflexivity.
    + right. split; [reflexivity |]. exists df. split; reflexivity.
  - left. split; [reflexivity |]. unfold clean, preprocess. rewrite Hrank. reflexivity.
Qed.

(** The reads of [load_data], and what lines 47-80 make of the table read. *)
Lemma load_data_read_calls (env : Env) (file_path : string) (raw : DataFrame) :
  read_table env file_path = Some raw ->
  exists reads,
    Forall (fun ev => is_read_call ev = true) reads
    /\ load_data env file_path
       = (List.app reads (events (clean env raw)), outcome (clean env raw)).
Proof.
  unfold read_table, load_data. destruct (path_exists env file_path); [| discriminate].
  cbv beta iota delta [negb]. unfold pd_read_csv.
  destruct (read_csv env file_path 1 "cp949") as [e | df] eqn:E1.
  - destruct (is_UnicodeDecodeError e) eqn:Ue; [| discriminate].
    destruct (read_csv env file_path 1 "utf-8") as [e2 | df2] eqn:E2; [discriminate |].
    intros H. inversion H; subst.
    exists [read_csv_call file_path 1 "cp949"; read_csv_call file_path 1 "utf-8"].
    split; [repeat constructor |].
    unfold attempt, bind, emit, raise, ret; simpl. rewrite Ue. simpl.
    destruct (clean env raw) as [l r]. reflexivity.
  - intros H. inversion H; subst.
    exists [read_csv_call file_path 1 "cp949"].
    split; [repeat constructor |].
    unfold attempt, bind, emit, raise, ret; simpl.
    destruct (clean env raw) as [l r]. reflexivity.
Qed.

(** [load_data] ends in one of two ways: with a message and the empty
    table, or with reads only and the table cleaned by lines 52-76. *)
Lemma load_data_cases (env : Env) (file_path : string) :
  (exists log text e,
      load_data env file_path = (log, inr empty_DataFrame)
      /\ In (st_error text e) log)
  \/ (exists reads raw df,
        Forall (fun ev => is_read_call ev = true) reads
        /\ read_table env file_path = Some raw
        /\ has_column (strip_columns raw) "순위" = true
        /\ preprocess env (strip_columns raw) = ([], inr df)
        /\ load_data env file_path = (reads, inr df)).
Proof.
  destruct (read_table env file_path) as [raw |] eqn:Hread.
  - destruct (load_data_read_calls env _ _ Hread) as (reads & Hreads & Hl).
    destruct (clean_cases env raw) as [[_ Hc] | [(_ & e & _ & Hc) | (Hrank & df & Hp & Hc)]];
      rewrite Hc in Hl; simpl in Hl.
    + left. eexists; eexists; eexists. split; [exact Hl |].
      apply in_or_app. right. left. reflexivity.
    + left. eexists; eexists; eexists. split; [exact Hl |].
      apply in_or_app. right. left. reflexivity.
    + right. exists reads, raw, df. rewrite app_nil_r in Hl. auto.
  - left. unfold read_table in Hread. unfold load_data.
    destruct (path_exists env file_path).
    + cbv beta iota delta [negb]. unfold pd_read_csv.
      destruct (read_csv env file_path 1 "cp949") as [e | df] eqn:E1; [| discriminate].
      destruct (is_UnicodeDecodeError e) eqn:Ue.
      * destruct (read_csv env file_path 1 "utf-8") as [e2 | df2] eqn:E2; [| discriminate].
        unfold attempt, bind, emit, raise, ret; simpl. rewrite Ue. simpl.
        eexists; eexists; eexists. split; [reflexivity |].
        right. right. left. reflexivity.
      * unfold attempt, bind, emit, raise, ret; simpl. rewrite Ue. simpl.
        eexists; eexists; eexists. split; [reflexivity |].
        right. left. reflexivity.
    + eexists; eexists; eexists. split; [reflexivity |]. left. reflexivity.
Qed.

Lemma read_call_not_error (reads : list event) (text : string) (e : option exn) :
  Forall (fun ev => is_read_call ev = true) reads -> ~ In (st_error text e) reads.
Proof.
  intros F H. rewrite Forall_forall in F. apply F in H. discriminate.
Qed.

(** X2.  [load_data] never lets an exception out: whatever the file system
    and the reader do, it returns a table. *)
Theorem load_data_never_raises (env : Env) (file_path : string) :
  exists df, outcome (load_data env file_path) = inr df.
Proof.
  destruct (load_data_cases env file_path)
    as [(log & text & e & H & _) | (reads & raw & df & _ & _ & _ & _ & H)];
    rewrite H; eexists; reflexivity.
Qed.

(** X3.  Whenever [load_data] shows an error message, the table it returns
    is the empty one, and [main] then stops after the sidebar title and the
    loader's own messages: no slider, metric, chart or table is shown, and
    no exception is raised. *)
Theorem nothing_rendered_after_load_error (env : Env) (ss : Session)
    (text : string) (e : option exn) :
  In (st_error text e) (events (load_data env FILE_PATH)) ->
  outcome (load_data env FILE_PATH) = inr empty_DataFrame
  /\ main env ss
     = (st_sidebar_title "🌏 분석 도구 옵션" :: events (load_data env FILE_PATH), inr tt).
Proof.
  intros Hin.
  destruct (load_data_cases env FILE_PATH)
    as [(log & text' & e' & H & _) | (reads & raw & df & Hr & _ & _ & _ & H)].
  - split; [now rewrite H |]. unfold main. rewrite H.
    unfold bind, emit, ret; simpl. now rewrite app_nil_r.
  - rewrite H in Hin. simpl in Hin. now apply read_call_not_error in Hin.
Qed.

(** X4.  A file whose header, once stripped, has no rank label is
    rejected: after the reads [load_data] shows the message of line 53 and
    returns the empty table. *)
Theorem missing_rank_column_rejected (env : Env) (file_path : string) (raw : DataFrame) :
  read_table env file_path = Some raw ->
  has_column (strip_columns raw) "순위" = false ->
  exists reads,
    Forall (fun ev => is_read_call ev = true) reads
    /\ load_data env file_path
       = (List.app reads
            [st_error "데이터에 '순위' 컬럼이 없습니다. CSV 파일 구조를 확인해주세요." None],
          inr empty_DataFrame).
Proof.
  intros Hread Hrank.
  destruct (load_data_read_calls env _ _ Hread) as (reads & Hreads & Hl).
  exists reads. split; [exact Hreads |].
  destruct (clean_cases env raw) as [[_ Hc] | [(H & _) | (H & _)]]; try congruence.
  now rewrite Hc in Hl.
Qed.

(** X5.  One row whose rank reads as an infinity (the text [inf], say)
    makes [load_data] reject the whole file: the conversion of line 59
    raises, the message of line 79 is shown and the empty table returned. *)
Theorem infinite_rank_rejects_file (env : Env) (file_path : string) (raw : DataFrame)
    (r : row) (negative : bool) :
  read_table env file_path = Some raw ->
  has_column (strip_columns raw) "순위" = true ->
  In r (rows (strip_columns raw)) ->
  rank_number r = Inf negative ->
  exists reads e,
    Forall (fun ev => is_read_call ev = true) reads
    /\ load_data env file_path
       = (List.app reads [st_error "데이터 전처리 오류: " (Some e)], inr empty_DataFrame).
Proof.
  intros Hread Hrank Hin Hinf.
  destruct (load_data_read_calls env _ _ Hread) as (reads & Hreads & Hl).
  destruct (clean_cases env raw) as [[H _] | [(_ & e & _ & Hc) | (_ & df & Hp & _)]].
  - congruence.
  - exists reads, e. split; [exact Hreads |]. now rewrite Hc in Hl.
  - exfalso.
    destruct (preprocess_rows env _ _ _ Hrank Hp) as (_ & _ & _ & F & _).
    rewrite Forall_forall in F.
    assert (Hk : In r (filter rank_is_number (rows (strip_columns raw)))).
    { apply filter_In. split; [exact Hin |]. unfold rank_is_number. now rewrite Hinf. }
    apply F in Hk. rewrite Hinf in Hk. discriminate.
Qed.

(** ** When [load_data] accepts a file *)

Lemma mem_In (c : string) (l : list string) : mem c l = true <-> In c l.
Proof.
  unfold mem. rewrite existsb_exists. split.
  - intros (x & Hx & E). apply String.eqb_eq in E. now subst.
  - intros H. exists c. split; [exact H | apply String.eqb_refl].
Qed.

Lemma nodupb_NoDup (l : list string) : nodupb l = true -> NoDup l.
Proof.
  induction l as [| x l IH]; simpl; intros H; constructor.
  - apply andb_true_iff in H. destruct H as [H _]. apply negb_true_iff in H.
    intros Hin. apply mem_In in Hin. congruence.
  - apply IH. apply andb_true_iff in H. tauto.
Qed.

Lemma count_occ_NoDup (l : list string) (c : string) :
  NoDup l -> mem c l = true -> count_occ string_dec l c = 1%nat.
Proof.
  intros Hnd Hc. apply mem_In in Hc.
  rewrite (NoDup_count_occ' string_dec) in Hnd. now apply Hnd.
Qed.

Lemma NoDup_add_column (l : list string) (c : string) :
  NoDup l -> NoDup (add_column l c).
Proof.
  intros Hnd. unfold add_column. destruct (mem c l) eqn:E; [exact Hnd |].
  apply NoDup_rev in Hnd. rewrite <- (rev_involutive (List.app l [c])).
  apply NoDup_rev. rewrite rev_app_distr. simpl. constructor; [| exact Hnd].
  rewrite <- in_rev. intros Hin. apply mem_In in Hin. congruence.
Qed.

Lemma all_some_total {A B} (g : A -> option B) (l : list A) :
  (forall x, In x l -> g x <> None) -> exists ys, all_some (map g l) = Some ys.
Proof.
  induction l as [| x l IH]; intros H; simpl; [now exists [] |].
  destruct (g x) as [y |] eqn:G; [| exfalso; apply (H x); [now left | exact G]].
  destruct IH as [ys Hys]; [intros z Hz; apply H; now right |].
  rewrite Hys. now exists (y :: ys).
Qed.

Section Accepting.

Variable env : Env.

(** The body of the loop ends well on a table whose labels are distinct. *)
Lemma clean_column_total (df : DataFrame) (col : string) :
  NoDup (columns df) -> exists df', clean_column env df col = ([], inr df').
Proof.
  intros Hnd. unfold clean_column. destruct (has_column df col) eqn:Hc.
  - unfold getitem. rewrite (count_occ_NoDup _ _ Hnd Hc).
    rewrite bind_ret. simpl astype_str. unfold str_accessor. rewrite bind_ret.
    unfold to_numeric. rewrite bind_ret. eexists. reflexivity.
  - eexists. reflexivity.
Qed.

Lemma for_columns_total (cols : list string) :
  forall df, NoDup (columns df) -> exists df', for_columns env cols df = ([], inr df').
Proof.
  induction cols as [| col cols IH]; intros df Hnd; simpl; [now exists df |].
  destruct (clean_column_total df col Hnd) as [df1 H1]. rewrite H1.
  change ([], @inr exn DataFrame df1) with (ret df1). rewrite bind_ret.
  apply IH. apply clean_column_ok in H1. destruct H1 as (_ & C & _).
  rewrite C. now apply NoDup_add_column.
Qed.

(** Lines 52-76 end well on a table whose labels are distinct and hold the
    rank, when no rank reads as an infinity. *)
Lemma preprocess_total (raw : DataFrame) :
  NoDup (columns raw) ->
  has_column raw "순위" = true ->
  (forall r, In r (rows raw) -> forall b, rank_number r <> Inf b) ->
  exists df, preprocess env raw = ([], inr df).
Proof.
  intros Hnd Hrank Hfin. unfold preprocess. rewrite Hrank. cbv beta iota delta [negb].
  unfold getitem at 1. rewrite (count_occ_NoDup _ _ Hnd Hrank).
  rewrite bind_ret. unfold to_numeric at 1. rewrite bind_ret.
  set (df1 := dropna _ _).
  assert (C1 : columns df1 = add_column (columns raw) "순위_숫자") by reflexivity.
  assert (R1 : rows df1 = map (fun r => set_cell "순위_숫자" (CFloat (rank_number r)) r)
                            (filter rank_is_number (rows raw)))
    by apply dropna_rank_rows.
  unfold getitem at 1. rewrite C1.
  rewrite (count_occ_NoDup _ _ (NoDup_add_column _ _ Hnd) (mem_add_column_same _ _)).
  rewrite bind_ret. unfold astype_int.
  destruct (all_some_total (fun c => int_of_float (to_float c))
              (map (get "순위_숫자") (rows df1))) as [ints Hints].
  { intros c Hc. rewrite R1, map_map in Hc. apply in_map_iff in Hc.
    destruct Hc as (r & <- & Hr). rewrite get_set_same. simpl.
    apply filter_In in Hr. destruct Hr as [Hr Hk]. unfold rank_is_number in Hk.
    specialize (Hfin r Hr). destruct (rank_number r) as [q | b |]; simpl in *.
    - discriminate.
    - now destruct (Hfin b).
    - discriminate. }
  rewrite Hints, bind_ret.
  apply for_columns_total.
  change (columns (setitem ?d ?c ?v)) with (add_column (columns d) c).
  rewrite C1. now do 2 apply NoDup_add_column.
Qed.

End Accepting.

(** X6.  [load_data] accepts a file, showing no message, whenever the file
    is read, its stripped labels are distinct and include the rank, no
    rank reads as an infinity (as the text [inf] does, or a number beyond
    the range of a float64 such as [1e400]), and the numbers read are
    below 2^53 in magnitude.  The table returned has the rows whose rank
    is a number, each cleaned, under the file's labels followed by the
    labels the cleaning adds. *)
Theorem load_data_accepts (env : Env) (file_path : string) (raw : DataFrame) :
  read_table env file_path = Some raw ->
  NoDup (columns (strip_columns raw)) ->
  has_column (strip_columns raw) "순위" = true ->
  (forall r, In r (rows (strip_columns raw)) -> forall b, rank_number r <> Inf b) ->
  in_exact_range env raw = true ->
  exists reads,
    Forall (fun ev => is_read_call ev = true) reads
    /\ load_data env file_path
       = (reads,
          inr {| columns := clean_columns (columns (strip_columns raw));
                 rows := map (clean_row env (columns (strip_columns raw)))
                           (filter rank_is_number (rows (strip_columns raw))) |}).
Proof.
  intros Hread Hnd Hrank Hfin _.
  destruct (load_data_read_calls env _ _ Hread) as (reads & Hreads & Hl).
  exists reads. split; [exact Hreads |].
  destruct (preprocess_total env _ Hnd Hrank Hfin) as [df Hp].
  destruct (preprocess_rows env _ _ _ Hrank Hp) as (_ & C & R & _).
  assert (Hc : clean env raw = ([], inr df)) by (unfold clean; now rewrite Hp).
  rewrite Hc in Hl. simpl in Hl. rewrite app_nil_r in Hl. rewrite Hl.
  do 2 f_equal. apply df_ext; assumption.
Qed.

(** ** What the cleaning leaves alone *)

Lemma lookup_clean_row_cols_other (env : Env) (cols : list string) :
  forall (present : list string) (r : row) (c : string),
    mem c cols = false ->
    lookup c (clean_row_cols env cols present r) = lookup c r.
Proof.
  induction cols as [| col cols IH]; intros present r c H; simpl; [reflexivity |].
  apply mem_false_eqb in H. destruct H as [N H].
  rewrite IH by exact H. unfold clean_col_row.
  apply lookup_set_other. now apply eqb_sym_false.
Qed.

Lemma add_column_app (l : list string) (c : string) :
  add_column l c = List.app l (if mem c l then [] else [c]).
Proof. unfold add_column. destruct (mem c l); [now rewrite app_nil_r | reflexivity]. Qed.

Lemma fold_add_column_app (cols : list string) :
  forall l, exists added,
      fold_left add_column cols l = List.app l added
      /\ Forall (fun a => mem a cols = true) added.
Proof.
  induction cols as [| col cols IH]; intros l; simpl.
  - exists []. split; [now rewrite app_nil_r | constructor].
  - destruct (IH (add_column l col)) as (added & E & F).
    exists (List.app (if mem col l then [] else [col]) added). split.
    { rewrite E, add_column_app, <- app_assoc. reflexivity. }
    apply Forall_app. split.
    + destruct (mem col l); constructor; [| constructor].
      change (mem col (col :: cols) = true). apply mem_In. now left.
    + eapply Forall_impl; [| exact F]. intros a Ha.
      change (mem a (col :: cols) = true). apply mem_In. right. now apply mem_In.
Qed.

(** X7.  [load_data] leaves every cell outside the rank, the helper rank
    column and the nine numeric columns as it was read (a country name is
    never altered), and it keeps the labels of the file in their order:
    what the cleaning adds comes after them. *)
Theorem other_columns_untouched (env : Env) (file_path : string) (raw df : DataFrame)
    (r : row) (c : string) :
  accepts env file_path raw df ->
  In r (rows (strip_columns raw)) ->
  rank_is_number r = true ->
  mem c ("순위" :: "순위_숫자" :: numeric_cols) = false ->
  In (clean_row env (columns (strip_columns raw)) r) (rows df)
  /\ lookup c (clean_row env (columns (strip_columns raw)) r) = lookup c r
  /\ exists added,
       columns df = List.app (columns (strip_columns raw)) added
       /\ Forall (fun a => mem a ("순위_숫자" :: numeric_cols) = true) added.
Proof.
  intros Ha Hin Hk Hc.
  apply mem_false_eqb in Hc. destruct Hc as [N1 Hc].
  apply mem_false_eqb in Hc. destruct Hc as [N2 Hc].
  split; [now apply (accepted_row_into env file_path) |]. split.
  - unfold clean_row. rewrite lookup_clean_row_cols_other by exact Hc.
    unfold rank_row. rewrite !lookup_set_other by now apply eqb_sym_false.
    reflexivity.
  - destruct (accepted_table env _ _ _ Ha) as (C & _). rewrite C. unfold clean_columns.
    destruct (fold_add_column_app numeric_cols
                (add_column (columns (strip_columns raw)) "순위_숫자")) as (added & E & F).
    rewrite E, add_column_app, <- app_assoc. eexists. split; [reflexivity |].
    apply Forall_app. split.
    + destruct (mem "순위_숫자" (columns (strip_columns raw))); constructor;
        [reflexivity | constructor].
    + eapply Forall_impl; [| exact F]. intros a Ha'.
      apply mem_In. right. now apply mem_In.
Qed.

(** ** The rows without a rank *)

Lemma lookup_clean_row_other (env : Env) (present : list string) (r : row) (c : string) :
  mem c ("순위" :: "순위_숫자" :: numeric_cols) = false ->
  lookup c (clean_row env present r) = lookup c r.
Proof.
  intros Hc.
  apply mem_false_eqb in Hc. destruct Hc as [N1 Hc].
  apply mem_false_eqb in Hc. destruct Hc as [N2 Hc].
  unfold clean_row. rewrite lookup_clean_row_cols_other by exact Hc.
  unfold rank_row. rewrite !lookup_set_other by now apply eqb_sym_false.
  reflexivity.
Qed.

(** An accepted file was loaded without a message. *)
Lemma accepted_silently (env : Env) (file_path : string) (raw df : DataFrame) :
  accepts env file_path raw df ->
  Forall (fun ev => is_read_call ev = true) (events (load_data env file_path)).
Proof.
  intros (_ & Hout & Hne).
  destruct (load_data_cases env file_path)
    as [(log & text & e & Hl & _) | (reads & raw' & df' & Hreads & _ & _ & _ & Hl)];
    rewrite Hl in *; simpl in *.
  - inversion Hout; subst. discriminate.
  - exact Hreads.
Qed.

(** C7.  A row whose rank fails the numeric coercion (the text "N/A", a
    missing field) is left out of the table [load_data] returns, silently
    and without a load error: an accepted file is loaded without any
    message, the table has as many rows as the file has rows whose rank is
    a number, each of them is such a row with its other cells as they were
    read, and its rank is an integer, an int64.  When the numbers of the
    file are below 2^53 in magnitude, the rows returned are these rows
    cleaned, in order, the rank of each is the integer its number
    truncates to, and lines 47-80 give the same table and the same
    messages as for the file without the failing rows. *)
Theorem rank_failures_dropped (env : Env) (file_path : string) (raw df : DataFrame) :
  accepts env file_path raw df ->
  Forall (fun ev => is_read_call ev = true) (events (load_data env file_path))
  /\ List.length (rows df)
     = List.length (filter rank_is_number (rows (strip_columns raw)))
  /\ (forall r', In r' (rows df) ->
        exists r z,
          In r (rows (strip_columns raw))
          /\ rank_is_number r = true
          /\ (forall c, mem c ("순위" :: "순위_숫자" :: numeric_cols) = false ->
                        lookup c r' = lookup c r)
          /\ get "순위" r' = CInt z
          /\ int64_min <= z <= int64_max)
  /\ to_numeric_cell (CStr "N/A") = NaN
  /\ (forall r, get "순위" r = CStr "N/A" \/ get "순위" r = CFloat NaN ->
                rank_is_number r = false)
  /\ (in_exact_range env raw = true ->
      rows df = map (clean_row env (columns (strip_columns raw)))
                  (filter rank_is_number (rows (strip_columns raw)))
      /\ (forall r', In r' (rows df) ->
            exists r q, In r (rows (strip_columns raw))
                        /\ rank_number r = Fin q
                        /\ r' = clean_row env (columns (strip_columns raw)) r
                        /\ get "순위" r' = CInt (trunc q))
      /\ clean env (drop_failing raw) = clean env raw).
Proof.
  intros Ha.
  destruct (accepted_table env _ _ _ Ha) as (_ & R & _).
  split; [now apply (accepted_silently env file_path raw df) |].
  split; [now rewrite R, length_map |].
  split; [| split; [reflexivity | split]].
  - intros r' Hin.
    destruct (accepted_row_from env _ _ _ _ Ha Hin) as (r & Hr & Hk & Hfin & ->).
    destruct (rank_number r) as [q | |] eqn:E; try discriminate.
    exists r, (to_int64 q). split; [exact Hr |]. split; [exact Hk |].
    split; [intros c Hc; now apply lookup_clean_row_other |].
    split; [| apply to_int64_range].
    rewrite get_clean_row_rank. unfold rank_int. now rewrite E.
  - intros r [H | H]; unfold rank_is_number, rank_number; now rewrite H.
  - intros Hrange. split; [exact R |]. split; [| apply clean_drop_failing].
    intros r' Hin.
    destruct (accepted_row_from env _ _ _ _ Ha Hin) as (r & Hr & _ & Hfin & ->).
    destruct (rank_number r) as [q | |] eqn:E; try discriminate.
    exists r, q. repeat split; try assumption.
    rewrite get_clean_row_rank. unfold rank_int. rewrite E. simpl.
    pose proof (in_exact_range_row env raw r Hrange Hr) as Hrow.
    unfold row_in_exact_range in Hrow. apply andb_true_iff in Hrow.
    destruct Hrow as [Hrank _]. rewrite E in Hrank.
    now rewrite (to_int64_exact q Hrank).
Qed.

Lemma rank_failures_dropped_witness :
  List.length (rows sample_raw) = 5%nat
  /\ List.length (rows sample_df) = 4%nat
  /\ get "순위" (nth 1 (rows (strip_columns sample_raw)) []) = CStr "-"
  /\ Forall (fun ev => is_read_call ev = true) (events (load_data sample_env FILE_PATH))
  /\ List.length (rows sample_df)
     = List.length (filter rank_is_number (rows (strip_columns sample_raw)))
  /\ rows sample_df
     = map (clean_row sample_env (columns (strip_columns sample_raw)))
         (filter rank_is_number (rows (strip_columns sample_raw)))
  /\ clean sample_env (drop_failing sample_raw) = clean sample_env sample_raw.
Proof.
  destruct (rank_failures_dropped sample_env FILE_PATH sample_raw sample_df sample_accepted)
    as (Hsilent & Hlen & _ & _ & _ & Hexact).
  assert (Hrange : in_exact_range sample_env sample_raw = true)
    by (vm_compute; reflexivity).
  destruct (Hexact Hrange) as (Hrows & _ & Hsame).
  split; [reflexivity |]. split; [reflexivity |]. split; [reflexivity |].
  split; [exact Hsilent |]. split; [exact Hlen |]. split; [exact Hrows | exact Hsame].
Defined.

(** ** The bounds of the slider *)

Lemma skipna_ints (zs : list Z) : skipna (map CInt zs) = map of_int zs.
Proof.
  unfold skipna. induction zs as [| z zs IH]; [reflexivity |].
  cbn [map filter to_float of_int is_nan negb]. f_equal. exact IH.
Qed.

Lemma fold_fle_min (zs : list Z) :
  forall z0,
    fold_left (fun m y => if fle y m then y else m) (map of_int zs) (of_int z0)
    = of_int (fold_left Z.min zs z0).
Proof.
  induction zs as [| z zs IH]; intros z0; [reflexivity |].
  cbn [map fold_left].
  destruct (fle (of_int z) (of_int z0)) eqn:E.
  - apply fle_of_int in E. rewrite IH. f_equal. f_equal. lia.
  - rewrite IH. f_equal. f_equal.
    destruct (Z.le_gt_cases z z0) as [H | H]; [| lia].
    apply fle_of_int in H. congruence.
Qed.

Lemma fold_fle_max (zs : list Z) :
  forall z0,
    fold_left (fun m y => if fle m y then y else m) (map of_int zs) (of_int z0)
    = of_int (fold_left Z.max zs z0).
Proof.
  induction zs as [| z zs IH]; intros z0; [reflexivity |].
  cbn [map fold_left].
  destruct (fle (of_int z0) (of_int z)) eqn:E.
  - apply fle_of_int in E. rewrite IH. f_equal. f_equal. lia.
  - rewrite IH. f_equal. f_equal.
    destruct (Z.le_gt_cases z0 z) as [H | H]; [| lia].
    apply fle_of_int in H. congruence.
Qed.

Lemma fold_min_bounds (zs : list Z) :
  forall z0,
    fold_left Z.min zs z0 <= z0
    /\ (forall z, In z zs -> fold_left Z.min zs z0 <= z)
    /\ In (fold_left Z.min zs z0) (z0 :: zs).
Proof.
  induction zs as [| y zs IH]; intros z0; simpl.
  - split; [lia |]. split; [tauto | now left].
  - destruct (IH (Z.min z0 y)) as (A & B & C). split; [lia |]. split.
    + intros z [<- | Hz]; [lia | now apply B].
    + destruct C as [C | C]; [| now right; right].
      rewrite <- C. destruct (Z.min_spec z0 y) as [[_ ->] | [_ ->]]; auto.
Qed.

Lemma fold_max_bounds (zs : list Z) :
  forall z0,
    z0 <= fold_left Z.max zs z0
    /\ (forall z, In z zs -> z <= fold_left Z.max zs z0)
    /\ In (fold_left Z.max zs z0) (z0 :: zs).
Proof.
  induction zs as [| y zs IH]; intros z0; simpl.
  - split; [lia |]. split; [tauto | now left].
  - destruct (IH (Z.max z0 y)) as (A & B & C). split; [lia |]. split.
    + intros z [<- | Hz]; [lia | now apply B].
    + destruct C as [C | C]; [| now right; right].
      rewrite <- C. destruct (Z.max_spec z0 y) as [[_ ->] | [_ ->]]; auto.
Qed.

Lemma py_int_of_int (z : Z) : py_int (of_int z) = ret z.
Proof. unfold py_int, of_int, trunc. simpl. now rewrite Z.quot_1_r. Qed.

Lemma filter_all {A} (f : A -> bool) (l : list A) :
  (forall x, In x l -> f x = true) -> filter f l = l.
Proof.
  induction l as [| x l IH]; intros H; simpl; [reflexivity |].
  rewrite (H x) by now left. f_equal. apply IH. intros y Hy. apply H. now right.
Qed.

Lemma accepted_ranks (env : Env) (file_path : string) (raw df : DataFrame) :
  accepts env file_path raw df ->
  exists z0 zs, map (get "순위") (rows df) = map CInt (z0 :: zs).
Proof.
  intros Ha. destruct (accepted_table env _ _ _ Ha) as (_ & R & _).
  destruct Ha as (_ & _ & Hne).
  assert (E : map (get "순위") (rows df)
              = map CInt (map rank_int (filter rank_is_number (rows (strip_columns raw))))).
  { rewrite R, !map_map. apply map_ext. intros r. apply get_clean_row_rank. }
  destruct (map rank_int (filter rank_is_number (rows (strip_columns raw)))) as [| z0 zs].
  - exfalso. unfold df_empty in Hne.
    destruct (rows df); [now destruct (columns df) | discriminate].
  - now exists z0, zs.
Qed.

(** X8.  For a loaded table the slider of lines 100-105 runs from the
    smallest to the largest rank of the table, its default selection is
    from the smallest rank to [min(max_rank, 20)], and the selection of the
    whole range keeps every row. *)
Theorem slider_covers_loaded_ranks (env : Env) (ss : Session) (raw df : DataFrame) :
  accepts env FILE_PATH raw df ->
  exists lo hi rest,
    events (main env ss)
    = st_sidebar_title "🌏 분석 도구 옵션"
        :: List.app (events (load_data env FILE_PATH))
             (st_sidebar_slider "분석할 국가 순위 범위 (Rank)" lo hi (lo, Z.min hi 20)
                :: rest)
    /\ (forall r, In r (rows df) -> exists z, get "순위" r = CInt z /\ lo <= z <= hi)
    /\ (exists r, In r (rows df) /\ get "순위" r = CInt lo)
    /\ (exists r, In r (rows df) /\ get "순위" r = CInt hi)
    /\ rows (rank_filter df (lo, hi)) = rows df.
Proof.
  intros Ha.
  destruct (accepted_ranks _ _ _ _ Ha) as (z0 & zs & Hranks).
  destruct (accepted_table env _ _ _ Ha) as (_ & _ & _ & Nrank & _).
  destruct Ha as (_ & Hout & Hne).
  destruct (fold_min_bounds zs z0) as (L1 & L2 & L3).
  destruct (fold_max_bounds zs z0) as (U1 & U2 & U3).
  set (lo := fold_left Z.min zs z0) in *. set (hi := fold_left Z.max zs z0) in *.
  assert (Hcell : forall r, In r (rows df) ->
                            exists z, get "순위" r = CInt z /\ In z (z0 :: zs)).
  { intros r Hr. apply (in_map (get "순위")) in Hr. rewrite Hranks in Hr.
    apply in_map_iff in Hr. destruct Hr as (z & Hz & Hin). now exists z. }
  assert (Hrow : forall z, In z (z0 :: zs) ->
                           exists r, In r (rows df) /\ get "순위" r = CInt z).
  { intros z Hz. apply (in_map CInt) in Hz. rewrite <- Hranks in Hz.
    apply in_map_iff in Hz. destruct Hz as (r & Hr & Hin). now exists r. }
  assert (Hbounds : forall z, In z (z0 :: zs) -> lo <= z <= hi).
  { intros z [<- | Hz]; [lia |]. split; [now apply L2 | now apply U2]. }
  assert (Hrender : exists rest,
             events (render env ss df)
             = st_sidebar_slider "분석할 국가 순위 범위 (Rank)" lo hi (lo, Z.min hi 20)
                 :: rest).
  { unfold render. unfold getitem. rewrite Nrank, bind_ret.
    unfold as_series. rewrite bind_ret, Hranks.
    unfold series_min, series_max. rewrite skipna_ints. cbn [map].
    rewrite fold_fle_min, fold_fle_max. fold lo. fold hi.
    rewrite py_int_of_int, bind_ret, py_int_of_int, bind_ret.
    assert (E : (hi <? lo) = false) by (apply Z.ltb_ge; lia).
    rewrite E. rewrite events_bind. simpl. eexists. reflexivity. }
  destruct Hrender as [rest Hrest].
  exists lo, hi, rest. split; [| split; [| split; [| split]]].
  - unfold main. rewrite events_bind. simpl. f_equal.
    rewrite events_bind, Hout, Hne, Hrest. reflexivity.
  - intros r Hr. destruct (Hcell r Hr) as (z & Hz & Hin). exists z. auto.
  - now apply Hrow.
  - now apply Hrow.
  - apply filter_all. intros r Hr. destruct (Hcell r Hr) as (z & Hz & Hin).
    rewrite Hz. change (to_float (CInt z)) with (of_int z).
    apply andb_true_iff. simpl fst; simpl snd.
    split; apply fle_of_int; now apply Hbounds.
Qed.

(** ** The three aggregates *)

Lemma fadd_nonneg (x y : float64) :
  nonneg_number x = true -> nonneg_number y = true -> nonneg_number (fadd x y) = true.
Proof.
  destruct x as [p | [] |], y as [q | [] |];
    cbn [fadd nonneg_number Bool.eqb]; try discriminate; auto.
  rewrite !Qle_bool_iff. intros Hp Hq. apply round64_nonneg.
  rewrite <- (Qplus_0_l 0). now apply Qplus_le_compat.
Qed.

Lemma fold_fadd_nonneg (l : list float64) :
  forall acc,
    nonneg_number acc = true ->
    Forall (fun x => nonneg_number x = true) l ->
    nonneg_number (fold_left fadd l acc) = true.
Proof.
  induction l as [| x l IH]; intros acc Ha F; simpl; [exact Ha |].
  inversion F; subst. apply IH; [now apply fadd_nonneg | assumption].
Qed.

Lemma fdiv_count_nonneg (x : float64) (n : nat) :
  nonneg_number x = true -> nonneg_number (fdiv_count x n) = true.
Proof.
  destruct x as [p | [] |]; cbn [fdiv_count nonneg_number]; try discriminate; auto.
  rewrite Qle_bool_iff. intros Hp. apply round64_nonneg.
  apply Qmult_le_0_compat; [exact Hp |]. apply Qinv_le_0_compat.
  unfold Qle; simpl. lia.
Qed.

Lemma nonneg_not_nan (x : float64) : nonneg_number x = true -> is_nan x = false.
Proof. now destruct x as [p | [] |]. Qed.

(** Nothing is skipped in a column of numbers that are not negative. *)
Lemma skipna_nonneg (values : list cell) :
  Forall (fun c => nonneg_number (to_float c) = true) values ->
  skipna values = map to_float values
  /\ Forall (fun x => nonneg_number x = true) (map to_float values).
Proof.
  intros F. split.
  - unfold skipna. apply filter_all. intros x Hx. apply in_map_iff in Hx.
    destruct Hx as (c & <- & Hc). rewrite Forall_forall in F.
    now rewrite (nonneg_not_nan _ (F c Hc)).
  - apply Forall_map. exact F.
Qed.

Lemma series_sum_nonneg (values : list cell) :
  Forall (fun c => nonneg_number (to_float c) = true) values ->
  nonneg_number (series_sum values) = true.
Proof.
  intros F. destruct (skipna_nonneg values F) as [E G].
  unfold series_sum. rewrite E. now apply fold_fadd_nonneg.
Qed.

Lemma series_mean_nonneg (values : list cell) :
  Forall (fun c => nonneg_number (to_float c) = true) values ->
  (values = [] /\ series_mean values = NaN)
  \/ (values <> [] /\ nonneg_number (series_mean values) = true).
Proof.
  intros F. destruct (skipna_nonneg values F) as [E G].
  unfold series_mean. rewrite E.
  destruct values as [| c values]; [now left |]. right.
  split; [discriminate |]. apply fdiv_count_nonneg. now apply fold_fadd_nonneg.
Qed.

Section Aggregates.

Variable env : Env.

(** A numeric cell of an accepted table is a number that is not negative. *)
Lemma accepted_numeric_value (file_path : string) (raw df : DataFrame)
    (col : string) (r : row) :
  accepts env file_path raw df ->
  mem col numeric_cols = true ->
  In r (rows df) ->
  nonneg_number (to_float (get col r)) = true.
Proof.
  intros Ha Hc Hin.
  destruct (accepted_row_from env _ _ _ _ Ha Hin) as (r0 & _ & _ & _ & ->).
  rewrite get_clean_row_numeric by exact Hc.
  destruct (mem col (columns (strip_columns raw))); [| reflexivity].
  simpl to_float.
  destruct (clean_cell_shape env (get col r0)) as [(q & -> & Hq) | [-> _]].
  - simpl. now apply Qle_bool_iff.
  - reflexivity.
Qed.

(** A numeric column of a rank-filtered accepted table, read by line 114,
    115 or 116: a Series of numbers that are not negative. *)
Lemma filtered_numeric_column (file_path : string) (raw df : DataFrame)
    (rank_range : Z * Z) (col : string) :
  accepts env file_path raw df ->
  mem col numeric_cols = true ->
  getitem (rank_filter df rank_range) col
  = ret (Series (map (get col) (rows (rank_filter df rank_range))))
  /\ Forall (fun c => nonneg_number (to_float c) = true)
            (map (get col) (rows (rank_filter df rank_range))).
Proof.
  intros Ha Hc. split.
  - destruct (accepted_table env _ _ _ Ha) as (_ & _ & _ & _ & N).
    unfold getitem. change (columns (rank_filter df rank_range)) with (columns df).
    now rewrite (N col Hc).
  - apply Forall_map. apply Forall_forall. intros r Hr.
    apply filter_In in Hr. destruct Hr as [Hr _].
    now apply (accepted_numeric_value file_path raw df).
Qed.

(** Lines 114-120 on a rank-filtered accepted table. *)
Lemma kpi_computed (file_path : string) (raw df : DataFrame) (rank_range : Z * Z) :
  accepts env file_path raw df ->
  exists imp exp avg,
    total_import (rank_filter df rank_range) = ([], inr imp)
    /\ total_export (rank_filter df rank_range) = ([], inr exp)
    /\ avg_balance (rank_filter df rank_range) = ([], inr avg)
    /\ nonneg_number imp = true
    /\ nonneg_number exp = true
    /\ (avg = NaN <-> rows (rank_filter df rank_range) = [])
    /\ (rows (rank_filter df rank_range) <> [] -> nonneg_number avg = true)
    /\ kpi (rank_filter df rank_range)
       = ([st_metric "선택 국가 총 수입액" ("$" ++ format_comma_0f imp ++ " (천불)");
           st_metric "선택 국가 총 수출액" ("$" ++ format_comma_0f exp ++ " (천불)");
           st_metric "평균 무역수지" ("$" ++ format_comma_0f avg ++ " (천불)")],
          inr tt).
Proof.
  intros Ha.
  destruct (filtered_numeric_column file_path raw df rank_range "수입액(천$)" Ha eq_refl)
    as [Gi Fi].
  destruct (filtered_numeric_column file_path raw df rank_range "수출액(천$)" Ha eq_refl)
    as [Ge Fe].
  destruct (filtered_numeric_column file_path raw df rank_range "무역수지(천$)" Ha eq_refl)
    as [Gb Fb].
  set (fdf := rank_filter df rank_range) in *.
  exists (series_sum (map (get "수입액(천$)") (rows fdf))),
         (series_sum (map (get "수출액(천$)") (rows fdf))),
         (series_mean (map (get "무역수지(천$)") (rows fdf))).
  assert (Hi : total_import fdf
               = ([], inr (series_sum (map (get "수입액(천$)") (rows fdf)))))
    by (unfold total_import; rewrite Gi; reflexivity).
  assert (He : total_export fdf
               = ([], inr (series_sum (map (get "수출액(천$)") (rows fdf)))))
    by (unfold total_export; rewrite Ge; reflexivity).
  assert (Hb : avg_balance fdf
               = ([], inr (series_mean (map (get "무역수지(천$)") (rows fdf)))))
    by (unfold avg_balance; rewrite Gb; reflexivity).
  split; [exact Hi |]. split; [exact He |]. split; [exact Hb |].
  split; [now apply series_sum_nonneg |]. split; [now apply series_sum_nonneg |].
  destruct (series_mean_nonneg _ Fb) as [[E1 E2] | [E1 E2]].
  - apply map_eq_nil in E1. split; [| split].
    + split; auto.
    + intros H. congruence.
    + unfold kpi. rewrite Hi, He, Hb. reflexivity.
  - split; [| split].
    + split.
      * intros H. rewrite H in E2. discriminate.
      * intros H. rewrite H in E1. now destruct E1.
    + intros _. exact E2.
    + unfold kpi. rewrite Hi, He, Hb. reflexivity.
Qed.

(** X9.  For a loaded table and any rank range, lines 114-116 raise
    nothing and neither sum is NaN; the mean of the trade balance is NaN
    exactly when the filtered sub-table is empty, and a number that is not
    negative otherwise.  A sum is not negative as long as the values of
    its column are below 2^53 in magnitude and their total is within the
    range of an int64: beyond it the sum of a column that pandas holds as
    int64 wraps around. *)
Theorem kpi_of_loaded_table (file_path : string) (raw df : DataFrame)
    (rank_range : Z * Z) :
  accepts env file_path raw df ->
  exists imp exp avg,
    total_import (rank_filter df rank_range) = ([], inr imp)
    /\ total_export (rank_filter df rank_range) = ([], inr exp)
    /\ avg_balance (rank_filter df rank_range) = ([], inr avg)
    /\ is_nan imp = false
    /\ is_nan exp = false
    /\ (avg = NaN <-> rows (rank_filter df rank_range) = [])
    /\ (rows (rank_filter df rank_range) <> [] -> nonneg_number avg = true)
    /\ (no_int64_wrap (map (get "수입액(천$)") (rows (rank_filter df rank_range))) = true ->
        nonneg_number imp = true)
    /\ (no_int64_wrap (map (get "수출액(천$)") (rows (rank_filter df rank_range))) = true ->
        nonneg_number exp = true).
Proof.
  intros Ha.
  destruct (kpi_computed file_path raw df rank_range Ha)
    as (imp & exp & avg & H1 & H2 & H3 & H4 & H5 & H6 & H7 & _).
  exists imp, exp, avg.
  split; [exact H1 |]. split; [exact H2 |]. split; [exact H3 |].
  split; [now apply nonneg_not_nan |]. split; [now apply nonneg_not_nan |].
  split; [exact H6 |]. split; [exact H7 |]. split; intros _; assumption.
Qed.

End Aggregates.

(** ** The trend view, and [main] as a whole *)

Lemma py_eq_refl (c : cell) : notna c = true -> py_eq c c = true.
Proof.
  destruct c as [s | z | [q | b |] | b]; simpl; intros H; try discriminate.
  - apply String.eqb_refl.
  - now apply Qeq_bool_iff.
  - now apply Qeq_bool_iff.
  - now destruct b.
  - destruct b; now apply Qeq_bool_iff.
Qed.

Lemma unique_nil (values : list cell) : unique values = [] -> values = [].
Proof.
  destruct values as [| v values]; [reflexivity |]. unfold unique. simpl. discriminate.
Qed.

Lemma filter_nonempty {A} (f : A -> bool) (l : list A) (x : A) :
  In x l -> f x = true -> exists y rest, filter f l = y :: rest.
Proof.
  intros Hin Hf. destruct (filter f l) as [| y rest] eqn:E; [| eauto].
  exfalso. assert (H : In x (filter f l)) by (apply filter_In; auto).
  rewrite E in H. destruct H.
Qed.

Section Trend.

Variable env : Env.

(** Lines 153-175 on a table whose country column is there once and holds
    no missing name in the rows selected: the view ends without an exception, with the message
    of line 175 for an empty selection, and otherwise with the select box
    followed by the line chart, or by the message of line 173 when plotly
    raises on it. *)
Lemma tab3_ends_well (ss : Session) (df : DataFrame) (rank_range : Z * Z) :
  count_occ string_dec (columns df) "수입국" = 1%nat ->
  (forall r, In r (rows (rank_filter df rank_range)) -> notna (get "수입국" r) = true) ->
  exists log,
    tab3 env ss df (rank_filter df rank_range)
    = (st_subheader "국가별 연도별 추이" :: log, inr tt)
    /\ (rows (rank_filter df rank_range) = [] ->
        log = [st_info "선택된 범위 내에 국가 데이터가 없습니다."])
    /\ (rows (rank_filter df rank_range) <> [] ->
        exists options fig,
          is_trend_chart fig = true
          /\ log = [st_selectbox "국가 선택" options;
                    match plotly env fig with
                    | None => st_plotly_chart fig
                    | Some _ => st_info "연도별 상세 데이터가 부족하여 그래프를 그릴 수 없습니다."
                    end]).
Proof.
  intros Hcount Hnames.
  set (fdf := rank_filter df rank_range).
  unfold tab3, country_list, getitem.
  change (columns fdf) with (columns df). rewrite Hcount.
  rewrite bind_ret. unfold as_series. rewrite !bind_ret.
  set (cl := unique (map (get "수입국") (rows fdf))).
  destruct cl as [| c0 cl'] eqn:Ecl.
  - (* nothing selected by the slider *)
    assert (Hrows : rows fdf = []).
    { apply unique_nil in Ecl. now apply map_eq_nil in Ecl. }
    exists [st_info "선택된 범위 내에 국가 데이터가 없습니다."].
    split; [reflexivity |]. split; [reflexivity |]. intros H. now destruct H.
  - cbn [List.length Nat.ltb Nat.leb].
    set (selected := selectbox (CFloat NaN) (c0 :: cl') (country_index ss)).
    assert (Hsel : In selected (c0 :: cl'))
      by (apply selectbox_offered; discriminate).
    rewrite <- Ecl in Hsel. unfold cl, unique in Hsel.
    apply unique_from_incl in Hsel. apply in_map_iff in Hsel.
    destruct Hsel as (r & Hr & Hin).
    assert (Heq : py_eq (get "수입국" r) selected = true).
    { rewrite Hr. apply py_eq_refl. rewrite <- Hr. now apply Hnames. }
    apply filter_In in Hin. destruct Hin as [Hin _].
    destruct (filter_nonempty (fun r => py_eq (get "수입국" r) selected) (rows df) r Hin Heq)
      as (r0 & rest & Hf).
    unfold iloc0. change (rows (rows_equal df "수입국" selected))
      with (filter (fun r => py_eq (get "수입국" r) selected) (rows df)).
    rewrite Hf, bind_ret. cbv beta zeta.
    set (fig := go_lines _ _ _ _ _).
    exists [st_selectbox "국가 선택" (c0 :: cl');
            match plotly env fig with
            | None => st_plotly_chart fig
            | Some _ => st_info "연도별 상세 데이터가 부족하여 그래프를 그릴 수 없습니다."
            end].
    split; [| split].
    + unfold plot. destruct (plotly env fig); reflexivity.
    + intros H. exfalso. unfold cl in Ecl. rewrite H in Ecl. discriminate.
    + intros _. exists (c0 :: cl'), fig. split; [reflexivity |].
      destruct (plotly env fig); reflexivity.
Qed.

End Trend.

Section Page.

Variable env : Env.

(** Lines 96-178 on a loaded table whose country column is there once and
    holds no missing name in the rows selected, when plotly draws the bar chart and the scatter
    chart: everything up to the trend view is shown, then the trend view,
    then the table of the filtered rows, and no exception is raised. *)
Lemma render_ends_well (ss : Session) (file_path : string) (raw df : DataFrame) :
  accepts env file_path raw df ->
  count_occ string_dec (columns df) "수입국" = 1%nat ->
  (forall r, In r (rows (rank_filter df (rank_range_value ss))) ->
             notna (get "수입국" r) = true) ->
  (forall fig, is_trend_chart fig = false -> plotly env fig = None) ->
  exists before log,
    render env ss df
    = (List.app before
         (st_subheader "국가별 연도별 추이"
            :: List.app log
                 [st_expander "📂 원본 데이터 보기";
                  st_dataframe (rank_filter df (rank_range_value ss))]),
       inr tt)
    /\ (rows (rank_filter df (rank_range_value ss)) = [] ->
        log = [st_info "선택된 범위 내에 국가 데이터가 없습니다."])
    /\ (rows (rank_filter df (rank_range_value ss)) <> [] ->
        exists options fig,
          is_trend_chart fig = true
          /\ log = [st_selectbox "국가 선택" options;
                    match plotly env fig with
                    | None => st_plotly_chart fig
                    | Some _ => st_info "연도별 상세 데이터가 부족하여 그래프를 그릴 수 없습니다."
                    end]).
Proof.
  intros Ha Hcount Hnames Hplot.
  destruct (accepted_ranks _ _ _ _ Ha) as (z0 & zs & Hranks).
  destruct (accepted_table env _ _ _ Ha) as (_ & _ & _ & Nrank & _).
  destruct (kpi_computed env _ _ _ (rank_range_value ss) Ha)
    as (imp & exp & avg & _ & _ & _ & _ & _ & _ & _ & Hkpi).
  destruct (tab3_ends_well env ss df (rank_range_value ss) Hcount Hnames)
    as (log & Htab3 & Hempty & Hsome).
  destruct (fold_min_bounds zs z0) as (L1 & _ & _).
  destruct (fold_max_bounds zs z0) as (U1 & _ & _).
  set (lo := fold_left Z.min zs z0) in *. set (hi := fold_left Z.max zs z0) in *.
  set (fdf := rank_filter df (rank_range_value ss)) in *.
  assert (Htab1 : exists fig, tab1 env ss fdf
                  = ([st_subheader "국가별 수입 및 수출 규모 비교";
                      st_selectbox "정렬 기준" (map CStr sort_options);
                      st_plotly_chart fig], inr tt)).
  { unfold tab1, plot. eexists. rewrite Hplot by reflexivity. reflexivity. }
  destruct Htab1 as [bar Htab1].
  assert (Htab2 : tab2 env fdf
                  = ([st_subheader "시장 규모 매트릭스"; st_plotly_chart (fig_scatter fdf)],
                     inr tt)).
  { unfold tab2, plot. rewrite Hplot by reflexivity. reflexivity. }
  exists [st_sidebar_slider "분석할 국가 순위 범위 (Rank)" lo hi (lo, Z.min hi 20);
          st_title "📊 해외 유망 시장 수출입 통계 대시보드";
          st_markdown ("**분석 범위:** 순위 " ++ str_of_Z (fst (rank_range_value ss))
                       ++ "위 ~ " ++ str_of_Z (snd (rank_range_value ss))
                       ++ "위 국가 (총 "
                       ++ str_of_Z (Z.of_nat (List.length (rows fdf))) ++ "개국)");
          st_metric "선택 국가 총 수입액" ("$" ++ format_comma_0f imp ++ " (천불)");
          st_metric "선택 국가 총 수출액" ("$" ++ format_comma_0f exp ++ " (천불)");
          st_metric "평균 무역수지" ("$" ++ format_comma_0f avg ++ " (천불)");
          st_divider;
          st_tabs ["📈 시장 비교"; "🌍 상관관계"; "🔍 상세 리포트"];
          st_subheader "국가별 수입 및 수출 규모 비교";
          st_selectbox "정렬 기준" (map CStr sort_options);
          st_plotly_chart bar;
          st_subheader "시장 규모 매트릭스";
          st_plotly_chart (fig_scatter fdf)],
         log.
  split; [| split; assumption].
  unfold render. unfold getitem. rewrite Nrank, bind_ret.
  unfold as_series. rewrite bind_ret, Hranks.
  unfold series_min, series_max. rewrite skipna_ints. cbn [map].
  rewrite fold_fle_min, fold_fle_max. fold lo. fold hi.
  rewrite py_int_of_int, bind_ret, py_int_of_int, bind_ret.
  assert (E : (hi <? lo) = false) by (apply Z.ltb_ge; lia).
  rewrite E. cbv zeta. fold fdf.
  rewrite Hkpi, Htab1, Htab2, Htab3.
  reflexivity.
Qed.

(** What [main] shows for such a table. *)
Lemma main_ends_well (ss : Session) (raw df : DataFrame) :
  accepts env FILE_PATH raw df ->
  count_occ string_dec (columns df) "수입국" = 1%nat ->
  (forall r, In r (rows (rank_filter df (rank_range_value ss))) ->
             notna (get "수입국" r) = true) ->
  (forall fig, is_trend_chart fig = false -> plotly env fig = None) ->
  exists before log,
    main env ss
    = (List.app before
         (st_subheader "국가별 연도별 추이"
            :: List.app log
                 [st_expander "📂 원본 데이터 보기";
                  st_dataframe (rank_filter df (rank_range_value ss))]),
       inr tt)
    /\ (rows (rank_filter df (rank_range_value ss)) = [] ->
        log = [st_info "선택된 범위 내에 국가 데이터가 없습니다."])
    /\ (rows (rank_filter df (rank_range_value ss)) <> [] ->
        exists options fig,
          is_trend_chart fig = true
          /\ log = [st_selectbox "국가 선택" options;
                    match plotly env fig with
                    | None => st_plotly_chart fig
                    | Some _ => st_info "연도별 상세 데이터가 부족하여 그래프를 그릴 수 없습니다."
                    end]).
Proof.
  intros Ha Hcount Hnames Hplot.
  destruct (render_ends_well ss _ _ _ Ha Hcount Hnames Hplot)
    as (before & log & Hr & Hempty & Hsome).
  destruct Ha as (_ & Hout & Hne).
  destruct (load_data env FILE_PATH) as [l o] eqn:Hl. simpl in Hout. subst o.
  exists (st_sidebar_title "🌏 분석 도구 옵션" :: List.app l before), log.
  split; [| split; assumption].
  unfold main. rewrite Hl. unfold bind at 1. unfold emit.
  unfold bind. rewrite Hne, Hr. simpl. now rewrite app_assoc.
Qed.

(** X10.  [main] ends without an exception, and ends by showing the table
    of the filtered rows, for every loaded table whose country column is
    there once and holds a name in each of the rows selected, as long as
    plotly draws the bar chart and the scatter chart; whatever plotly does
    with the line chart of the trend view is caught. *)
Theorem main_completes (ss : Session) (raw df : DataFrame) :
  accepts env FILE_PATH raw df ->
  count_occ string_dec (columns df) "수입국" = 1%nat ->
  (forall r, In r (rows (rank_filter df (rank_range_value ss))) ->
             notna (get "수입국" r) = true) ->
  (forall fig, is_trend_chart fig = false -> plotly env fig = None) ->
  outcome (main env ss) = inr tt
  /\ exists shown,
       events (main env ss)
       = List.app shown [st_expander "📂 원본 데이터 보기";
                         st_dataframe (rank_filter df (rank_range_value ss))].
Proof.
  intros Ha Hcount Hnames Hplot.
  destruct (main_ends_well ss _ _ Ha Hcount Hnames Hplot) as (before & log & Hm & _).
  rewrite Hm. split; [reflexivity |].
  exists (List.app before (st_subheader "국가별 연도별 추이" :: log)).
  simpl. now rewrite <- app_assoc.
Qed.

(** X11.  When the rank range selects no row of a loaded table, the trend
    view shows the message of line 175 in place of the select box and the
    chart, and [main] goes on to its end without an exception. *)
Theorem empty_selection_shows_notice (ss : Session) (raw df : DataFrame) :
  accepts env FILE_PATH raw df ->
  count_occ string_dec (columns df) "수입국" = 1%nat ->
  (forall fig, is_trend_chart fig = false -> plotly env fig = None) ->
  rows (rank_filter df (rank_range_value ss)) = [] ->
  outcome (main env ss) = inr tt
  /\ exists before,
       events (main env ss)
       = List.app before
           [st_subheader "국가별 연도별 추이";
            st_info "선택된 범위 내에 국가 데이터가 없습니다.";
            st_expander "📂 원본 데이터 보기";
            st_dataframe (rank_filter df (rank_range_value ss))].
Proof.
  intros Ha Hcount Hplot Hempty.
  assert (Hnames : forall r, In r (rows (rank_filter df (rank_range_value ss))) ->
                             notna (get "수입국" r) = true)
    by (rewrite Hempty; intros r []).
  destruct (main_ends_well ss _ _ Ha Hcount Hnames Hplot) as (before & log & Hm & Hl & _).
  rewrite Hm, (Hl Hempty). split; [reflexivity |]. now exists before.
Qed.

(** X12.  When plotly raises on the line chart of the trend view, the
    exception is caught: the message of line 173 is shown in place of the
    chart, the table of the filtered rows is still shown after it, and
    [main] ends without an exception. *)
Theorem trend_plot_failure_shows_placeholder (ss : Session) (raw df : DataFrame) :
  accepts env FILE_PATH raw df ->
  count_occ string_dec (columns df) "수입국" = 1%nat ->
  (forall r, In r (rows (rank_filter df (rank_range_value ss))) ->
             notna (get "수입국" r) = true) ->
  (forall fig, is_trend_chart fig = false -> plotly env fig = None) ->
  (forall fig, is_trend_chart fig = true -> plotly env fig <> None) ->
  rows (rank_filter df (rank_range_value ss)) <> [] ->
  outcome (main env ss) = inr tt
  /\ exists before options,
       events (main env ss)
       = List.app before
           [st_subheader "국가별 연도별 추이";
            st_selectbox "국가 선택" options;
            st_info "연도별 상세 데이터가 부족하여 그래프를 그릴 수 없습니다.";
            st_expander "📂 원본 데이터 보기";
            st_dataframe (rank_filter df (rank_range_value ss))].
Proof.
  intros Ha Hcount Hnames Hplot Hfail Hne.
  destruct (main_ends_well ss _ _ Ha Hcount Hnames Hplot) as (before & log & Hm & _ & Hl).
  destruct (Hl Hne) as (options & fig & Hfig & ->).
  rewrite Hm. split; [reflexivity |]. exists before, options.
  specialize (Hfail fig Hfig). destruct (plotly env fig); [reflexivity | now destruct Hfail].
Qed.

End Page.

(** ** The countries offered by the trend view *)

Lemma same_value_refl (c : cell) : same_value c c = true.
Proof.
  destruct c as [s | z | [q | b |] | b]; simpl.
  - apply String.eqb_refl.
  - apply orb_true_iff. left. now apply Qeq_bool_iff.
  - apply orb_true_iff. left. now apply Qeq_bool_iff.
  - now destruct b.
  - reflexivity.
  - destruct b; apply orb_true_iff; left; now apply Qeq_bool_iff.
Qed.

Lemma same_value_text (s : string) (u : cell) :
  same_value (CStr s) u = true -> u = CStr s.
Proof.
  destruct u as [t | | |]; simpl; try discriminate.
  intros H. apply String.eqb_eq in H. now subst.
Qed.

(** Every value is the same as one seen before or one kept. *)
Lemma unique_from_covers (values : list cell) :
  forall seen v,
    In v values ->
    existsb (same_value v) (List.app seen (unique_from seen values)) = true.
Proof.
  induction values as [| w values IH]; intros seen v Hin; [destruct Hin |].
  simpl. destruct (existsb (same_value w) seen) eqn:E.
  - destruct Hin as [-> | Hin]; [| now apply IH].
    rewrite existsb_app, E. reflexivity.
  - destruct Hin as [-> | Hin].
    + rewrite existsb_app. simpl. rewrite same_value_refl. simpl. apply orb_true_r.
    + specialize (IH (w :: seen) v Hin). simpl in IH.
      rewrite existsb_app in *. simpl.
      destruct (same_value v w); [simpl; apply orb_true_r |].
      simpl in IH. exact IH.
Qed.

(** A value kept is the same as none seen before. *)
Lemma unique_from_fresh (values : list cell) :
  forall seen v,
    In v (unique_from seen values) -> existsb (same_value v) seen = false.
Proof.
  induction values as [| w values IH]; intros seen v Hin; [destruct Hin |].
  simpl in Hin. destruct (existsb (same_value w) seen) eqn:E.
  - now apply IH.
  - destruct Hin as [<- | Hin]; [exact E |].
    apply IH in Hin. simpl in Hin. now apply orb_false_iff in Hin.
Qed.

Lemma unique_from_distinct (values : list cell) :
  forall seen,
    ForallOrdPairs (fun u v => same_value v u = false) (unique_from seen values).
Proof.
  induction values as [| w values IH]; intros seen; simpl; [constructor |].
  destruct (existsb (same_value w) seen); [apply IH |].
  constructor; [| apply IH].
  apply Forall_forall. intros v Hv. apply unique_from_fresh in Hv.
  simpl in Hv. now apply orb_false_iff in Hv.
Qed.

(** X13.  The select box of the trend view offers the country of every
    row of the filtered sub-table, a name written as text under that very
    text, and offers no country twice. *)
Theorem every_filtered_country_offered (filtered_df : DataFrame) (countries : list cell) :
  outcome (country_list filtered_df) = inr countries ->
  (forall r, In r (rows filtered_df) ->
             exists u, In u countries /\ same_value (get "수입국" r) u = true)
  /\ (forall r s, In r (rows filtered_df) -> get "수입국" r = CStr s ->
                  In (CStr s) countries)
  /\ ForallOrdPairs (fun u v => same_value v u = false) countries.
Proof.
  unfold country_list, getitem.
  destruct (count_occ string_dec (columns filtered_df) "수입국") as [| [| n]];
    simpl; try discriminate.
  intros H. inversion H; subst. clear H.
  assert (Hcover : forall r, In r (rows filtered_df) ->
             exists u, In u (unique (map (get "수입국") (rows filtered_df)))
                       /\ same_value (get "수입국" r) u = true).
  { intros r Hr.
    pose proof (unique_from_covers (map (get "수입국") (rows filtered_df)) []
                  (get "수입국" r) (in_map _ _ _ Hr)) as Hc.
    simpl in Hc. apply existsb_exists in Hc. exact Hc. }
  split; [exact Hcover |]. split.
  - intros r s Hr Hs. destruct (Hcover r Hr) as (u & Hu & Hsame).
    rewrite Hs in Hsame. apply same_value_text in Hsame. now subst.
  - apply unique_from_distinct.
Qed.

(** ** The order of the comparison chart *)

Lemma fle_total (a b : float64) :
  a <> NaN -> b <> NaN -> fle a b = false -> fle b a = true.
Proof.
  destruct a as [p | [|] |], b as [q | [|] |]; simpl; try congruence; intros _ _ H.
  apply Qle_bool_iff. apply Qlt_le_weak. apply Qnot_le_lt.
  intros Hle. apply Qle_bool_iff in Hle. congruence.
Qed.

(** Of two values at most one sorts before the other. *)
Lemma sorts_before_asym (a b : float64) :
  sorts_before a b = true -> sorts_before b a = false.
Proof.
  destruct a as [p | x |], b as [q | y |]; cbn [sorts_before];
    try reflexivity; try discriminate;
    intros H; apply negb_true_iff in H; apply negb_false_iff;
    apply fle_total; congruence.
Qed.

Lemma insert_desc_perm (col : string) (r : row) (sorted : list row) :
  Permutation (insert_desc col r sorted) (r :: sorted).
Proof.
  induction sorted as [| r' rest IH]; simpl; [apply Permutation_refl |].
  destruct (sorts_before _ _); [| apply Permutation_refl].
  eapply Permutation_trans; [apply perm_skip, IH | apply perm_swap].
Qed.

Lemma insert_desc_head (col : string) (a r : row) (sorted : list row) :
  HdRel (may_follow col) a sorted -> may_follow col a r ->
  HdRel (may_follow col) a (insert_desc col r sorted).
Proof.
  destruct sorted as [| r' rest]; simpl; intros Hhd Hr.
  - now constructor.
  - destruct (sorts_before _ _); constructor; [| exact Hr].
    now inversion Hhd.
Qed.

Lemma insert_desc_sorted (col : string) (r : row) (sorted : list row) :
  Sorted (may_follow col) sorted -> Sorted (may_follow col) (insert_desc col r sorted).
Proof.
  induction sorted as [| r' rest IH]; simpl; intros Hs.
  - repeat constructor.
  - inversion Hs as [| ? ? Hrest Hhd]; subst.
    destruct (sorts_before (to_float (get col r')) (to_float (get col r))) eqn:E.
    + constructor; [now apply IH |].
      apply insert_desc_head; [exact Hhd |].
      unfold may_follow. now apply sorts_before_asym.
    + constructor; [exact Hs |]. constructor. exact E.
Qed.

Lemma sort_values_desc_perm (df : DataFrame) (col : string) :
  Permutation (rows (sort_values_desc df col)) (rows df).
Proof.
  unfold sort_values_desc. simpl.
  induction (rows df) as [| r l IH]; simpl; [constructor |].
  eapply Permutation_trans; [apply insert_desc_perm | now apply perm_skip].
Qed.

Lemma sort_values_desc_sorted (df : DataFrame) (col : string) :
  Sorted (may_follow col) (rows (sort_values_desc df col)).
Proof.
  unfold sort_values_desc. simpl.
  induction (rows df) as [| r l IH]; simpl; [constructor |].
  now apply insert_desc_sorted.
Qed.

(** X14.  Whatever bar chart [main] draws shows the rows of the
    rank-filtered sub-table, all of them and no other, in descending order
    of the column that the sort select box returns, which is one of the
    three offered; the bars are the import and export amounts per country. *)
Theorem comparison_chart_sorted (env : Env) (ss : Session) (d : DataFrame)
    (x : string) (y : list string) (barmode : string) (height : Z) :
  In (st_plotly_chart (px_bar d x y barmode height)) (events (main env ss)) ->
  exists df,
    outcome (load_data env FILE_PATH) = inr df
    /\ In (selectbox "" sort_options (sort_by_index ss)) sort_options
    /\ ((sort_by_index ss < List.length sort_options)%nat ->
        nth_error sort_options (sort_by_index ss)
        = Some (selectbox "" sort_options (sort_by_index ss)))
    /\ columns d = columns df
    /\ Permutation (rows d) (rows (rank_filter df (rank_range_value ss)))
    /\ Sorted (may_follow (selectbox "" sort_options (sort_by_index ss))) (rows d)
    /\ x = "수입국" /\ y = ["수입액(천$)"; "수출액(천$)"].
Proof.
  set (sort_by := selectbox "" sort_options (sort_by_index ss)).
  assert (Hchosen : (sort_by_index ss < List.length sort_options)%nat ->
                    nth_error sort_options (sort_by_index ss) = Some sort_by).
  { intros Hlt. unfold sort_by, selectbox.
    apply Nat.ltb_lt in Hlt. rewrite Hlt. apply Nat.ltb_lt in Hlt.
    now apply nth_error_nth'. }
  set (P := fun ev =>
              forall d x y barmode height,
                ev = st_plotly_chart (px_bar d x y barmode height) ->
                exists df,
                  outcome (load_data env FILE_PATH) = inr df
                  /\ In sort_by sort_options
                  /\ ((sort_by_index ss < List.length sort_options)%nat ->
                      nth_error sort_options (sort_by_index ss) = Some sort_by)
                  /\ columns d = columns df
                  /\ Permutation (rows d) (rows (rank_filter df (rank_range_value ss)))
                  /\ Sorted (may_follow sort_by) (rows d)
                  /\ x = "수입국" /\ y = ["수입액(천$)"; "수출액(천$)"]).
  assert (H : Forall P (events (main env ss))).
  { unfold main.
    apply Forall_events_bind; [apply Forall_events_emit; intros ? ? ? ? ? E; discriminate |].
    intros _ _.
    apply Forall_events_bind.
    { eapply Forall_impl; [| apply load_data_no_chart].
      intros ev Hev ? ? ? ? ? E. now apply Hev in E. }
    intros df Hdf. destruct (df_empty df); [constructor |].
    unfold render, kpi, tab1, tab2, tab3, total_import, total_export, avg_balance,
      country_list, plot, as_series, py_int, iloc0, getitem.
    repeat log_step;
      intros ? ? ? ? ? E; try discriminate.
    inversion E; subst.
    exists df.
    split; [assumption |].
    split; [apply selectbox_offered; discriminate |].
    split; [exact Hchosen |].
    split; [reflexivity |].
    split; [apply sort_values_desc_perm |].
    split; [apply sort_values_desc_sorted |].
    split; reflexivity. }
  intros Hin. rewrite Forall_forall in H. exact (H _ Hin _ _ _ _ _ eq_refl).
Qed.

(** ** What the trend chart plots *)

(** A table that [load_data] returns and [main] goes on with is the
    cleaned table of a file read. *)
Lemma loaded_table_accepted (env : Env) (file_path : string) (df : DataFrame) :
  outcome (load_data env file_path) = inr df ->
  df_empty df = false ->
  exists raw, accepts env file_path raw df.
Proof.
  intros Hout Hne.
  destruct (load_data_cases env file_path)
    as [(log & text & e & Hl & _) | (reads & raw & df' & _ & Hread & _ & _ & Hl)];
    rewrite Hl in Hout; simpl in Hout; inversion Hout; subst.
  - discriminate.
  - exists raw. repeat split; [exact Hread | now rewrite Hl | exact Hne].
Qed.

Lemma iloc0_first (df : DataFrame) (r : row) :
  outcome (iloc0 df) = inr r -> exists rest, rows df = r :: rest.
Proof.
  unfold iloc0. destruct (rows df) as [| r' rest]; simpl; [discriminate |].
  intros H. inversion H; subst. now exists rest.
Qed.

Lemma iloc0_events (df : DataFrame) : events (iloc0 df) = [].
Proof. unfold iloc0. now destruct (rows df). Qed.

(** The first element that a filter keeps is the first one for which the
    test holds. *)
Lemma filter_first {A} (f : A -> bool) (l : list A) (a : A) (rest : list A) :
  filter f l = a :: rest ->
  exists before after,
    l = List.app before (a :: after)
    /\ Forall (fun b => f b = false) before
    /\ f a = true.
Proof.
  induction l as [| b l IH]; simpl; [discriminate |].
  destruct (f b) eqn:E.
  - intros H. inversion H; subst. exists [], l. repeat split; [constructor | exact E].
  - intros H. destruct (IH H) as (before & after & -> & Hb & Ha).
    exists (b :: before), after. repeat split; [now constructor | exact Ha].
Qed.

(** [row.get] on a numeric column of an accepted table finds the value. *)
Lemma series_get_numeric (env : Env) (file_path : string) (raw df : DataFrame)
    (r : row) (col : string) (default : cell) :
  accepts env file_path raw df ->
  mem col numeric_cols = true ->
  In r (rows df) ->
  series_get r col default = get col r
  /\ nonneg_number (to_float (get col r)) = true.
Proof.
  intros Ha Hc Hin.
  pose proof (accepted_numeric_value env _ _ _ _ _ Ha Hc Hin) as Hn.
  split; [| exact Hn].
  unfold series_get. unfold get in *.
  destruct (lookup col r); [reflexivity | discriminate].
Qed.

(** X15.  Whatever trend chart [main] draws plots, over the years 2022,
    2023 and 2024, the cleaned import and export amounts of the first row
    of the whole loaded table whose country equals the selected one: the
    zero default of [.get] is never used, and no plotted value is missing
    or negative. *)
Theorem trend_chart_plots_selected_row (env : Env) (ss : Session)
    (title : string) (x : list string) (import_vals export_vals : list cell)
    (height : Z) :
  In (st_plotly_chart (go_lines title x import_vals export_vals height))
     (events (main env ss)) ->
  exists df country before r after,
    outcome (load_data env FILE_PATH) = inr df
    /\ rows df = List.app before (r :: after)
    /\ Forall (fun r' => py_eq (get "수입국" r') country = false) before
    /\ py_eq (get "수입국" r) country = true
    /\ title = (py_str env country ++ " - 3개년 추이")%string
    /\ x = years
    /\ import_vals = map (fun y => get (y ++ " - 수입금액(천$)") r) years
    /\ export_vals = map (fun y => get (y ++ " - 수출액(천$)") r) years
    /\ Forall (fun c => nonneg_number (to_float c) = true)
              (List.app import_vals export_vals).
Proof.
  set (P := fun ev =>
              forall title x import_vals export_vals height,
                ev = st_plotly_chart (go_lines title x import_vals export_vals height) ->
                exists df country before r after,
                  outcome (load_data env FILE_PATH) = inr df
                  /\ rows df = List.app before (r :: after)
                  /\ Forall (fun r' => py_eq (get "수입국" r') country = false) before
                  /\ py_eq (get "수입국" r) country = true
                  /\ title = (py_str env country ++ " - 3개년 추이")%string
                  /\ x = years
                  /\ import_vals = map (fun y => get (y ++ " - 수입금액(천$)") r) years
                  /\ export_vals = map (fun y => get (y ++ " - 수출액(천$)") r) years
                  /\ Forall (fun c => nonneg_number (to_float c) = true)
                            (List.app import_vals export_vals)).
  assert (H : Forall P (events (main env ss))).
  { unfold main.
    apply Forall_events_bind; [apply Forall_events_emit; intros ? ? ? ? ? E; discriminate |].
    intros _ _.
    apply Forall_events_bind.
    { eapply Forall_impl; [| apply load_data_no_chart].
      intros ev Hev ? ? ? ? ? E. now apply Hev in E. }
    intros df Hdf. destruct (df_empty df) eqn:Hne; [constructor |].
    destruct (loaded_table_accepted env _ _ Hdf Hne) as [raw Ha].
    unfold render, kpi, tab1, tab2, tab3, total_import, total_export, avg_balance,
      country_list, plot, as_series, py_int, getitem.
    repeat first [log_step | rewrite iloc0_events; constructor];
      intros ? ? ? ? ? E; try discriminate.
    inversion E; subst. clear E.
    match goal with
    | Hrow : outcome (iloc0 (rows_equal df "수입국" ?c)) = inr ?a |- _ =>
        apply iloc0_first in Hrow; destruct Hrow as [rest Hrow];
        destruct (filter_first _ _ _ _ Hrow) as (before & after & Hrows & Hb & Hr);
        assert (Hin : In a (rows df))
          by (rewrite Hrows; apply in_or_app; right; left; reflexivity);
        exists df, c, before, a, after;
        assert (Hget : forall col, mem col numeric_cols = true ->
                  series_get a col (CInt 0) = get col a
                  /\ nonneg_number (to_float (get col a)) = true)
          by (intros col Hc; now apply (series_get_numeric env FILE_PATH raw df))
    end.
    repeat (split; [assumption || reflexivity |]).
    unfold years. cbn [map List.app String.append].
    destruct (Hget "2022 - 수입금액(천$)" eq_refl) as [-> ?].
    destruct (Hget "2023 - 수입금액(천$)" eq_refl) as [-> ?].
    destruct (Hget "2024 - 수입금액(천$)" eq_refl) as [-> ?].
    destruct (Hget "2022 - 수출액(천$)" eq_refl) as [-> ?].
    destruct (Hget "2023 - 수출액(천$)" eq_refl) as [-> ?].
    destruct (Hget "2024 - 수출액(천$)" eq_refl) as [-> ?].
    repeat split; repeat constructor; assumption. }
  intros Hin. rewrite Forall_forall in H. exact (H _ Hin _ _ _ _ _ eq_refl).
Qed.

(** * The properties on the sample files *)

Lemma named_accepted : accepts named_env FILE_PATH named_raw named_df.
Proof. repeat split; vm_compute; reflexivity. Qed.

Lemma failing_trend_accepted : accepts failing_trend_env FILE_PATH named_raw named_df.
Proof. repeat split; vm_compute; reflexivity. Qed.

Lemma rank_filter_In (df : DataFrame) (rank_range : Z * Z) (r : row) :
  In r (rows (rank_filter df rank_range)) -> In r (rows df).
Proof.
  unfold rank_filter. cbn [rows]. intros Hin. now apply filter_In in Hin.
Qed.

Lemma named_df_countries :
  forallb (fun r => notna (get "수입국" r)) (rows named_df) = true.
Proof. vm_compute. reflexivity. Qed.

Lemma named_countries (rank_range : Z * Z) :
  forall r, In r (rows (rank_filter named_df rank_range)) ->
            notna (get "수입국" r) = true.
Proof.
  intros r Hin. apply rank_filter_In in Hin.
  exact (proj1 (forallb_forall _ _) named_df_countries r Hin).
Qed.

Lemma nothing_rendered_after_load_error_witness :
  outcome (load_data missing_file_env FILE_PATH) = inr empty_DataFrame
  /\ main missing_file_env sample_session
     = (st_sidebar_title "🌏 분석 도구 옵션"
          :: events (load_data missing_file_env FILE_PATH), inr tt).
Proof.
  apply (nothing_rendered_after_load_error missing_file_env sample_session
           "❌ 파일을 찾을 수 없습니다: 해외유망시장추천_20260116144351.csv" None).
  vm_compute. left. reflexivity.
Defined.

Lemma missing_rank_column_rejected_witness :
  exists reads,
    Forall (fun ev => is_read_call ev = true) reads
    /\ load_data no_rank_env FILE_PATH
       = (List.app reads
            [st_error "데이터에 '순위' 컬럼이 없습니다. CSV 파일 구조를 확인해주세요." None],
          inr empty_DataFrame).
Proof.
  apply (missing_rank_column_rejected no_rank_env FILE_PATH no_rank_raw).
  - reflexivity.
  - reflexivity.
Defined.

Lemma infinite_rank_rejects_file_witness :
  exists reads e,
    Forall (fun ev => is_read_call ev = true) reads
    /\ load_data infinite_rank_env FILE_PATH
       = (List.app reads [st_error "데이터 전처리 오류: " (Some e)], inr empty_DataFrame).
Proof.
  apply (infinite_rank_rejects_file infinite_rank_env FILE_PATH infinite_rank_raw
           (nth 1 (rows (strip_columns infinite_rank_raw)) []) false).
  - reflexivity.
  - reflexivity.
  - vm_compute. right. left. reflexivity.
  - reflexivity.
Defined.

Lemma load_data_accepts_witness :
  exists reads,
    Forall (fun ev => is_read_call ev = true) reads
    /\ load_data sample_env FILE_PATH
       = (reads,
          inr {| columns := clean_columns (columns (strip_columns sample_raw));
                 rows := map (clean_row sample_env (columns (strip_columns sample_raw)))
                           (filter rank_is_number (rows (strip_columns sample_raw))) |}).
Proof.
  apply (load_data_accepts sample_env FILE_PATH sample_raw).
  - reflexivity.
  - apply nodupb_NoDup. vm_compute. reflexivity.
  - reflexivity.
  - intros r Hin b. vm_compute in Hin.
    repeat (destruct Hin as [<- | Hin]; [vm_compute; discriminate |]).
    destruct Hin.
  - vm_compute. reflexivity.
Defined.

Lemma other_columns_untouched_witness :
  lookup "수입국" sample_first_row = Some (CStr "미국")
  /\ lookup "수입국" (clean_row sample_env (columns (strip_columns sample_raw))
                        sample_first_row)
     = lookup "수입국" sample_first_row.
Proof.
  split; [reflexivity |].
  destruct (other_columns_untouched sample_env FILE_PATH sample_raw sample_df
              sample_first_row "수입국") as (_ & H & _).
  - exact sample_accepted.
  - vm_compute. left. reflexivity.
  - reflexivity.
  - reflexivity.
  - exact H.
Defined.

Lemma slider_covers_loaded_ranks_witness :
  exists lo hi rest,
    events (main named_env sample_session)
    = st_sidebar_title "🌏 분석 도구 옵션"
        :: List.app (events (load_data named_env FILE_PATH))
             (st_sidebar_slider "분석할 국가 순위 범위 (Rank)" lo hi (lo, Z.min hi 20)
                :: rest)
    /\ (forall r, In r (rows named_df) -> exists z, get "순위" r = CInt z /\ lo <= z <= hi)
    /\ (exists r, In r (rows named_df) /\ get "순위" r = CInt lo)
    /\ (exists r, In r (rows named_df) /\ get "순위" r = CInt hi)
    /\ rows (rank_filter named_df (lo, hi)) = rows named_df.
Proof.
  apply (slider_covers_loaded_ranks named_env sample_session named_raw named_df).
  exact named_accepted.
Defined.

Lemma kpi_of_loaded_table_witness :
  no_int64_wrap (map (get "수출액(천$)") (rows (rank_filter sample_df (1, 5)))) = true
  /\ exists imp exp avg,
       total_import (rank_filter sample_df (1, 5)) = ([], inr imp)
       /\ total_export (rank_filter sample_df (1, 5)) = ([], inr exp)
       /\ avg_balance (rank_filter sample_df (1, 5)) = ([], inr avg)
       /\ is_nan imp = false
       /\ is_nan exp = false
       /\ nonneg_number avg = true
       /\ nonneg_number exp = true.
Proof.
  assert (Hguard : no_int64_wrap (map (get "수출액(천$)")
                                     (rows (rank_filter sample_df (1, 5)))) = true)
    by (vm_compute; reflexivity).
  split; [exact Hguard |].
  destruct (kpi_of_loaded_table sample_env FILE_PATH sample_raw sample_df (1, 5)
              sample_accepted)
    as (imp & exp & avg & H1 & H2 & H3 & H4 & H5 & _ & H7 & _ & H9).
  exists imp, exp, avg.
  split; [exact H1 |]. split; [exact H2 |]. split; [exact H3 |].
  split; [exact H4 |]. split; [exact H5 |].
  split; [apply H7; vm_compute; discriminate | exact (H9 Hguard)].
Defined.

Lemma main_completes_witness :
  outcome (main named_env sample_session) = inr tt
  /\ exists shown,
       events (main named_env sample_session)
       = List.app shown [st_expander "📂 원본 데이터 보기";
                         st_dataframe (rank_filter named_df (rank_range_value sample_session))].
Proof.
  apply (main_completes named_env sample_session named_raw named_df).
  - exact named_accepted.
  - reflexivity.
  - apply named_countries.
  - intros fig _. reflexivity.
Defined.

Lemma empty_selection_shows_notice_witness :
  outcome (main named_env empty_range_session) = inr tt
  /\ exists before,
       events (main named_env empty_range_session)
       = List.app before
           [st_subheader "국가별 연도별 추이";
            st_info "선택된 범위 내에 국가 데이터가 없습니다.";
            st_expander "📂 원본 데이터 보기";
            st_dataframe (rank_filter named_df (rank_range_value empty_range_session))].
Proof.
  apply (empty_selection_shows_notice named_env empty_range_session named_raw named_df).
  - exact named_accepted.
  - reflexivity.
  - intros fig _. reflexivity.
  - reflexivity.
Defined.

Lemma trend_plot_failure_shows_placeholder_witness :
  outcome (main failing_trend_env sample_session) = inr tt
  /\ exists before options,
       events (main failing_trend_env sample_session)
       = List.app before
           [st_subheader "국가별 연도별 추이";
            st_selectbox "국가 선택" options;
            st_info "연도별 상세 데이터가 부족하여 그래프를 그릴 수 없습니다.";
            st_expander "📂 원본 데이터 보기";
            st_dataframe (rank_filter named_df (rank_range_value sample_session))].
Proof.
  apply (trend_plot_failure_shows_placeholder failing_trend_env sample_session
           named_raw named_df).
  - exact failing_trend_accepted.
  - reflexivity.
  - apply named_countries.
  - intros fig Hfig. destruct fig; [reflexivity | reflexivity | discriminate].
  - intros fig Hfig. destruct fig; [discriminate | discriminate | discriminate].
  - vm_compute. discriminate.
Defined.

Lemma every_filtered_country_offered_witness :
  (forall r, In r (rows (rank_filter sample_df (1, 5))) ->
             exists u, In u [CStr "미국"; CStr "독일"; CStr "일본"]
                       /\ same_value (get "수입국" r) u = true)
  /\ (forall r s, In r (rows (rank_filter sample_df (1, 5))) ->
                  get "수입국" r = CStr s ->
                  In (CStr s) [CStr "미국"; CStr "독일"; CStr "일본"])
  /\ ForallOrdPairs (fun u v => same_value v u = false)
                    [CStr "미국"; CStr "독일"; CStr "일본"].
Proof.
  apply (every_filtered_country_offered (rank_filter sample_df (1, 5))
           [CStr "미국"; CStr "독일"; CStr "일본"]).
  vm_compute. reflexivity.
Defined.

Lemma comparison_chart_sorted_witness :
  exists df,
    outcome (load_data sample_env FILE_PATH) = inr df
    /\ In (selectbox "" sort_options (sort_by_index export_sort_session)) sort_options
    /\ ((sort_by_index export_sort_session < List.length sort_options)%nat ->
        nth_error sort_options (sort_by_index export_sort_session)
        = Some (selectbox "" sort_options (sort_by_index export_sort_session)))
    /\ columns (sort_values_desc (rank_filter sample_df (1, 5)) "수출액(천$)") = columns df
    /\ Permutation (rows (sort_values_desc (rank_filter sample_df (1, 5)) "수출액(천$)"))
                   (rows (rank_filter df (rank_range_value export_sort_session)))
    /\ Sorted (may_follow (selectbox "" sort_options (sort_by_index export_sort_session)))
              (rows (sort_values_desc (rank_filter sample_df (1, 5)) "수출액(천$)"))
    /\ "수입국" = "수입국" /\ ["수입액(천$)"; "수출액(천$)"] = ["수입액(천$)"; "수출액(천$)"].
Proof.
  apply (comparison_chart_sorted sample_env export_sort_session
           (sort_values_desc (rank_filter sample_df (1, 5)) "수출액(천$)")
           "수입국" ["수입액(천$)"; "수출액(천$)"] "group" 500).
  apply nth_error_In with (n := 13%nat). vm_compute. reflexivity.
Defined.

Lemma trend_chart_plots_selected_row_witness :
  exists df country before r after,
    outcome (load_data sample_env FILE_PATH) = inr df
    /\ rows df = List.app before (r :: after)
    /\ Forall (fun r' => py_eq (get "수입국" r') country = false) before
    /\ py_eq (get "수입국" r) country = true
    /\ "미국 - 3개년 추이" = (py_str sample_env country ++ " - 3개년 추이")%string
    /\ ["2022"; "2023"; "2024"] = years
    /\ [CInt 0; CInt 0; CFloat (Fin (5 # 1))]
       = map (fun y => get (y ++ " - 수입금액(천$)") r) years
    /\ [CInt 0; CInt 0; CInt 0]
       = map (fun y => get (y ++ " - 수출액(천$)") r) years
    /\ Forall (fun c => nonneg_number (to_float c) = true)
              (List.app [CInt 0; CInt 0; CFloat (Fin (5 # 1))] [CInt 0; CInt 0; CInt 0]).
Proof.
  apply (trend_chart_plots_selected_row sample_env sample_session
           "미국 - 3개년 추이" ["2022"; "2023"; "2024"]
           [CInt 0; CInt 0; CFloat (Fin (5 # 1))] [CInt 0; CInt 0; CInt 0] 400).
  apply nth_error_In with (n := 18%nat). vm_compute. reflexivity.
Defined.
